(** * A catalog backend: partial updates, lookups, cascades and image artifacts

    Shallow embedding of the model and controller layer of the video game
    catalog API (PostgreSQL through [pg], Express handlers).

    - Part I embeds the statement builders of the model layer
      ([updateVideoGame], [updateGenre], [updateUser], [clientExists],
      [getVideoGames]) as functions that build the statement text and the
      parameter array exactly as the JavaScript does, and send them through
      a client whose backend is arbitrary.
    - Part II gives a tokenizer, two parsers and an evaluator for the
      statements of Part I, used to read what a generated text means
      (which columns it assigns, which rows a paginated lookup returns).
    - Part III embeds the controllers that run cascades inside a
      transaction ([deleteVideoGame], [deletePlatform], [deleteUser],
      [createPlatformWithNewVideoGames]) over a store with explicit
      transaction state, an artifact store, a trace of events and
      injected faults.  Controllers are reasoned about with triples over
      the state and exception monad; runs without faults are computed.
    - Part IV embeds the rest of the model layer (the count statement of
      [clientExists], the lookups of [getGenres], the two revisions of
      [getVideoGames] with [getVideoGamesPagination]) and reads the
      generated statements with the evaluator of Part II.
    - Part V follows a request to its end under every schedule of
      rejected statements and failing file operations: what is committed,
      what is answered, which artifacts remain ([deleteUser],
      [deletePlatform], [deleteVideoGame], [createPlatform],
      [updatePlatform], [getVideoGame]).
    - Part VI shows that the cascades keep the references between the
      tables of the store intact, whatever fails.
    - Part VII runs the cascades on rows that are not there. *)

From Stdlib Require Import List String Ascii ZArith Lia Bool DecimalString Arith DecimalNat.
Import ListNotations.
Local Open Scope string_scope.

(* ================================================================= *)
(** * Part I.  Values, errors and the client monad *)

(** JavaScript values that reach a statement parameter.  [undefined] is
    not a constructor: an argument that may be [undefined] has type
    [option _] with [None] for [undefined] (or for [null] where the source
    tests [!== null], which is said at each such place). *)
Inductive Value : Type :=
| VNum (z : Z)
| VStr (s : string)
| VBool (b : bool)
| VNull.

Definition Value_eqb (a b : Value) : bool :=
  match a, b with
  | VNum x, VNum y => Z.eqb x y
  | VStr x, VStr y => String.eqb x y
  | VBool x, VBool y => Bool.eqb x y
  | VNull, VNull => true
  | _, _ => false
  end.

(** Thrown values.  [DatabaseError] is what [pg] rejects with: it carries
    the SQLSTATE in [.code] and the constraint text in [.detail]. *)
Inductive JsError : Type :=
| Error (message : string)
| DatabaseError (code message detail : string)
| ReferenceError (identifier : string)
| TypeError (message : string).

Definition error_code (e : JsError) : option string :=
  match e with
  | DatabaseError c _ _ => Some c
  | _ => None
  end.

Definition error_message (e : JsError) : string :=
  match e with
  | Error m => m
  | DatabaseError _ m _ => m
  | ReferenceError x => x ++ " is not defined"
  | TypeError m => m
  end.

Definition error_detail (e : JsError) : string :=
  match e with
  | DatabaseError _ _ d => d
  | _ => ""
  end.

(** ** Strings as the source manipulates them *)

(** The double quote character of [UPDATE "user" ...]. *)
Definition dq : string := String "034"%char EmptyString.

(** Template literal [${n}] for a number. *)
Definition decimal (n : nat) : string :=
  NilEmpty.string_of_uint (Nat.to_uint n).

(** [`$${index}`] *)
Definition placeholder (index : nat) : string := "$" ++ decimal index.

(** [s.slice(0, -k)] *)
Definition slice_end (s : string) (k : nat) : string :=
  substring 0 (String.length s - k) s.

Definition lower_ascii (c : ascii) : ascii :=
  let n := nat_of_ascii c in
  if Nat.leb 65 n && Nat.leb n 90 then ascii_of_nat (n + 32) else c.

(** [s.toLowerCase()] on ASCII text.  A string is a sequence of bytes;
    on a string whose bytes are all below 128 this is what JavaScript
    computes.  A cased letter outside ASCII is left as it is here and is
    put to lower case by JavaScript, so what is stated of a search by
    name is stated for ASCII text (see [ascii_text]). *)
Fixpoint toLowerCase (s : string) : string :=
  match s with
  | EmptyString => EmptyString
  | String c s' => String (lower_ascii c) (toLowerCase s')
  end.

(** [s.includes(sub)] *)
Fixpoint includes (s sub : string) : bool :=
  prefix sub s ||
  match s with
  | EmptyString => false
  | String _ s' => includes s' sub
  end.

(** [array.join(sep)] *)
Definition join (sep : string) (l : list string) : string := String.concat sep l.

(** [array.push(x)] *)
Definition push {A : Type} (l : list A) (x : A) : list A := (l ++ [x])%list.
Arguments push {A} l x : simpl never.

(** ** Results of [client.query] *)

(** A row is a record of named columns. *)
Definition Row : Type := list (string * Value).

Fixpoint field (r : Row) (col : string) : option Value :=
  match r with
  | [] => None
  | (c, v) :: r' => if String.eqb c col then Some v else field r' col
  end.

Record PgResult : Type := mkResult { rows : list Row; rowCount : nat }.

(** ** State and exception monad

    [M S A] is a computation over a state [S] that returns an [A] or throws
    a [JsError].  [await] of a promise is sequencing; a rejected promise
    is a thrown error. *)
Definition M (S A : Type) : Type := S -> (A + JsError) * S.

Definition ret {S A} (a : A) : M S A := fun s => (inl a, s).

Definition throw {S A} (e : JsError) : M S A := fun s => (inr e, s).

Definition bind {S A B} (m : M S A) (k : A -> M S B) : M S B :=
  fun s =>
    match m s with
    | (inl a, s') => k a s'
    | (inr e, s') => (inr e, s')
    end.

(** [try { body } catch (error) { handler }] *)
Definition try_catch {S A} (body : M S A) (handler : JsError -> M S A) : M S A :=
  fun s =>
    match body s with
    | (inl a, s') => (inl a, s')
    | (inr e, s') => handler e s'
    end.

(** A promise that is created and neither awaited nor given a handler: the
    operation still runs, in program order ([pg] queues the queries of one
    client first in, first out), but its rejection reaches no [catch].
    Here the caller goes on after such a rejection, as it does in a
    process that survives unhandled rejections.  A process that does not
    survive them (the default of Node from version 15 on, when no
    [unhandledRejection] listener is installed) ends when the rejection
    is delivered, with what the server was sent before: what is stated
    of a run past the rejection of an un-awaited operation is stated of
    the first kind of process. *)
Definition not_awaited {S A} (m : M S A) : M S unit :=
  fun s => (inl tt, snd (m s)).

Declare Scope js_scope.
Delimit Scope js_scope with js.
Notation "x <- m ;; k" := (bind m (fun x => k))
  (at level 100, m at next level, right associativity) : js_scope.
Notation "m ;;; k" := (bind m (fun _ => k))
  (at level 100, right associativity) : js_scope.
Local Open Scope js_scope.

(** ** The client of the model layer

    The backend is any function from a statement text and its parameters
    to a result or an error; the client records every statement it sends. *)
Definition Backend (Db : Type) : Type :=
  string -> list Value -> Db -> (PgResult + JsError) * Db.

Record Client (Db : Type) : Type :=
  mkClient { db : Db; sent : list (string * list Value) }.
Arguments mkClient {Db} _ _.
Arguments db {Db} _.
Arguments sent {Db} _.

(** [client.query(text, params)] *)
Definition client_query {Db} (backend : Backend Db)
    (text : string) (params : list Value) : M (Client Db) PgResult :=
  fun c =>
    let '(r, d) := backend text params (db c) in
    (r, mkClient d (push (sent c) (text, params))).

(* ================================================================= *)
(** * Part I (continued).  The statement builders of the model layer *)

(** ** model/videoGame.js *)
Module VideoGameModel.

(** [updateValues]: a field is [None] when it is [undefined]. *)
Record UpdateValues : Type :=
  { name : option Value; description : option Value }.

(** The text and values [getVideoGames] hands to [client.query];
    [id], [name], [page], [limit] are [None] when [undefined]. *)
Definition getVideoGames_statement
    (id : option Value) (name : option string) (page limit : option Z)
  : string * list Value :=
  let queryConditions : list string := [] in
  let queryValues : list Value := [] in
  let '(queryConditions, queryValues) :=
    match id with
    | Some id =>
        (push queryConditions ("id = " ++ placeholder (List.length queryValues + 1)),
         push queryValues (id))
    | None => (queryConditions, queryValues)
    end in
  let '(queryConditions, queryValues) :=
    match name with
    | Some name =>
        (push queryConditions ("LOWER(name) LIKE " ++ placeholder (List.length queryValues + 1)),
         push queryValues (VStr ("%" ++ toLowerCase name ++ "%")))
    | None => (queryConditions, queryValues)
    end in
  let query := "SELECT * FROM video_game" in
  let query :=
    if Nat.ltb 0 (List.length queryConditions)
    then query ++ " WHERE " ++ join " AND " queryConditions
    else query in
  match page, limit with
  | Some page, Some limit =>
      let query := query ++ " LIMIT " ++ placeholder (List.length queryValues + 1) in
      let queryValues := push queryValues (VNum limit) in
      let query := query ++ " OFFSET " ++ placeholder (List.length queryValues + 1) in
      let queryValues := push queryValues (VNum ((page - 1) * limit)) in
      (query, queryValues)
  | _, _ => (query, queryValues)
  end.

(** The later revision: [page = DEFAULT_PAGE], [limit = DEFAULT_LIMIT]
    are default parameters, the rows are ordered by id and the
    pagination clause is unconditional.  The two constants come from
    [tools/constant], which is not part of the sources: they are
    arguments here. *)
Definition getVideoGames_statement_v2 (DEFAULT_PAGE DEFAULT_LIMIT : Z)
    (id : option Value) (name : option string) (page limit : option Z)
  : string * list Value :=
  let page := match page with Some p => p | None => DEFAULT_PAGE end in
  let limit := match limit with Some l => l | None => DEFAULT_LIMIT end in
  let queryConditions : list string := [] in
  let queryValues : list Value := [] in
  let '(queryConditions, queryValues) :=
    match id with
    | Some id =>
        (push queryConditions ("id = " ++ placeholder (List.length queryValues + 1)),
         push queryValues (id))
    | None => (queryConditions, queryValues)
    end in
  let '(queryConditions, queryValues) :=
    match name with
    | Some name =>
        (push queryConditions ("LOWER(name) LIKE " ++ placeholder (List.length queryValues + 1)),
         push queryValues (VStr ("%" ++ toLowerCase name ++ "%")))
    | None => (queryConditions, queryValues)
    end in
  let query := "SELECT * FROM video_game" in
  let query :=
    if Nat.ltb 0 (List.length queryConditions)
    then query ++ " WHERE " ++ join " AND " queryConditions
    else query in
  let query := query ++ " ORDER BY id ASC" in
  let query := query ++ " LIMIT " ++ placeholder (List.length queryValues + 1) in
  let queryValues := push queryValues (VNum limit) in
  let query := query ++ " OFFSET " ++ placeholder (List.length queryValues + 1) in
  let queryValues := push queryValues (VNum ((page - 1) * limit)) in
  (query, queryValues).

Section WithClient.
Context {Db : Type} (backend : Backend Db).

Definition getVideoGames id name page limit : M (Client Db) PgResult :=
  let '(query, queryValues) := getVideoGames_statement id name page limit in
  client_query backend query queryValues.

Definition getVideoGames_v2 DEFAULT_PAGE DEFAULT_LIMIT id name page limit
  : M (Client Db) PgResult :=
  let '(query, queryValues) :=
    getVideoGames_statement_v2 DEFAULT_PAGE DEFAULT_LIMIT id name page limit in
  client_query backend query queryValues.

Definition createVideoGame (name description : Value) : M (Client Db) PgResult :=
  client_query backend
    "INSERT INTO video_game (name, description) VALUES ($1, $2) RETURNING id"
    [name; description].

Definition videoGameExists (id : Value) : M (Client Db) bool :=
  r <- client_query backend "SELECT id FROM video_game WHERE id = $1" [id] ;;
  ret (Nat.eqb (List.length (rows r)) 1).

Definition updateVideoGame (id : Value) (updateValues : UpdateValues)
  : M (Client Db) PgResult :=
  let query := "UPDATE video_game SET " in
  let params : list Value := [] in
  let index := 1 in
  let '(query, params, index) :=
    match name updateValues with
    | Some name =>
        (query ++ "name = " ++ placeholder index ++ ", ", push params (name), S index)
    | None => (query, params, index)
    end in
  let '(query, params, index) :=
    match description updateValues with
    | Some description =>
        (query ++ "description = " ++ placeholder index ++ ", ",
         push params (description), S index)
    | None => (query, params, index)
    end in
  if Nat.eqb (List.length params) 0 then throw (Error "No values to update")
  else
    let query := slice_end query 2 in
    let query := query ++ " WHERE id = " ++ placeholder index in
    let params := push params (id) in
    client_query backend query params.

Definition deleteVideoGame (id : Value) : M (Client Db) PgResult :=
  client_query backend "DELETE FROM video_game WHERE id = $1" [id].

Definition getVideoGameCount : M (Client Db) PgResult :=
  client_query backend "SELECT COUNT(*) AS no FROM video_game" [].
End WithClient.
End VideoGameModel.

(** ** model/genre.js *)
Module GenreModel.

Record UpdateValues : Type :=
  { name : option Value; description : option Value }.

(** [`${queryConditions}`] is [Array.prototype.toString]: a join on [","]. *)
Definition getGenres_statement
    (id : option Value) (alphabetical : bool) (page limit : option Z)
  : string * list Value :=
  let queryConditions : list string := [] in
  let queryValues : list Value := [] in
  let query := "SELECT * FROM genre " in
  let '(queryConditions, queryValues) :=
    match id with
    | Some id =>
        (push queryConditions ("id = " ++ placeholder (List.length queryValues + 1)),
         push queryValues (id))
    | None => (queryConditions, queryValues)
    end in
  let query :=
    if Nat.ltb 0 (List.length queryConditions)
    then query ++ " WHERE " ++ join "," queryConditions
    else query in
  let query := if alphabetical then query ++ "ORDER BY name ASC" else query in
  match page, limit with
  | Some page, Some limit =>
      let query :=
        query ++ " LIMIT " ++ placeholder (List.length queryValues + 1)
              ++ " OFFSET " ++ placeholder (List.length queryValues + 2) in
      let queryValues := push queryValues (VNum limit) in
      let queryValues := push queryValues (VNum ((page - 1) * limit)) in
      (query, queryValues)
  | _, _ => (query, queryValues)
  end.

Section WithClient.
Context {Db : Type} (backend : Backend Db).

Definition getGenres id alphabetical page limit : M (Client Db) PgResult :=
  let '(query, queryValues) := getGenres_statement id alphabetical page limit in
  client_query backend query queryValues.

Definition updateGenre (id : Value) (updateValues : UpdateValues)
  : M (Client Db) PgResult :=
  let newName := name updateValues in
  let newDescription := description updateValues in
  let query := "UPDATE genre SET " in
  let values : list Value := [] in
  let index := 1 in
  let '(query, values, index) :=
    match newName with
    | Some newName =>
        (query ++ "name = " ++ placeholder index ++ ", ", push values (newName), S index)
    | None => (query, values, index)
    end in
  let '(query, values, index) :=
    match newDescription with
    | Some newDescription =>
        (query ++ "description = " ++ placeholder index ++ ", ",
         push values (newDescription), S index)
    | None => (query, values, index)
    end in
  if Nat.eqb (List.length values) 0 then throw (Error "No values to update")
  else
    let query := slice_end query 2 in
    let query := query ++ " WHERE id = " ++ placeholder index in
    let values := push values (id) in
    client_query backend query values.
End WithClient.
End GenreModel.

(** ** model/userDB.js *)
Module UserModel.

(** [rows[0].no > 0]: the count arrives as a number or as a decimal
    string, which [>] converts; anything else compares as [false]. *)
Definition gt_zero (v : option Value) : bool :=
  match v with
  | Some (VNum z) => Z.ltb 0 z
  | Some (VStr s) =>
      match NilEmpty.uint_of_string s with
      | Some u => Nat.ltb 0 (Nat.of_uint u)
      | None => false
      end
  | Some (VBool b) => b
  | _ => false
  end.

Definition is_null {A : Type} (v : option A) : bool :=
  match v with None => true | Some _ => false end.

(** An element of the parameter array that may be [undefined]: [pg]
    sends [undefined] as NULL, like [null]. *)
Definition parameter (v : option Value) : Value :=
  match v with Some v => v | None => VNull end.

Section WithClient.
Context {Db : Type} (backend : Backend Db).

Definition first_row_no (r : PgResult) : M (Client Db) bool :=
  match rows r with
  | [] => throw (TypeError "Cannot read properties of undefined (reading 'no')")
  | row :: _ => ret (gt_zero (field row "no"))
  end.

Definition getUserFromId (id : Value) : M (Client Db) PgResult :=
  client_query backend ("SELECT * FROM " ++ dq ++ "user" ++ dq ++ " WHERE id = $1") [id].

(** [id], [username], [email] default to [null]; [None] is [null]. *)
Definition clientExists (id username email : option Value) : M (Client Db) bool :=
  let query := "SELECT count(*) AS no FROM " ++ dq ++ "user" ++ dq ++ " WHERE " in
  let values : list Value := [] in
  let index := 1 in
  if is_null id && is_null username && is_null email then ret false
  else
    let '(query, values, index) :=
      match id with
      | Some id => (query ++ "id = " ++ placeholder index ++ ", ", push values id, S index)
      | None => (query, values, index)
      end in
    let '(query, values, index) :=
      match username with
      | Some username =>
          (query ++ "username = " ++ placeholder index ++ ", ", push values username, S index)
      | None => (query, values, index)
      end in
    let '(query, values, index) :=
      match email with
      | Some email =>
          (query ++ "email = " ++ placeholder index ++ ", ", push values email, S index)
      | None => (query, values, index)
      end in
    let query := slice_end query 2 in
    r <- client_query backend query values ;;
    first_row_no r.

(** [firstname], [lastname], [password] default to [null]; [None] is
    [null].  [username] and [email] have no default and are assigned in
    every call; [None] is [undefined], an argument the caller leaves out. *)
Definition updateUser (userId : Value) (username email : option Value)
    (firstname lastname password : option Value) : M (Client Db) PgResult :=
  let query := "UPDATE " ++ dq ++ "user" ++ dq ++ " SET username = $1 , email = $2 ," in
  let values : list Value := [parameter username; parameter email] in
  let index := 3 in
  let '(query, values, index) :=
    match firstname with
    | Some firstname =>
        (query ++ "firstname = " ++ placeholder index ++ ", ", push values firstname, S index)
    | None => (query, values, index)
    end in
  let '(query, values, index) :=
    match lastname with
    | Some lastname =>
        (query ++ "lastname = " ++ placeholder index ++ ", ", push values lastname, S index)
    | None => (query, values, index)
    end in
  let '(query, values, index) :=
    match password with
    | Some password =>
        (query ++ "hashed_password = " ++ placeholder index ++ ", ",
         push values password, S index)
    | None => (query, values, index)
    end in
  let query := slice_end query 2 in
  let query := query ++ " WHERE id = " ++ placeholder index in
  let values := push values userId in
  client_query backend query values.

Definition deleteUser (userId : Value) : M (Client Db) PgResult :=
  client_query backend ("DELETE FROM " ++ dq ++ "user" ++ dq ++ " WHERE id = $1") [userId].

Definition isAdmin (userId : Value) : M (Client Db) bool :=
  r <- client_query backend
         ("SELECT count(*) AS no FROM " ++ dq ++ "user" ++ dq
            ++ " WHERE id = $1 AND is_admin = true")
         [userId] ;;
  first_row_no r.
End WithClient.
End UserModel.

(** ** controller/videoGame.js, the update handler

    The handler as it runs once the path id is a number and the body has
    passed the partial schema; [pool.connect()] has handed over the client
    and [client.release()] in [finally] touches nothing observed here. *)
Module VideoGameController.

Inductive Response : Type :=
| NoContent                    (* 204 *)
| NotFound (message : string)  (* 404 *)
| InternalServerError.         (* 500 *)

Section WithClient.
Context {Db : Type} (backend : Backend Db).

Definition updateVideoGame (id : Value) (videoGame : VideoGameModel.UpdateValues)
  : M (Client Db) Response :=
  try_catch
    (r <- VideoGameModel.updateVideoGame backend id videoGame ;;
     if Nat.eqb (rowCount r) 0
     then ret (NotFound "No video game found")
     else ret NoContent)
    (fun _ => ret InternalServerError).
End WithClient.
End VideoGameController.

(* ================================================================= *)
(** * Part II.  Reading the generated statements

    A tokenizer and two small parsers for the statement shapes Part I
    produces, and an evaluator of the lookups over a table.  They give the
    generated text a meaning that does not depend on how it was built. *)

Definition is_blank (c : ascii) : bool := Ascii.eqb c " ".
Definition is_comma (c : ascii) : bool := Ascii.eqb c ",".

Definition flush (current : string) (rest : list string) : list string :=
  match current with
  | EmptyString => rest
  | _ => current :: rest
  end.

(** Blanks separate tokens; a comma is a token of its own. *)
Fixpoint tokens_from (s current : string) : list string :=
  match s with
  | EmptyString => flush current []
  | String c s' =>
      if is_blank c then flush current (tokens_from s' "")
      else if is_comma c then flush current ("," :: tokens_from s' "")
      else tokens_from s' (current ++ String c "")
  end.

Definition tokens (s : string) : list string := tokens_from s "".

(** [$n] with [n >= 1]. *)
Definition parse_placeholder (t : string) : option nat :=
  match t with
  | String c d =>
      if Ascii.eqb c "$" && negb (String.eqb d "")
      then match NilEmpty.uint_of_string d with
           | Some u => match Nat.of_uint u with O => None | n => Some n end
           | None => None
           end
      else None
  | EmptyString => None
  end.

(** *** [UPDATE t SET c1 = $1, ..., ck = $k WHERE key = $n] *)
Record UpdateStmt : Type :=
  { upd_table : string;
    upd_set : list (string * nat);
    upd_where : string * nat }.

Fixpoint parse_assignments (ts : list string)
  : option (list (string * nat) * list string) :=
  match ts with
  | col :: eq :: ph :: rest =>
      if String.eqb eq "=" then
        match parse_placeholder ph with
        | Some n =>
            match rest with
            | sep :: rest' =>
                if String.eqb sep "," then
                  match parse_assignments rest' with
                  | Some (l, r) => Some ((col, n) :: l, r)
                  | None => None
                  end
                else Some ([(col, n)], rest)
            | [] => Some ([(col, n)], rest)
            end
        | None => None
        end
      else None
  | _ => None
  end.

Definition parse_update (text : string) : option UpdateStmt :=
  match tokens text with
  | kw :: table :: set :: ts =>
      if String.eqb kw "UPDATE" && String.eqb set "SET" then
        match parse_assignments ts with
        | Some (assignments, [wh; col; eq; ph]) =>
            if String.eqb wh "WHERE" && String.eqb eq "=" then
              match parse_placeholder ph with
              | Some n =>
                  Some {| upd_table := table; upd_set := assignments; upd_where := (col, n) |}
              | None => None
              end
            else None
        | _ => None
        end
      else None
  | _ => None
  end.

(* ================================================================= *)
(** * Theorems on the update builders and the existence check *)

(** The taxonomy's name for the error the update builders throw. *)
Definition NoFieldsToUpdate : JsError := Error "No values to update".

(** The fields of a sparse update that carry a value, in the order the
    builder visits them. *)
Definition provided (fields : list (string * option Value)) : list (string * Value) :=
  flat_map (fun f => match snd f with Some v => [(fst f, v)] | None => [] end) fields.

(** Columns paired with the placeholders [$1], [$2], ... *)
Definition numbered (cols : list string) : list (string * nat) :=
  combine cols (seq 1 (List.length cols)).

Definition videoGame_fields (u : VideoGameModel.UpdateValues) : list (string * option Value) :=
  [("name", VideoGameModel.name u); ("description", VideoGameModel.description u)].

(** The optional fields of a user update. *)
Definition user_fields (firstname lastname password : option Value)
  : list (string * option Value) :=
  [("firstname", firstname); ("lastname", lastname); ("hashed_password", password)].

(** What [updateUser] assigns: [username] and [email] in every call, NULL
    when the caller leaves them out, then the optional fields that are
    provided. *)
Definition user_assignments (username email firstname lastname password : option Value)
  : list (string * Value) :=
  ("username", UserModel.parameter username)
    :: ("email", UserModel.parameter email)
    :: provided (user_fields firstname lastname password).

(** What the spec asks a sparse update to be: one assignment per provided
    field, numbered from [$1], then the key predicate on the next
    placeholder; and the parameters it carries. *)
Definition expected_update (table key : string) (set : list (string * Value)) : UpdateStmt :=
  {| upd_table := table;
     upd_set := numbered (map fst set);
     upd_where := (key, S (List.length set)) |}.

Definition expected_params (set : list (string * Value)) (id : Value) : list Value :=
  (map snd set ++ [id])%list.

(** The value a placeholder [$n] addresses. *)
Definition param (params : list Value) (n : nat) : option Value :=
  match n with
  | O => None
  | S i => nth_error params i
  end.

Lemma combine_seq_nth : forall (cols : list string) start i col,
  nth_error cols i = Some col ->
  nth_error (combine cols (seq start (List.length cols))) i = Some (col, start + i).
Proof.
  induction cols as [|c cols IH]; intros start i col H.
  - destruct i; discriminate.
  - destruct i as [|i]; simpl in *.
    + inversion H; subst. now rewrite Nat.add_0_r.
    + rewrite (IH (S start) i col H). f_equal. f_equal. lia.
Qed.

(** In the expected statement every assignment addresses the value of its
    own field, and the key predicate addresses the identifier. *)
Lemma expected_update_addresses : forall table key set id,
  (forall i col v,
      nth_error set i = Some (col, v) ->
      exists n,
        nth_error (upd_set (expected_update table key set)) i = Some (col, n)
        /\ param (expected_params set id) n = Some v)
  /\ param (expected_params set id) (snd (upd_where (expected_update table key set))) = Some id
  /\ List.length (expected_params set id) = S (List.length (upd_set (expected_update table key set))).
Proof.
  intros table key set id. unfold expected_update, expected_params, numbered; simpl.
  split; [|split].
  - intros i col v H. exists (S i). split.
    + replace (S i) with (1 + i) by lia. apply combine_seq_nth.
      rewrite nth_error_map, H. reflexivity.
    + simpl. rewrite nth_error_app1.
      * rewrite nth_error_map, H. reflexivity.
      * rewrite length_map. apply nth_error_Some. congruence.
  - rewrite nth_error_app2; rewrite length_map; [|lia].
    now rewrite Nat.sub_diag.
  - rewrite length_app, length_combine, length_seq, !length_map.
    simpl. lia.
Qed.

(** An update of a video game or of a genre that provides no field
    throws "No values to update" (NoFieldsToUpdate) and leaves the client
    as it was: no statement has been sent and the backend has not been
    consulted. *)
Lemma update_without_fields_sends_nothing :
  forall (Db : Type) (backend : Backend Db) (id : Value) (c : Client Db),
    VideoGameModel.updateVideoGame backend id
      {| VideoGameModel.name := None; VideoGameModel.description := None |} c
    = (inr NoFieldsToUpdate, c)
    /\ GenreModel.updateGenre backend id
         {| GenreModel.name := None; GenreModel.description := None |} c
       = (inr NoFieldsToUpdate, c).
Proof.
  intros Db backend id c. split; reflexivity.
Qed.

(** The HTTP handler of the video game update does not tell this error
    from a backend failure: it answers 500, still without any statement. *)
Lemma updateVideoGame_handler_without_fields :
  forall (Db : Type) (backend : Backend Db) (id : Value) (c : Client Db),
    VideoGameController.updateVideoGame backend id
      {| VideoGameModel.name := None; VideoGameModel.description := None |} c
    = (inl VideoGameController.InternalServerError, c).
Proof.
  intros Db backend id c. reflexivity.
Qed.

(** C6.  The handler of the video game update on a body without any
    field: the builder throws "No values to update" (NoFieldsToUpdate)
    before any statement, and the handler, which has no test of its own
    for an empty body, answers from its catch-all with 500 Internal
    Server Error, as for a failure of the backend. *)
Theorem updateVideoGame_empty_body_answers_500 :
  forall (Db : Type) (backend : Backend Db) (id : Value) (c : Client Db),
    VideoGameModel.updateVideoGame backend id
      {| VideoGameModel.name := None; VideoGameModel.description := None |} c
    = (inr NoFieldsToUpdate, c)
    /\ VideoGameController.updateVideoGame backend id
         {| VideoGameModel.name := None; VideoGameModel.description := None |} c
       = (inl VideoGameController.InternalServerError, c).
Proof.
  intros Db backend id c. split.
  - apply update_without_fields_sends_nothing.
  - apply updateVideoGame_handler_without_fields.
Qed.

(** A backend that answers every statement with [rowCount] rows affected. *)
Definition constant_backend (rowCount : nat) : Backend unit :=
  fun _ _ d => (inl (mkResult [] rowCount), d).

(** C7 as stated fails: an update of user 7 that provides the first name
    only, leaving [username] and [email] out, also assigns [username] and
    [email], with NULL. *)
Lemma updateUser_counterexample :
  UserModel.updateUser (constant_backend 1) (VNum 7) None None (Some (VStr "Ada")) None None
    (mkClient tt [])
  = (inl (mkResult [] 1),
     mkClient tt
       [("UPDATE " ++ dq ++ "user" ++ dq
           ++ " SET username = $1 , email = $2 ,firstname = $3 WHERE id = $4",
         [VNull; VNull; VStr "Ada"; VNum 7])]).
Proof. reflexivity. Qed.

(** C7, amended.  A sparse update of a video game with at least one
    provided field sends exactly one statement, whose text parses to one
    assignment per provided field (absent fields do not occur), numbered
    [$1], [$2], ... in step with the parameter array, followed by the
    single key predicate.  An update of a user assigns [username] and
    [email] in every call, with NULL for the one the caller leaves out,
    and after them one assignment per provided optional field, numbered
    in step with the parameter array, followed by the single key
    predicate.  The result of the backend, and so its row count, is
    returned unchanged, and the handler reads a row count of zero as
    "not found". *)
Theorem partial_update_in_lock_step :
  forall (Db : Type) (backend : Backend Db) (c : Client Db) (id : Value)
         (u : VideoGameModel.UpdateValues)
         (username email firstname lastname password : option Value),
    provided (videoGame_fields u) <> [] ->
    (exists text,
        VideoGameModel.updateVideoGame backend id u c
        = client_query backend text (expected_params (provided (videoGame_fields u)) id) c
        /\ parse_update text
           = Some (expected_update "video_game" "id" (provided (videoGame_fields u))))
    /\ (exists text,
        UserModel.updateUser backend id username email firstname lastname password c
        = client_query backend text
            (expected_params
               (user_assignments username email firstname lastname password) id) c
        /\ parse_update text
           = Some (expected_update (dq ++ "user" ++ dq) "id"
                     (user_assignments username email firstname lastname password)))
    /\ (forall text params r d,
          backend text params (db c) = (inl r, d) ->
          client_query backend text params c
          = (inl r, mkClient d (push (sent c) (text, params))))
    /\ (forall r c',
          VideoGameModel.updateVideoGame backend id u c = (inl r, c') ->
          VideoGameController.updateVideoGame backend id u c
          = (inl (if Nat.eqb (rowCount r) 0
                  then VideoGameController.NotFound "No video game found"
                  else VideoGameController.NoContent), c')).
Proof.
  intros Db backend c id u username email firstname lastname password Hprov.
  split; [|split; [|split]].
  - destruct u as [[n|] [d|]]; cbn in Hprov; try congruence;
      eexists; split; reflexivity.
  - destruct firstname, lastname, password; eexists; split; reflexivity.
  - intros text params r d H. unfold client_query. now rewrite H.
  - intros r c' H. unfold VideoGameController.updateVideoGame, try_catch, bind.
    rewrite H. destruct (Nat.eqb (rowCount r) 0); reflexivity.
Qed.

Lemma partial_update_in_lock_step_witness :
  provided (videoGame_fields
              {| VideoGameModel.name := Some (VStr "Portal");
                 VideoGameModel.description := None |}) <> []
  /\ VideoGameController.updateVideoGame (constant_backend 0) (VNum 7)
       {| VideoGameModel.name := Some (VStr "Portal"); VideoGameModel.description := None |}
       (mkClient tt [])
     = (inl (VideoGameController.NotFound "No video game found"),
        mkClient tt [("UPDATE video_game SET name = $1 WHERE id = $2", [VStr "Portal"; VNum 7])]).
Proof.
  split; [discriminate|].
  apply (proj2 (proj2 (proj2
    (partial_update_in_lock_step unit (constant_backend 0) (mkClient tt []) (VNum 7)
       {| VideoGameModel.name := Some (VStr "Portal"); VideoGameModel.description := None |}
       (Some (VStr "u")) None None None None ltac:(discriminate))))
    (mkResult [] 0)).
  reflexivity.
Defined.

(** C10.  [clientExists] called with [id], [username] and [email] all
    [null] answers [false] and leaves the client as it was: no statement
    is sent, and no error is raised. *)
Theorem clientExists_without_filter :
  forall (Db : Type) (backend : Backend Db) (c : Client Db),
    UserModel.clientExists backend None None None c = (inl false, c).
Proof.
  intros Db backend c. reflexivity.
Qed.

(* ================================================================= *)
(** * Part II (continued).  Lookups: parsing and evaluation *)

(** *** [SELECT * FROM t [WHERE c AND ...] [ORDER BY col ASC] [LIMIT $n] [OFFSET $m]] *)
Inductive Condition : Type :=
| CondEq (col : string) (ph : nat)          (* col = $n *)
| CondLowerLike (col : string) (ph : nat).  (* LOWER(col) LIKE $n *)

Record SelectStmt : Type :=
  { sel_table : string;
    sel_where : list Condition;
    sel_order_by : option string;
    sel_limit : option nat;
    sel_offset : option nat }.

Definition parse_condition (lhs op ph : string) : option Condition :=
  match parse_placeholder ph with
  | Some n =>
      if String.eqb op "=" then Some (CondEq lhs n)
      else if String.eqb op "LIKE" && prefix "LOWER(" lhs
                && String.eqb (substring (String.length lhs - 1) 1 lhs) ")"
      then Some (CondLowerLike (substring 6 (String.length lhs - 7) lhs) n)
      else None
  | None => None
  end.

Fixpoint parse_conditions (ts : list string) : option (list Condition * list string) :=
  match ts with
  | lhs :: op :: ph :: rest =>
      match parse_condition lhs op ph with
      | Some c =>
          match rest with
          | kw :: rest' =>
              if String.eqb kw "AND" then
                match parse_conditions rest' with
                | Some (l, r) => Some (c :: l, r)
                | None => None
                end
              else Some ([c], rest)
          | [] => Some ([c], rest)
          end
      | None => None
      end
  | _ => None
  end.

Definition parse_where (ts : list string) : option (list Condition * list string) :=
  match ts with
  | kw :: rest => if String.eqb kw "WHERE" then parse_conditions rest else Some ([], ts)
  | [] => Some ([], ts)
  end.

Definition parse_order_by (ts : list string) : option string * list string :=
  match ts with
  | o :: b :: col :: dir :: rest =>
      if String.eqb o "ORDER" && String.eqb b "BY" && String.eqb dir "ASC"
      then (Some col, rest) else (None, ts)
  | _ => (None, ts)
  end.

Definition parse_bound (kw : string) (ts : list string) : option (option nat * list string) :=
  match ts with
  | k :: rest =>
      if String.eqb k kw then
        match rest with
        | ph :: rest' =>
            match parse_placeholder ph with
            | Some n => Some (Some n, rest')
            | None => None
            end
        | [] => None
        end
      else Some (None, ts)
  | [] => Some (None, ts)
  end.

Definition parse_select (text : string) : option SelectStmt :=
  match tokens text with
  | sel :: star :: from :: table :: ts =>
      if String.eqb sel "SELECT" && String.eqb star "*" && String.eqb from "FROM" then
        match parse_where ts with
        | Some (conds, ts) =>
            let '(order, ts) := parse_order_by ts in
            match parse_bound "LIMIT" ts with
            | Some (lim, ts) =>
                match parse_bound "OFFSET" ts with
                | Some (off, []) =>
                    Some {| sel_table := table; sel_where := conds; sel_order_by := order;
                            sel_limit := lim; sel_offset := off |}
                | _ => None
                end
            | None => None
            end
        | None => None
        end
      else None
  | _ => None
  end.

(** [LIKE]: [%] matches any run of characters, [_] any one character. *)
Fixpoint like (pattern s : string) : bool :=
  match pattern with
  | EmptyString => match s with EmptyString => true | _ => false end
  | String p pattern' =>
      if Ascii.eqb p "%" then
        (fix any (s : string) : bool :=
           like pattern' s
           || match s with
              | EmptyString => false
              | String _ s' => any s'
              end) s
      else
        match s with
        | EmptyString => false
        | String c s' => (Ascii.eqb p "_" || Ascii.eqb p c) && like pattern' s'
        end
  end.

(** Whether a row passes a condition.  [LOWER] puts the letters A to Z
    to lower case, which is what the server computes on ASCII text. *)
Definition holds (params : list Value) (r : Row) (c : Condition) : bool :=
  match c with
  | CondEq col ph =>
      match field r col, param params ph with
      | Some x, Some v => Value_eqb x v
      | _, _ => false
      end
  | CondLowerLike col ph =>
      match field r col, param params ph with
      | Some (VStr s), Some (VStr p) => like p (toLowerCase s)
      | _, _ => false
      end
  end.

Definition value_leb (a b : option Value) : bool :=
  match a, b with
  | Some (VNum x), Some (VNum y) => Z.leb x y
  | Some (VStr x), Some (VStr y) => String.leb x y
  | _, _ => true
  end.

Fixpoint insert_by (col : string) (r : Row) (l : list Row) : list Row :=
  match l with
  | [] => [r]
  | x :: l' =>
      if value_leb (field r col) (field x col) then r :: l
      else x :: insert_by col r l'
  end.

(** [ORDER BY col ASC] *)
Definition order_by (col : string) (l : list Row) : list Row :=
  fold_right (insert_by col) [] l.

(** The count a [LIMIT] or [OFFSET] placeholder stands for: an absent
    clause or a [NULL] parameter puts no bound, a negative number is
    refused by the server. *)
Definition bound (params : list Value) (ph : option nat) : option (option nat) :=
  match ph with
  | None => Some None
  | Some n =>
      match param params n with
      | Some (VNum z) => if Z.ltb z 0 then None else Some (Some (Z.to_nat z))
      | Some VNull => Some None
      | _ => None
      end
  end.

Definition run_select (q : SelectStmt) (params : list Value) (table : list Row)
  : PgResult + JsError :=
  let matching := filter (fun r => forallb (holds params r) (sel_where q)) table in
  let ordered :=
    match sel_order_by q with
    | Some col => order_by col matching
    | None => matching
    end in
  match bound params (sel_limit q), bound params (sel_offset q) with
  | Some lim, Some off =>
      let skipped := match off with Some o => skipn o ordered | None => ordered end in
      let taken := match lim with Some l => firstn l skipped | None => skipped end in
      inl (mkResult taken (List.length taken))
  | _, _ => inr (DatabaseError "2201W" "LIMIT or OFFSET must not be negative" "")
  end.

(** A database is its tables, each a list of rows in scan order. *)
Definition Database : Type := string -> list Row.

(** The backend restricted to lookups. *)
Definition select_backend : Backend Database :=
  fun text params d =>
    match parse_select text with
    | Some q => (run_select q params (d (sel_table q)), d)
    | None => (inr (DatabaseError "42601" "syntax error" ""), d)
    end.

(** The rows a lookup returns from a database, [None] if it fails. *)
Definition lookup (m : M (Client Database) PgResult) (d : Database) : option (list Row) :=
  match fst (m (mkClient d [])) with
  | inl r => Some (rows r)
  | inr _ => None
  end.

(** The spec's page: 1-based, [offset = (page - 1) * limit]. *)
Definition page_of (page limit : Z) (l : list Row) : list Row :=
  firstn (Z.to_nat limit) (skipn (Z.to_nat ((page - 1) * limit)) l).

(** The rows of [video_game] that pass the optional filters. *)
Definition matching_video_games (id : option Value) (name : option string) (d : Database)
  : list Row :=
  filter
    (fun r =>
       match id with
       | Some id => match field r "id" with Some x => Value_eqb x id | None => false end
       | None => true
       end
       && match name with
          | Some name =>
              match field r "name" with
              | Some (VStr s) => like ("%" ++ toLowerCase name ++ "%") (toLowerCase s)
              | _ => false
              end
          | None => true
          end)
    (d "video_game").

Definition video_game_row (id : Z) : Row :=
  [("id", VNum id); ("name", VStr ("game " ++ decimal (Z.to_nat id))); ("description", VStr "")].

Definition ids (first count : nat) : list Z := map Z.of_nat (seq first count).

(** 25 video games with ids 1 to 25, in ascending order. *)
Definition catalog25 : Database :=
  fun table => if String.eqb table "video_game" then map video_game_row (ids 1 25) else [].

(* ================================================================= *)
(** * Theorems on paginated lookups *)

(** Replace the statement a lookup builds by its text and values. *)
Ltac eval_statement :=
  lazymatch goal with
  | |- context [VideoGameModel.getVideoGames_statement ?a ?b ?c ?e] =>
      let t := eval lazy in (fst (VideoGameModel.getVideoGames_statement a b c e)) in
      let v := eval cbv [snd VideoGameModel.getVideoGames_statement push app List.length]
               in (snd (VideoGameModel.getVideoGames_statement a b c e)) in
      change (VideoGameModel.getVideoGames_statement a b c e) with (t, v)
  | |- context [VideoGameModel.getVideoGames_statement_v2 ?p ?l ?a ?b ?c ?e] =>
      let t := eval lazy in (fst (VideoGameModel.getVideoGames_statement_v2 p l a b c e)) in
      let v := eval cbv [snd VideoGameModel.getVideoGames_statement_v2 push app List.length]
               in (snd (VideoGameModel.getVideoGames_statement_v2 p l a b c e)) in
      change (VideoGameModel.getVideoGames_statement_v2 p l a b c e) with (t, v)
  end.

(** Replace the parse of a closed text by its result. *)
Ltac eval_parse :=
  lazymatch goal with
  | |- context [parse_select ?t] =>
      let q := eval vm_compute in (parse_select t) in
      change (parse_select t) with q
  end.

Ltac run_lookup :=
  eval_statement;
  cbv [client_query select_backend db fst]; eval_parse;
  cbv [run_select sel_table sel_where sel_order_by sel_limit sel_offset bound param nth_error].

Ltac same_filter :=
  apply filter_ext; intros ?r; cbn [forallb holds param nth_error];
  rewrite ?andb_true_r; reflexivity.

Lemma getVideoGames_page : forall d id name page limit,
  (1 <= page)%Z -> (0 <= limit)%Z ->
  lookup (VideoGameModel.getVideoGames select_backend id name (Some page) (Some limit)) d
  = Some (page_of page limit (matching_video_games id name d)).
Proof.
  intros d id name page limit Hp Hl.
  assert (Ho : (0 <= (page - 1) * limit)%Z) by nia.
  unfold lookup, VideoGameModel.getVideoGames.
  destruct id as [id|], name as [name|]; run_lookup;
    destruct (Z.ltb_spec limit 0); try lia;
    destruct (Z.ltb_spec ((page - 1) * limit) 0); try lia;
    cbv [rows]; unfold page_of, matching_video_games; do 3 f_equal; same_filter.
Qed.

Lemma getVideoGames_unpaginated : forall d id name page limit,
  page = None \/ limit = None ->
  lookup (VideoGameModel.getVideoGames select_backend id name page limit) d
  = Some (matching_video_games id name d).
Proof.
  intros d id name page limit H.
  unfold lookup, VideoGameModel.getVideoGames.
  destruct id as [id|], name as [name|], page as [page|], limit as [limit|];
    try (destruct H; discriminate); run_lookup;
    cbv [rows]; unfold matching_video_games; f_equal; same_filter.
Qed.

Lemma getVideoGames_v2_run : forall DEFAULT_PAGE DEFAULT_LIMIT d id name page limit,
  lookup (VideoGameModel.getVideoGames_v2 select_backend DEFAULT_PAGE DEFAULT_LIMIT
            id name page limit) d
  = let p := match page with Some p => p | None => DEFAULT_PAGE end in
    let l := match limit with Some l => l | None => DEFAULT_LIMIT end in
    if (Z.ltb l 0 || Z.ltb ((p - 1) * l) 0)%bool then None
    else Some (page_of p l (order_by "id" (matching_video_games id name d))).
Proof.
  intros dp dl d id name page limit.
  unfold lookup, VideoGameModel.getVideoGames_v2.
  destruct id as [id|], name as [name|]; run_lookup; cbv zeta;
    set (p := match page with Some p => p | None => dp end);
    set (l := match limit with Some l => l | None => dl end);
    destruct (Z.ltb l 0); cbn [orb fst]; try reflexivity;
    destruct (Z.ltb ((p - 1) * l) 0); cbn [fst]; try reflexivity;
    cbv [rows]; unfold page_of, matching_video_games; do 4 f_equal; same_filter.
Qed.

Lemma getVideoGames_v2_page : forall DEFAULT_PAGE DEFAULT_LIMIT d id name page limit,
  (1 <= match page with Some p => p | None => DEFAULT_PAGE end)%Z ->
  (0 <= match limit with Some l => l | None => DEFAULT_LIMIT end)%Z ->
  lookup (VideoGameModel.getVideoGames_v2 select_backend DEFAULT_PAGE DEFAULT_LIMIT
            id name page limit) d
  = Some (page_of (match page with Some p => p | None => DEFAULT_PAGE end)
                  (match limit with Some l => l | None => DEFAULT_LIMIT end)
                  (order_by "id" (matching_video_games id name d))).
Proof.
  intros dp dl d id name page limit Hp Hl.
  rewrite getVideoGames_v2_run. cbv zeta.
  set (p := match page with Some p => p | None => dp end) in *.
  set (l := match limit with Some l => l | None => dl end) in *.
  assert (Ho : (0 <= (p - 1) * l)%Z) by nia.
  destruct (Z.ltb_spec l 0); try lia.
  destruct (Z.ltb_spec ((p - 1) * l) 0); try lia.
  reflexivity.
Qed.

Lemma filter_all : forall (A : Type) (f : A -> bool) (l : list A),
  (forall x, f x = true) -> filter f l = l.
Proof.
  intros A f l Hf. induction l as [|x l IH]; simpl; [reflexivity|].
  now rewrite Hf, IH.
Qed.

(** C8 as stated fails on the later revision of [getVideoGames]: with
    [page] and [limit] both absent the statement still carries [LIMIT] and
    [OFFSET], and whatever the two default constants are, some catalog is
    not returned in full. *)
Lemma pagination_defaults_counterexample :
  (forall DEFAULT_PAGE DEFAULT_LIMIT,
      fst (VideoGameModel.getVideoGames_statement_v2 DEFAULT_PAGE DEFAULT_LIMIT
             None None None None)
      = "SELECT * FROM video_game ORDER BY id ASC LIMIT $1 OFFSET $2")
  /\ ~ (exists DEFAULT_PAGE DEFAULT_LIMIT, forall d,
          lookup (VideoGameModel.getVideoGames_v2 select_backend DEFAULT_PAGE DEFAULT_LIMIT
                    None None None None) d
          = Some (matching_video_games None None d)).
Proof.
  split; [reflexivity|].
  intros [dp [dl H]].
  remember (S (Z.to_nat dl)) as n eqn:Hn.
  specialize (H (fun _ => repeat (video_game_row 1) n)).
  rewrite getVideoGames_v2_run in H. cbv zeta in H.
  destruct (Z.ltb dl 0 || Z.ltb ((dp - 1) * dl) 0)%bool; [discriminate|].
  injection H as H. apply (f_equal (@List.length Row)) in H.
  unfold page_of, matching_video_games in H.
  rewrite length_firstn in H.
  rewrite filter_all in H by reflexivity.
  rewrite repeat_length in H. lia.
Qed.

(** C8, amended.  With [page] and [limit] both provided a lookup returns
    the 1-based page of the matching rows, at offset [(page - 1) * limit];
    over 25 rows in ascending id order, limit 10, page 2 is rows 11 to 20,
    page 3 is rows 21 to 25 and page 4 is empty, without error.  If either
    is absent, the first revision applies no pagination and returns every
    matching row, while the later revision substitutes [DEFAULT_PAGE] and
    [DEFAULT_LIMIT], orders by id and always paginates. *)
Theorem pagination_by_revision :
  forall (d : Database) (id : option Value) (name : option string)
         (page limit DEFAULT_PAGE DEFAULT_LIMIT : Z),
    (1 <= page)%Z -> (0 <= limit)%Z ->
    (1 <= DEFAULT_PAGE)%Z -> (0 <= DEFAULT_LIMIT)%Z ->
    lookup (VideoGameModel.getVideoGames select_backend id name (Some page) (Some limit)) d
    = Some (page_of page limit (matching_video_games id name d))
    /\ lookup (VideoGameModel.getVideoGames select_backend None None (Some 2%Z) (Some 10%Z))
         catalog25
       = Some (map video_game_row (ids 11 10))
    /\ lookup (VideoGameModel.getVideoGames select_backend None None (Some 3%Z) (Some 10%Z))
         catalog25
       = Some (map video_game_row (ids 21 5))
    /\ lookup (VideoGameModel.getVideoGames select_backend None None (Some 4%Z) (Some 10%Z))
         catalog25
       = Some []
    /\ (forall p, lookup (VideoGameModel.getVideoGames select_backend id name p None) d
                  = Some (matching_video_games id name d))
    /\ (forall l, lookup (VideoGameModel.getVideoGames select_backend id name None l) d
                  = Some (matching_video_games id name d))
    /\ lookup (VideoGameModel.getVideoGames_v2 select_backend DEFAULT_PAGE DEFAULT_LIMIT
                 id name (Some page) (Some limit)) d
       = Some (page_of page limit (order_by "id" (matching_video_games id name d)))
    /\ lookup (VideoGameModel.getVideoGames_v2 select_backend DEFAULT_PAGE DEFAULT_LIMIT
                 id name (Some page) None) d
       = Some (page_of page DEFAULT_LIMIT (order_by "id" (matching_video_games id name d)))
    /\ lookup (VideoGameModel.getVideoGames_v2 select_backend DEFAULT_PAGE DEFAULT_LIMIT
                 id name None (Some limit)) d
       = Some (page_of DEFAULT_PAGE limit (order_by "id" (matching_video_games id name d)))
    /\ lookup (VideoGameModel.getVideoGames_v2 select_backend DEFAULT_PAGE DEFAULT_LIMIT
                 id name None None) d
       = Some (page_of DEFAULT_PAGE DEFAULT_LIMIT
                 (order_by "id" (matching_video_games id name d))).
Proof.
  intros d id name page limit dp dl Hp Hl Hdp Hdl.
  repeat split.
  - now apply getVideoGames_page.
  - intros p. apply getVideoGames_unpaginated. now right.
  - intros l. apply getVideoGames_unpaginated. now left.
  - now apply getVideoGames_v2_page.
  - now apply getVideoGames_v2_page.
  - now apply getVideoGames_v2_page.
  - now apply getVideoGames_v2_page.
Qed.

Lemma pagination_by_revision_witness :
  (1 <= 2)%Z /\ (0 <= 10)%Z /\ (1 <= 1)%Z /\ (0 <= 50)%Z
  /\ lookup (VideoGameModel.getVideoGames select_backend None None (Some 2%Z) (Some 10%Z))
       catalog25
     = Some (page_of 2 10 (matching_video_games None None catalog25)).
Proof.
  assert (H1 : (1 <= 2)%Z) by lia.
  assert (H2 : (0 <= 10)%Z) by lia.
  assert (H3 : (1 <= 1)%Z) by lia.
  assert (H4 : (0 <= 50)%Z) by lia.
  repeat (split; [assumption|]).
  exact (proj1 (pagination_by_revision catalog25 None None 2 10 1 50 H1 H2 H3 H4)).
Defined.

(* ================================================================= *)
(** * Part III.  The store, transactions, artifacts and the controllers *)

(** ** Rows of the relational store *)
Record VideoGame : Type :=
  mkVideoGame { vg_id : Z; vg_name : Value; vg_description : Value }.

Record Platform : Type :=
  mkPlatform { pf_code : string; pf_description : string; pf_abbreviation : string }.

Record Publication : Type :=
  mkPublication
    { pub_id : Z;
      pub_platform_code : string;
      pub_video_game_id : Z;
      pub_release_date : Value;
      pub_release_price : option Value;
      pub_store_page_url : option Value }.

(** One user's ownership of one publication. *)
Record Game : Type := mkGame { game_user_id : Z; game_publication_id : Z }.

(** A join row between a category and a video game. *)
Record CategoryLink : Type := mkCategoryLink { cl_category_id : Z; cl_video_game_id : Z }.

Record User : Type := mkUser { user_id : Z; user_username : string; user_is_admin : bool }.

Record Store : Type :=
  mkStore
    { video_games : list VideoGame;
      platforms : list Platform;
      publications : list Publication;
      games : list Game;
      category_links : list CategoryLink;
      users : list User }.

(** ** Statements

    The statements the controllers send, by meaning.  The text of those
    whose model function is in the sources is recognised by [decode]
    below; the others belong to model files that are not in the sources. *)
Inductive Stmt : Type :=
| BEGIN
| COMMIT
| ROLLBACK
| GetPublicationsOfVideoGame (videoGameId : Z)
| GetPublicationsOfPlatform (platformCode : string)
| DeleteGamesFromPublication (publicationId : Z)
| DeletePublication (publicationId : Z)
| DeleteCategoriesFromVideoGame (videoGameId : Z)
| DeleteVideoGame (id : Z)
| DeletePlatform (code : string)
| CreatePlatform (code description abbreviation : string)
| CreateVideoGame (name description : Value)
| CreatePublication (platformCode : string) (videoGameId : Z) (release_date : Value)
    (release_price store_page_url : option Value)
| IsAdmin (userId : Z)
| DeleteGamesFromUser (userId : Z)
| DeleteUser (userId : Z).

(** [tools/PGErrors] is not in the sources; this is PostgreSQL's SQLSTATE
    for a unique violation. *)
Definition UNIQUE_VIOLATION : string := "23505".

Definition publication_row (p : Publication) : Row :=
  [("id", VNum (pub_id p)); ("platform_code", VStr (pub_platform_code p));
   ("video_game_id", VNum (pub_video_game_id p))].

(** The next value of a serial key: above every key in the table. *)
Definition fresh (keys : list Z) : Z := fold_right Z.max 0%Z keys + 1.

Definition deleted {A : Type} (keep : A -> bool) (table : list A) : PgResult :=
  mkResult [] (List.length table - List.length (filter keep table)).

Definition set_video_games (s : Store) (l : list VideoGame) : Store :=
  mkStore l (platforms s) (publications s) (games s) (category_links s) (users s).
Definition set_platforms (s : Store) (l : list Platform) : Store :=
  mkStore (video_games s) l (publications s) (games s) (category_links s) (users s).
Definition set_publications (s : Store) (l : list Publication) : Store :=
  mkStore (video_games s) (platforms s) l (games s) (category_links s) (users s).
Definition set_games (s : Store) (l : list Game) : Store :=
  mkStore (video_games s) (platforms s) (publications s) l (category_links s) (users s).
Definition set_category_links (s : Store) (l : list CategoryLink) : Store :=
  mkStore (video_games s) (platforms s) (publications s) (games s) l (users s).
Definition set_users (s : Store) (l : list User) : Store :=
  mkStore (video_games s) (platforms s) (publications s) (games s) (category_links s) l.

(** The effect of a data statement on the rows it sees.  A platform code
    is unique; the other statements cannot fail on their own (any
    statement can still fail by an injected fault, see [run]). *)
Definition apply (st : Stmt) (s : Store) : (PgResult + JsError) * Store :=
  match st with
  | BEGIN | COMMIT | ROLLBACK => (inl (mkResult [] 0), s)
  | GetPublicationsOfVideoGame id =>
      let found := filter (fun p => Z.eqb (pub_video_game_id p) id) (publications s) in
      (inl (mkResult (map publication_row found) (List.length found)), s)
  | GetPublicationsOfPlatform code =>
      let found := filter (fun p => String.eqb (pub_platform_code p) code) (publications s) in
      (inl (mkResult (map publication_row found) (List.length found)), s)
  | DeleteGamesFromPublication p =>
      let keep := fun g => negb (Z.eqb (game_publication_id g) p) in
      (inl (deleted keep (games s)), set_games s (filter keep (games s)))
  | DeletePublication p =>
      let keep := fun x => negb (Z.eqb (pub_id x) p) in
      (inl (deleted keep (publications s)), set_publications s (filter keep (publications s)))
  | DeleteCategoriesFromVideoGame id =>
      let keep := fun l => negb (Z.eqb (cl_video_game_id l) id) in
      (inl (deleted keep (category_links s)),
       set_category_links s (filter keep (category_links s)))
  | DeleteVideoGame id =>
      let keep := fun v => negb (Z.eqb (vg_id v) id) in
      (inl (deleted keep (video_games s)), set_video_games s (filter keep (video_games s)))
  | DeletePlatform code =>
      let keep := fun p => negb (String.eqb (pf_code p) code) in
      (inl (deleted keep (platforms s)), set_platforms s (filter keep (platforms s)))
  | CreatePlatform code description abbreviation =>
      if existsb (fun p => String.eqb (pf_code p) code) (platforms s)
      then (inr (DatabaseError UNIQUE_VIOLATION
                   "duplicate key value violates unique constraint"
                   ("Key (code)=(" ++ code ++ ") already exists.")), s)
      else (inl (mkResult [] 1),
            set_platforms s (push (platforms s) (mkPlatform code description abbreviation)))
  | CreateVideoGame name description =>
      let id := fresh (map vg_id (video_games s)) in
      (inl (mkResult [[("id", VNum id)]] 1),
       set_video_games s (push (video_games s) (mkVideoGame id name description)))
  | CreatePublication code videoGameId release_date release_price store_page_url =>
      let id := fresh (map pub_id (publications s)) in
      (inl (mkResult [[("id", VNum id)]] 1),
       set_publications s
         (push (publications s)
            (mkPublication id code videoGameId release_date release_price store_page_url)))
  | IsAdmin userId =>
      let admins :=
        filter (fun u => Z.eqb (user_id u) userId && user_is_admin u) (users s) in
      (inl (mkResult [[("no", VNum (Z.of_nat (List.length admins)))]] 1), s)
  | DeleteGamesFromUser userId =>
      let keep := fun g => negb (Z.eqb (game_user_id g) userId) in
      (inl (deleted keep (games s)), set_games s (filter keep (games s)))
  | DeleteUser userId =>
      let keep := fun u => negb (Z.eqb (user_id u) userId) in
      (inl (deleted keep (users s)), set_users s (filter keep (users s)))
  end.

(** ** Artifacts and responses *)

(** An image lives in a folder under a name: a platform code or a video
    game id. *)
Definition ArtifactKey : Type := (string * Value)%type.

Definition key_eqb (a b : ArtifactKey) : bool :=
  String.eqb (fst a) (fst b) && Value_eqb (snd a) (snd b).

Definition Image : Type := string.

Definition remove_artifact (k : ArtifactKey) (files : list (ArtifactKey * Image))
  : list (ArtifactKey * Image) :=
  filter (fun f => negb (key_eqb (fst f) k)) files.

Definition put_artifact (k : ArtifactKey) (i : Image) (files : list (ArtifactKey * Image))
  : list (ArtifactKey * Image) :=
  push (remove_artifact k files) (k, i).

Inductive Response : Type :=
| SendStatus (status : nat)                    (* res.sendStatus(s) *)
| Send (status : nat) (text : string)           (* res.status(s).send(text) *)
| Json (status : nat) (code message : string).  (* res.status(s).json({code, message}) *)

Definition status_of (r : Response) : nat :=
  match r with
  | SendStatus s => s
  | Send s _ => s
  | Json s _ _ => s
  end.

Inductive Event : Type :=
| Sql (st : Stmt) (ok : bool)
| SaveImage (k : ArtifactKey) (ok : bool)
| DeleteImage (k : ArtifactKey)
| Responded (r : Response)
| DeleteImageFailed (k : ArtifactKey).

(** ** The world a controller runs in

    [committed] is what every other transaction sees.  [tx] is the
    working copy of the open transaction of this connection, if any.
    [db_faults] and [file_faults] inject failures: each statement (each
    image write or deletion) consumes one entry, [Some e] makes it fail
    with [e] without effect; an exhausted list injects nothing. *)
Record World : Type :=
  mkWorld
    { committed : Store;
      tx : option Store;
      db_faults : list (option JsError);
      files : list (ArtifactKey * Image);
      file_faults : list (option JsError);
      trace : list Event;
      response : option Response }.

Definition initial_world (s : Store) (f : list (ArtifactKey * Image))
    (db_faults file_faults : list (option JsError)) : World :=
  mkWorld s None db_faults f file_faults [] None.

Definition next_fault (faults : list (option JsError))
  : option JsError * list (option JsError) :=
  match faults with
  | [] => (None, [])
  | f :: rest => (f, rest)
  end.

Definition is_ok {A : Type} (r : A + JsError) : bool :=
  match r with inl _ => true | inr _ => false end.

(** One statement on the connection.  Outside a transaction a data
    statement commits at once. *)
Definition run (st : Stmt) (w : World) : (PgResult + JsError) * World :=
  let '(fault, rest) := next_fault (db_faults w) in
  match fault with
  | Some e =>
      (inr e,
       mkWorld (committed w) (tx w) rest (files w) (file_faults w)
         (push (trace w) (Sql st false)) (response w))
  | None =>
      match st with
      | BEGIN =>
          (inl (mkResult [] 0),
           mkWorld (committed w)
             (match tx w with Some t => Some t | None => Some (committed w) end)
             rest (files w) (file_faults w) (push (trace w) (Sql st true)) (response w))
      | COMMIT =>
          (inl (mkResult [] 0),
           mkWorld (match tx w with Some t => t | None => committed w end) None
             rest (files w) (file_faults w) (push (trace w) (Sql st true)) (response w))
      | ROLLBACK =>
          (inl (mkResult [] 0),
           mkWorld (committed w) None
             rest (files w) (file_faults w) (push (trace w) (Sql st true)) (response w))
      | _ =>
          match tx w with
          | Some t =>
              let '(r, t') := apply st t in
              (r, mkWorld (committed w) (Some t') rest (files w) (file_faults w)
                    (push (trace w) (Sql st (is_ok r))) (response w))
          | None =>
              let '(r, s') := apply st (committed w) in
              (r, mkWorld s' None rest (files w) (file_faults w)
                    (push (trace w) (Sql st (is_ok r))) (response w))
          end
      end
  end.

(** The statements whose text is in the sources. *)
Definition decode (text : string) (params : list Value) : option Stmt :=
  if String.eqb text "BEGIN" then Some BEGIN
  else if String.eqb text "COMMIT" then Some COMMIT
  else if String.eqb text "ROLLBACK" then Some ROLLBACK
  else if String.eqb text "DELETE FROM video_game WHERE id = $1" then
    match params with [VNum id] => Some (DeleteVideoGame id) | _ => None end
  else if String.eqb text
            "INSERT INTO video_game (name, description) VALUES ($1, $2) RETURNING id" then
    match params with
    | [name; description] => Some (CreateVideoGame name description)
    | _ => None
    end
  else if String.eqb text
            ("SELECT count(*) AS no FROM " ++ dq ++ "user" ++ dq
               ++ " WHERE id = $1 AND is_admin = true") then
    match params with [VNum id] => Some (IsAdmin id) | _ => None end
  else if String.eqb text ("DELETE FROM " ++ dq ++ "user" ++ dq ++ " WHERE id = $1") then
    match params with [VNum id] => Some (DeleteUser id) | _ => None end
  else None.

Definition unknown_statement : JsError :=
  DatabaseError "42601" "statement not understood" "".

(** The PostgreSQL server behind the client of Part I. *)
Definition pg : Backend World :=
  fun text params w =>
    match decode text params with
    | Some st => run st w
    | None => (inr unknown_statement, w)
    end.

(** A statement of a model function whose file is not in the sources. *)
Definition statement (st : Stmt) : M (Client World) PgResult :=
  fun c => let '(r, w) := run st (db c) in (r, mkClient w (sent c)).

(** [for (const x of l) { body }] *)
Fixpoint for_of {S A : Type} (l : list A) (body : A -> M S unit) : M S unit :=
  match l with
  | [] => ret tt
  | x :: l' => body x ;;; for_of l' body
  end.

(** A column read off a row object: [row.col], [VNull] standing for a
    missing property. *)
Definition get (r : Row) (col : string) : Value :=
  match field r col with Some v => v | None => VNull end.

Definition invalid_input : JsError :=
  DatabaseError "22P02" "invalid input syntax" "".

(** ** Model functions whose files are not in the sources *)

(** Modelled from the spec: [model/publication.js] is missing.  A
    publication is a row [(id, platform_code, video_game_id, ...)]; the
    lookups filter on one foreign key, as the callers use them. *)
Module PublicationModel.
(** [getPublication(client, undefined, undefined, videoGameId)] *)
Definition getPublication_ofVideoGame (videoGameId : Z) : M (Client World) PgResult :=
  statement (GetPublicationsOfVideoGame videoGameId).

(** [getPublication(client, { platformCode })] *)
Definition getPublication_ofPlatform (platformCode : string) : M (Client World) PgResult :=
  statement (GetPublicationsOfPlatform platformCode).

Definition deletePublication (publicationId : Value) : M (Client World) PgResult :=
  match publicationId with
  | VNum id => statement (DeletePublication id)
  | _ => throw invalid_input
  end.

Definition createPublication (platformCode : string) (videoGameId : Value)
    (release_date : Value) (release_price store_page_url : option Value)
  : M (Client World) PgResult :=
  match videoGameId with
  | VNum id =>
      statement (CreatePublication platformCode id release_date release_price store_page_url)
  | _ => throw invalid_input
  end.
End PublicationModel.

(** Modelled from the spec: [model/game.js] is missing.  A game row is one
    user's ownership of one publication. *)
Module GameModel.
Definition deleteGamesFromPublication (publicationId : Value) : M (Client World) PgResult :=
  match publicationId with
  | VNum id => statement (DeleteGamesFromPublication id)
  | _ => throw invalid_input
  end.

Definition deleteGamesFromUser (userId : Z) : M (Client World) PgResult :=
  statement (DeleteGamesFromUser userId).
End GameModel.

(** Modelled from the spec: [model/category.js] is missing. *)
Module CategoryModel.
Definition deleteCategoriesFromVideoGame (videoGameId : Z) : M (Client World) PgResult :=
  statement (DeleteCategoriesFromVideoGame videoGameId).
End CategoryModel.

(** Modelled from the spec: [model/platform.js] is missing.  The platform
    code is a unique natural key. *)
Module PlatformModel.
Definition createPlatform (code description abbreviation : string)
  : M (Client World) PgResult :=
  statement (CreatePlatform code description abbreviation).

Definition deletePlatform (code : string) : M (Client World) PgResult :=
  statement (DeletePlatform code).
End PlatformModel.

(** Modelled from the spec: [model/imageManager.js] is missing.  A write
    puts the image under [(dest, name)] or fails (invalid format, I/O)
    without leaving anything.  A deletion removes the key or fails (I/O)
    and leaves the artifacts as they are.  The callers neither await a
    deletion nor read its result, and whether a failing deletion throws
    or rejects a promise that nobody awaits cannot be read off them: here
    it throws.  What is stated below of a run in which a deletion fails
    is about the rows and the artifacts, which are the same either way,
    and not about the response. *)
Module ImageManager.
Definition saveImageToPng (buffer : Image) (name : Value) (dest : string)
  : M (Client World) unit :=
  fun c =>
    let w := db c in
    let '(fault, rest) := next_fault (file_faults w) in
    match fault with
    | Some e =>
        (inr e,
         mkClient
           (mkWorld (committed w) (tx w) (db_faults w) (files w) rest
              (push (trace w) (SaveImage (dest, name) false)) (response w))
           (sent c))
    | None =>
        (inl tt,
         mkClient
           (mkWorld (committed w) (tx w) (db_faults w)
              (put_artifact (dest, name) buffer (files w)) rest
              (push (trace w) (SaveImage (dest, name) true)) (response w))
           (sent c))
    end.

Definition deleteImage (name : Value) (dest : string) : M (Client World) unit :=
  fun c =>
    let w := db c in
    let '(fault, rest) := next_fault (file_faults w) in
    match fault with
    | Some e =>
        (inr e,
         mkClient
           (mkWorld (committed w) (tx w) (db_faults w) (files w) rest
              (push (trace w) (DeleteImageFailed (dest, name))) (response w))
           (sent c))
    | None =>
        (inl tt,
         mkClient
           (mkWorld (committed w) (tx w) (db_faults w)
              (remove_artifact (dest, name) (files w)) rest
              (push (trace w) (DeleteImage (dest, name))) (response w))
           (sent c))
    end.
End ImageManager.

(** ** Express responses *)

(** The first response is the one the caller gets; a second one throws. *)
Definition send (r : Response) : M (Client World) unit :=
  fun c =>
    let w := db c in
    match response w with
    | Some _ => (inr (Error "Cannot set headers after they are sent to the client"), c)
    | None =>
        (inl tt,
         mkClient
           (mkWorld (committed w) (tx w) (db_faults w) (files w) (file_faults w)
              (push (trace w) (Responded r)) (Some r))
           (sent c))
    end.

(** ** controller/videoGame.js, the delete handler

    [id] is [parseInt(req.params.id)], [None] for [NaN].  The handler
    runs on a client that [pool.connect()] has handed over. *)
Module VideoGameCascade.

Definition deleteVideoGame (id : option Z) : M (Client World) unit :=
  match id with
  | None => send (Send 400 "Id must be a Number")
  | Some id =>
      try_catch
        (r <- PublicationModel.getPublication_ofVideoGame id ;;
         let publicationIds := rows r in
         if Nat.eqb (List.length publicationIds) 0
         then send (Send 404 "No video game found")
         else
           not_awaited (client_query pg "BEGIN" []) ;;;
           for_of publicationIds
             (fun publicationId =>
                GameModel.deleteGamesFromPublication (get publicationId "id") ;;;
                PublicationModel.deletePublication (get publicationId "id") ;;;
                ret tt) ;;;
           CategoryModel.deleteCategoriesFromVideoGame id ;;;
           VideoGameModel.deleteVideoGame pg (VNum id) ;;;
           not_awaited (client_query pg "COMMIT" []) ;;;
           send (SendStatus 204))
        (fun error =>
           not_awaited (client_query pg "ROLLBACK" []) ;;;
           send (Send 500 "Internal Server Error"))
  end.
End VideoGameCascade.

(** ** controller/platform.js *)
Module PlatformCascade.

Definition destFolderPlatform : string := "pictures/platform".
Definition destFolderVideoGame : string := "pictures/videoGame".

Definition upper_ascii (c : ascii) : ascii :=
  let n := nat_of_ascii c in
  if Nat.leb 97 n && Nat.leb n 122 then ascii_of_nat (n - 32) else c.

(** [s.toUpperCase()] on ASCII text: on a string whose bytes are all
    below 128 this is what JavaScript computes; a cased letter outside
    ASCII is left as it is here. *)
Fixpoint toUpperCase (s : string) : string :=
  match s with
  | EmptyString => EmptyString
  | String c s' => String (upper_ascii c) (toUpperCase s')
  end.

(** [req.params.code] is the argument. *)
Definition deletePlatform (params_code : string) : M (Client World) unit :=
  let code := toUpperCase params_code in
  try_catch
    (client_query pg "BEGIN" [] ;;;
     r <- PublicationModel.getPublication_ofPlatform code ;;
     let publicationsIds := rows r in
     for_of publicationsIds
       (fun publicationId =>
          GameModel.deleteGamesFromPublication (get publicationId "id") ;;;
          PublicationModel.deletePublication (get publicationId "id") ;;;
          ret tt) ;;;
     r <- PlatformModel.deletePlatform code ;;
     if Nat.eqb (rowCount r) 0 then
       send (Json 404 "RESOURCE_NOT_FOUND" "No platform found") ;;;
       client_query pg "ROLLBACK" [] ;;;
       ret tt
     else
       client_query pg "COMMIT" [] ;;;
       ImageManager.deleteImage (VStr code) destFolderPlatform ;;;
       send (SendStatus 204))
    (fun error =>
       client_query pg "ROLLBACK" [] ;;;
       send (SendStatus 500)).

(** An uploaded file; only its [buffer] is read. *)
Record File : Type := mkFile { buffer : Image }.

(** [req.files] *)
Record Files : Type :=
  mkFiles
    { platformPicture : option (list File);
      files_videoGamesPictures : option (list File) }.

(** One element of the validated [video_games]. *)
Record NewVideoGame : Type :=
  mkNewVideoGame
    { name : Value;
      description : Value;
      release_date : Value;
      release_price : option Value;
      store_page_url : option Value }.

(** What the identifiers [picture] and [videoGamesPictures], which the
    handler reads without declaring, resolve to in the enclosing scope;
    [None] when nothing declares them. *)
Record Scope : Type :=
  mkScope { picture : option File; videoGamesPictures : option (list File) }.

(** The scope of the module as the sources give it: neither identifier
    is declared. *)
Definition module_scope : Scope := mkScope None None.

Definition identifier {A : Type} (x : string) (binding : option A) : M (Client World) A :=
  match binding with
  | Some v => ret v
  | None => throw (ReferenceError x)
  end.

(** The loop over [videoGames]; [pictures] is the binding of
    [videoGamesPictures], an array that [shift()] shortens in place. *)
Fixpoint create_video_games (code : string) (videoGames : list NewVideoGame)
    (pictures : option (list File)) : M (Client World) unit :=
  match videoGames with
  | [] => ret tt
  | videoGame :: videoGames' =>
      r <- VideoGameModel.createVideoGame pg (name videoGame) (description videoGame) ;;
      videoGameId <-
        match rows r with
        | row :: _ => ret (get row "id")
        | [] => throw (TypeError "Cannot read properties of undefined (reading 'id')")
        end ;;
      array <- identifier "videoGamesPictures" pictures ;;
      match array with
      | [] => throw (TypeError "Cannot read properties of undefined (reading 'buffer')")
      | file :: array' =>
          ImageManager.saveImageToPng (buffer file) videoGameId destFolderVideoGame ;;;
          PublicationModel.createPublication code videoGameId (release_date videoGame)
            (release_price videoGame) (store_page_url videoGame) ;;;
          create_video_games code videoGames' (Some array')
      end
  end.

(** The handler once [req.body] has passed the schema, which yields
    [code], [description], [abbreviation] and [videoGames]. *)
Definition createPlatformWithNewVideoGames (scope : Scope)
    (code description abbreviation : string) (videoGames : list NewVideoGame)
    (req_files : Files) : M (Client World) unit :=
  match platformPicture req_files with
  | None | Some [] => send (Json 400 "INVALID_INPUT" "No picture for the platform")
  | Some (_ :: _) =>
      if match files_videoGamesPictures req_files with
         | Some l => negb (Nat.eqb (List.length l) (List.length videoGames))
         | None => true
         end
      then send (Json 400 "INVALID_INPUT" "No picture for one or many video game(s)")
      else
        try_catch
          (client_query pg "BEGIN" [] ;;;
           PlatformModel.createPlatform code description abbreviation ;;;
           file <- identifier "picture" (picture scope) ;;
           ImageManager.saveImageToPng (buffer file) (VStr code) destFolderPlatform ;;;
           create_video_games code videoGames (videoGamesPictures scope) ;;;
           client_query pg "COMMIT" [] ;;;
           send (SendStatus 201))
          (fun error =>
             client_query pg "ROLLBACK" [] ;;;
             if match error_code error with
                | Some c => String.eqb c UNIQUE_VIOLATION
                | None => false
                end
             then send (Json 409 "DUPLICATE_ENTRY" (error_detail error))
             else if includes (error_message error) "format"
             then send (Json 400 "INVALID_INPUT" "Invalid image format")
             else send (SendStatus 500))
  end.
End PlatformCascade.

(** ** controller/user.js, the delete handler *)
Module UserCascade.

(** [id] is [parseInt(id)], [None] for [NaN]. *)
Definition deleteUser (id : option Z) : M (Client World) unit :=
  match id with
  | None => send (Json 400 "INVALID_INPUT" "Id must be a Number")
  | Some userId =>
      try_catch
        (admin <- UserModel.isAdmin pg (VNum userId) ;;
         if admin : bool then
           send (Json 403 "DELETE_FORBIDDEN" "You can't delete an admin")
         else
           client_query pg "BEGIN" [] ;;;
           GameModel.deleteGamesFromUser userId ;;;
           r <- UserModel.deleteUser pg (VNum userId) ;;
           if Nat.eqb (rowCount r) 0 then
             client_query pg "ROLLBACK" [] ;;;
             send (Json 404 "RESOURCE_NOT_FOUND" "No user found")
           else
             client_query pg "COMMIT" [] ;;;
             send (SendStatus 204))
        (fun error =>
           client_query pg "ROLLBACK" [] ;;;
           send (SendStatus 500))
  end.
End UserCascade.

(** The world a handler leaves behind, started on a fresh client. *)
Definition after (handler : M (Client World) unit) (w : World) : World :=
  db (snd (handler (mkClient w []))).

(* ================================================================= *)
(** * Reasoning about the controllers *)

(** ** Triples

    [triple P m Q E]: started in a world that satisfies [P], [m] either
    returns [a] in a world that satisfies [Q a] or throws [e] in a world
    that satisfies [E e]. *)
Definition triple {A : Type} (P : World -> Prop) (m : M (Client World) A)
    (Q : A -> World -> Prop) (E : JsError -> World -> Prop) : Prop :=
  forall c, P (db c) ->
    match m c with
    | (inl a, c') => Q a (db c')
    | (inr e, c') => E e (db c')
    end.

Lemma triple_ret : forall (A : Type) (P : World -> Prop) (a : A) E,
  triple P (ret a) (fun b w => b = a /\ P w) E.
Proof. intros A P a E c H. simpl. auto. Qed.

Lemma triple_throw : forall (A : Type) (P : World -> Prop) (e : JsError) (Q : A -> World -> Prop),
  triple P (throw e) Q (fun _ w => P w).
Proof. intros A P e Q c H. simpl. auto. Qed.

Lemma triple_consequence : forall (A : Type) (P P' : World -> Prop) (m : M (Client World) A)
    (Q Q' : A -> World -> Prop) (E E' : JsError -> World -> Prop),
  triple P' m Q' E' ->
  (forall w, P w -> P' w) ->
  (forall a w, Q' a w -> Q a w) ->
  (forall e w, E' e w -> E e w) ->
  triple P m Q E.
Proof.
  intros A P P' m Q Q' E E' Hm HP HQ HE c H.
  specialize (Hm c (HP _ H)). destruct (m c) as [[a|e] c']; auto.
Qed.

Lemma triple_bind : forall (A B : Type) (P : World -> Prop) (m : M (Client World) A)
    (k : A -> M (Client World) B) (R : A -> World -> Prop)
    (Q : B -> World -> Prop) (E : JsError -> World -> Prop),
  triple P m R E ->
  (forall a, triple (R a) (k a) Q E) ->
  triple P (bind m k) Q E.
Proof.
  intros A B P m k R Q E Hm Hk c H. unfold bind.
  specialize (Hm c H). destruct (m c) as [[a|e] c']; [|exact Hm].
  exact (Hk a c' Hm).
Qed.

Lemma triple_try_catch : forall (A : Type) (P : World -> Prop) (body : M (Client World) A)
    (handler : JsError -> M (Client World) A) (R : JsError -> World -> Prop)
    (Q : A -> World -> Prop) (E : JsError -> World -> Prop),
  triple P body Q R ->
  (forall e, triple (R e) (handler e) Q E) ->
  triple P (try_catch body handler) Q E.
Proof.
  intros A P body handler R Q E Hb Hh c H. unfold try_catch.
  specialize (Hb c H). destruct (body c) as [[a|e] c']; [exact Hb|].
  exact (Hh e c' Hb).
Qed.

Lemma triple_not_awaited : forall (A : Type) (P : World -> Prop) (m : M (Client World) A)
    (Q : A -> World -> Prop) (R : JsError -> World -> Prop)
    (Q' : unit -> World -> Prop) (E : JsError -> World -> Prop),
  triple P m Q R ->
  (forall a w, Q a w -> Q' tt w) ->
  (forall e w, R e w -> Q' tt w) ->
  triple P (not_awaited m) Q' E.
Proof.
  intros A P m Q R Q' E Hm HQ HR c H. unfold not_awaited.
  specialize (Hm c H). destruct (m c) as [[a|e] c']; simpl; eauto.
Qed.

Lemma triple_for_of : forall (A : Type) (I : World -> Prop) (l : list A)
    (body : A -> M (Client World) unit) (E : JsError -> World -> Prop),
  (forall x, In x l -> triple I (body x) (fun _ w => I w) E) ->
  triple I (for_of l body) (fun _ w => I w) E.
Proof.
  intros A I l body E. induction l as [|x l IH]; intros Hb.
  - intros c H. simpl. exact H.
  - simpl. eapply triple_bind.
    + apply Hb. now left.
    + intros u. apply IH. intros y Hy. apply Hb. now right.
Qed.

(** ** What one statement can change *)

Definition working (w : World) : Store :=
  match tx w with Some t => t | None => committed w end.

Definition is_control (st : Stmt) : bool :=
  match st with BEGIN | COMMIT | ROLLBACK => true | _ => false end.

Lemma apply_failure_keeps : forall st s e s', apply st s = (inr e, s') -> s' = s.
Proof.
  intros st s e s' H. destruct st; simpl in H; try discriminate.
  destruct (existsb _ _); now inversion H.
Qed.

(** Every statement leaves the artifacts, the image faults and the
    response alone, consumes one fault entry and appends one event; a
    failed statement changes no row; inside a transaction a data
    statement leaves the committed rows alone. *)
Lemma run_facts : forall st w r w',
  run st w = (r, w') ->
  files w' = files w /\ file_faults w' = file_faults w /\ response w' = response w
  /\ trace w' = push (trace w) (Sql st (is_ok r))
  /\ db_faults w' = tl (db_faults w)
  /\ (is_ok r = false -> committed w' = committed w /\ tx w' = tx w)
  /\ (is_control st = false -> tx w <> None -> committed w' = committed w /\ tx w' <> None)
  /\ (st = BEGIN -> committed w' = committed w /\ (is_ok r = true -> tx w' <> None))
  /\ (st = ROLLBACK -> committed w' = committed w /\ (is_ok r = true -> tx w' = None))
  /\ (st = COMMIT -> is_ok r = true -> committed w' = working w /\ tx w' = None).
Proof.
  intros st w r w' H. unfold run in H.
  destruct (db_faults w) as [|[e|] rest] eqn:Hf; cbn [next_fault] in H.
  - destruct st; destruct (tx w) as [t|] eqn:Ht; unfold working; rewrite ?Ht;
      try (inversion H; subst; cbn; repeat split; intros; try congruence; fail);
      match type of H with
      | (let '(_, _) := apply ?st ?s in _) = _ =>
          destruct (apply st s) as [[r0|e0] s0] eqn:Ha; inversion H; subst; cbn;
          try (apply apply_failure_keeps in Ha; subst);
          repeat split; intros; try congruence
      end.
  - inversion H; subst; cbn. repeat split; intros; try congruence; discriminate.
  - destruct st; destruct (tx w) as [t|] eqn:Ht; unfold working; rewrite ?Ht;
      try (inversion H; subst; cbn; repeat split; intros; try congruence; fail);
      match type of H with
      | (let '(_, _) := apply ?st ?s in _) = _ =>
          destruct (apply st s) as [[r0|e0] s0] eqn:Ha; inversion H; subst; cbn;
          try (apply apply_failure_keeps in Ha; subst);
          repeat split; intros; try congruence
      end.
Qed.

(** ** Triples for the primitive operations *)

Lemma triple_statement : forall st (P : World -> Prop) Q E,
  (forall w r w', P w -> run st w = (r, w') ->
     match r with inl a => Q a w' | inr e => E e w' end) ->
  triple P (statement st) Q E.
Proof.
  intros st P Q E H c HP. unfold statement.
  destruct (run st (db c)) as [r w'] eqn:Hr.
  specialize (H _ _ _ HP Hr). destruct r; exact H.
Qed.

Lemma triple_query : forall text params st (P : World -> Prop) Q E,
  decode text params = Some st ->
  (forall w r w', P w -> run st w = (r, w') ->
     match r with inl a => Q a w' | inr e => E e w' end) ->
  triple P (client_query pg text params) Q E.
Proof.
  intros text params st P Q E Hd H c HP. unfold client_query, pg. rewrite Hd.
  destruct (run st (db c)) as [r w'] eqn:Hr.
  specialize (H _ _ _ HP Hr). destruct r; exact H.
Qed.

(** ** Events of interest *)
Definition commits (e : Event) : bool :=
  match e with Sql COMMIT true => true | _ => false end.
Definition commit_fails (e : Event) : bool :=
  match e with Sql COMMIT false => true | _ => false end.
(** An artifact was removed. *)
Definition deletes_image (e : Event) : bool :=
  match e with DeleteImage _ => true | _ => false end.
(** The removal of an artifact was tried and failed. *)
Definition deletion_fails (e : Event) : bool :=
  match e with DeleteImageFailed _ => true | _ => false end.
Definition attempts_deletion (e : Event) : bool := deletes_image e || deletion_fails e.

(** Every attempt to delete an artifact comes after a successful commit. *)
Fixpoint deletions_follow_commit (seen : bool) (t : list Event) : bool :=
  match t with
  | [] => true
  | e :: t' =>
      (negb (attempts_deletion e) || seen)
      && deletions_follow_commit (seen || commits e) t'
  end.

Lemma existsb_push : forall (A : Type) (p : A -> bool) l x,
  existsb p (push l x) = existsb p l || p x.
Proof. intros. unfold push. rewrite existsb_app. simpl. now rewrite orb_false_r. Qed.

Lemma deletions_follow_commit_push : forall t seen e,
  deletions_follow_commit seen (push t e)
  = deletions_follow_commit seen t
    && (negb (attempts_deletion e) || seen || existsb commits t).
Proof.
  unfold push. induction t as [|x t IH]; intros seen e; simpl.
  - rewrite !orb_false_r, andb_true_r. reflexivity.
  - rewrite IH. destruct (attempts_deletion x), seen, (commits x), (attempts_deletion e); simpl;
      rewrite ?orb_true_r, ?andb_true_r, ?andb_false_r, ?orb_false_r; try reflexivity;
      destruct (deletions_follow_commit _ t), (existsb commits t); reflexivity.
Qed.

Lemma forallb_push : forall (A : Type) (p : A -> bool) l x,
  forallb p (push l x) = forallb p l && p x.
Proof. intros. unfold push. rewrite forallb_app. simpl. now rewrite andb_true_r. Qed.

Lemma no_deletion_follows : forall t seen,
  existsb attempts_deletion t = false -> deletions_follow_commit seen t = true.
Proof.
  induction t as [|e t IH]; intros seen H; simpl in *; [reflexivity|].
  apply orb_false_elim in H as [He Ht]. now rewrite He, IH.
Qed.

Lemma existsb_attempts : forall t,
  existsb attempts_deletion t = existsb deletes_image t || existsb deletion_fails t.
Proof.
  induction t as [|e t IH]; simpl; [reflexivity|]. rewrite IH. unfold attempts_deletion.
  destruct (deletes_image e), (deletion_fails e), (existsb deletes_image t),
    (existsb deletion_fails t); reflexivity.
Qed.

(** The publication loop shared by the two delete cascades. *)
Definition delete_publication (publicationId : Row) : M (Client World) unit :=
  GameModel.deleteGamesFromPublication (get publicationId "id") ;;;
  PublicationModel.deletePublication (get publicationId "id") ;;;
  ret tt.


(** An event that is neither a [COMMIT], successful or not, nor an
    attempt to delete an artifact. *)
Definition calm (e : Event) : bool :=
  match e with
  | Sql COMMIT _ => false
  | DeleteImage _ => false
  | DeleteImageFailed _ => false
  | _ => true
  end.

(** An event that is neither a successful [COMMIT] nor an attempt to
    delete an artifact. *)
Definition quiet (e : Event) : bool := negb (commits e) && negb (attempts_deletion e).

Lemma calm_quiet : forall t, forallb calm t = true -> forallb quiet t = true.
Proof.
  induction t as [|e t IH]; simpl; [reflexivity|]. intros H.
  apply andb_true_iff in H as [He Ht]. rewrite IH by assumption.
  destruct e as [[] []| | | |]; try discriminate; reflexivity.
Qed.

Lemma quiet_spec : forall t, forallb quiet t = true ->
  existsb commits t = false /\ existsb attempts_deletion t = false.
Proof.
  induction t as [|e t IH]; simpl; [auto|]. intros H.
  apply andb_true_iff in H as [He Ht]. destruct (IH Ht) as [H1 H2].
  rewrite H1, H2. unfold quiet in He.
  destruct (commits e), (attempts_deletion e); try discriminate; auto.
Qed.

Lemma calm_spec : forall t, forallb calm t = true -> existsb commit_fails t = false.
Proof.
  induction t as [|e t IH]; simpl; [auto|]. intros H.
  apply andb_true_iff in H as [He Ht]. rewrite (IH Ht).
  destruct e as [[] []| | | |]; try discriminate; reflexivity.
Qed.

Lemma sql_calm : forall st ok, is_control st = false -> calm (Sql st ok) = true.
Proof. intros st ok H. destruct st; try discriminate; reflexivity. Qed.

Lemma triple_pre : forall (A : Type) (P P' : World -> Prop) (m : M (Client World) A) Q E,
  triple P' m Q E -> (forall w, P w -> P' w) -> triple P m Q E.
Proof. intros A P P' m Q E Hm HP c H. exact (Hm c (HP _ H)). Qed.

(** An event that is no [COMMIT] and no attempt to delete an artifact:
    a [ROLLBACK], a response. *)
Definition inert (e : Event) : bool :=
  negb (commits e) && negb (commit_fails e) && negb (attempts_deletion e).

Section Atomicity.
Variables (s : Store) (f : list (ArtifactKey * Image)) (key : ArtifactKey).

(** The state a request starts in. *)
Definition at_start (w : World) : Prop :=
  committed w = s /\ files w = f /\ forallb calm (trace w) = true.

(** Inside the transaction, before any [COMMIT] was sent. *)
Definition in_transaction (w : World) : Prop :=
  committed w = s /\ files w = f /\ forallb calm (trace w) = true /\ tx w <> None.

(** Nothing of the request is visible: the committed rows and the
    artifacts are those of the start, no commit has succeeded and no
    artifact deletion was tried. *)
Definition untouched (w : World) : Prop :=
  committed w = s /\ files w = f /\ forallb quiet (trace w) = true.

(** The transaction has committed and the artifact is still there. *)
Definition just_committed (w : World) : Prop :=
  files w = f
  /\ existsb commits (trace w) = true
  /\ existsb commit_fails (trace w) = false
  /\ existsb attempts_deletion (trace w) = false.

(** The transaction has committed and the artifact was removed after it. *)
Definition artifact_removed (w : World) : Prop :=
  files w = remove_artifact key f
  /\ existsb commits (trace w) = true
  /\ existsb commit_fails (trace w) = false
  /\ deletions_follow_commit false (trace w) = true
  /\ existsb deletes_image (trace w) = true
  /\ existsb deletion_fails (trace w) = false.

(** The transaction has committed, the removal of the artifact was
    tried after it and failed: the artifact is still there. *)
Definition artifact_left (w : World) : Prop :=
  files w = f
  /\ existsb commits (trace w) = true
  /\ existsb commit_fails (trace w) = false
  /\ deletions_follow_commit false (trace w) = true
  /\ existsb deletes_image (trace w) = false
  /\ existsb deletion_fails (trace w) = true.

Definition settled (w : World) : Prop :=
  artifact_removed w \/ artifact_left w \/ untouched w.

Lemma in_transaction_settled : forall w, in_transaction w -> settled w.
Proof.
  intros w (Hc & Hf & Ht & _). right. right. repeat split; auto using calm_quiet.
Qed.

(** An inert event changes none of the three. *)
Lemma settled_push : forall w w' e,
  settled w -> inert e = true ->
  trace w' = push (trace w) e -> files w' = files w -> committed w' = committed w ->
  settled w'.
Proof.
  intros w w' e H He Htr Hf Hc. unfold inert in He.
  apply andb_true_iff in He as [He Ha]. apply andb_true_iff in He as [Hn Hcf].
  apply negb_true_iff in Ha, Hn, Hcf.
  assert (Hd : deletes_image e = false /\ deletion_fails e = false).
  { unfold attempts_deletion in Ha. now apply orb_false_elim in Ha. }
  destruct Hd as [Hd Hdf].
  destruct H as [(H1 & H2 & H3 & H4 & H5 & H6)|[(H1 & H2 & H3 & H4 & H5 & H6)|(H1 & H2 & H3)]].
  - left. unfold artifact_removed.
    rewrite Htr, deletions_follow_commit_push, !existsb_push, H2, H3, H4, H5, H6, Hf, Hn,
      Hcf, Hd, Hdf, Ha.
    repeat split; auto.
  - right. left. unfold artifact_left.
    rewrite Htr, deletions_follow_commit_push, !existsb_push, H2, H3, H4, H5, H6, Hf, Hn,
      Hcf, Hd, Hdf, Ha.
    repeat split; auto.
  - right. right. unfold untouched.
    rewrite Htr, forallb_push, H3. unfold quiet. rewrite Hn, Ha.
    repeat split; congruence.
Qed.

Lemma begin_at_start :
  triple at_start (client_query pg "BEGIN" [])
    (fun _ w => in_transaction w) (fun _ w => settled w).
Proof.
  eapply triple_query; [reflexivity|]. intros w r w' (Hc & Hf & Ht) Hrun.
  destruct (run_facts _ _ _ _ Hrun) as (Hf' & _ & _ & Htr & _ & _ & _ & Hb & _).
  destruct (Hb eq_refl) as [Hc' Htx].
  assert (Hcalm : forallb calm (trace w') = true).
  { rewrite Htr, forallb_push, Ht. reflexivity. }
  destruct r as [a|e].
  - repeat split; try congruence. now apply Htx.
  - right. right. repeat split; try congruence. now apply calm_quiet.
Qed.

Lemma data_statement_in_transaction : forall st,
  is_control st = false ->
  triple in_transaction (statement st)
    (fun _ w => in_transaction w) (fun _ w => settled w).
Proof.
  intros st Hst. apply triple_statement. intros w r w' (Hc & Hf & Ht & Htx) Hrun.
  destruct (run_facts _ _ _ _ Hrun) as (Hf' & _ & _ & Htr & _ & _ & Hdata & _).
  destruct (Hdata Hst Htx) as [Hc' Htx'].
  assert (Hin : in_transaction w').
  { repeat split; try congruence.
    rewrite Htr, forallb_push, Ht. now apply sql_calm. }
  destruct r; auto using in_transaction_settled.
Qed.

Lemma delete_publication_in_transaction : forall row,
  triple in_transaction (delete_publication row)
    (fun _ w => in_transaction w) (fun _ w => settled w).
Proof.
  intros row. unfold delete_publication,
    GameModel.deleteGamesFromPublication, PublicationModel.deletePublication.
  destruct (get row "id");
    try (intros c H; simpl; now apply in_transaction_settled).
  eapply triple_bind; [now apply data_statement_in_transaction|]. intros ?.
  eapply triple_bind; [now apply data_statement_in_transaction|]. intros ?.
  intros c H. exact H.
Qed.

Lemma commit_in_transaction :
  triple in_transaction (client_query pg "COMMIT" [])
    (fun _ w => just_committed w) (fun _ w => settled w).
Proof.
  eapply triple_query; [reflexivity|]. intros w r w' (Hc & Hf & Ht & Htx) Hrun.
  destruct (run_facts _ _ _ _ Hrun) as (Hf' & _ & _ & Htr & _ & Hfail & _).
  destruct (quiet_spec _ (calm_quiet _ Ht)) as [Hn Hd].
  destruct r as [a|e].
  - unfold just_committed. rewrite Htr, !existsb_push, Hn, Hd, (calm_spec _ Ht).
    repeat split; congruence.
  - destruct (Hfail eq_refl) as [Hc' _]. right. right. unfold untouched.
    rewrite Htr, forallb_push, (calm_quiet _ Ht). repeat split; congruence.
Qed.

(** Right after the commit the artifact is removed, or its removal
    fails and it stays. *)
Lemma deleteImage_just_committed :
  triple just_committed (ImageManager.deleteImage (snd key) (fst key))
    (fun _ w => settled w) (fun _ w => settled w).
Proof.
  intros c (Hf & Hn & Hcf & Hd).
  pose proof (no_deletion_follows _ false Hd) as Hfollow.
  rewrite existsb_attempts in Hd. apply orb_false_elim in Hd as [Hdi Hdf].
  unfold ImageManager.deleteImage.
  destruct (next_fault (file_faults (db c))) as [[e|] rest]; cbn.
  - right. left. unfold artifact_left. cbn.
    rewrite deletions_follow_commit_push, !existsb_push, Hn, Hcf, Hfollow, Hdi, Hdf.
    repeat split; auto.
  - left. unfold artifact_removed. cbn.
    rewrite deletions_follow_commit_push, !existsb_push, Hn, Hcf, Hfollow, Hdi, Hdf, Hf.
    destruct key. repeat split; reflexivity.
Qed.

Lemma rollback_settled :
  triple settled (client_query pg "ROLLBACK" []) (fun _ w => settled w) (fun _ w => settled w).
Proof.
  eapply triple_query; [reflexivity|]. intros w r w' H Hrun.
  destruct (run_facts _ _ _ _ Hrun) as (Hf' & _ & _ & Htr & _ & _ & _ & _ & Hrb & _).
  destruct (Hrb eq_refl) as [Hc' _].
  assert (Hs : settled w').
  { apply (settled_push w w' (Sql ROLLBACK (is_ok r))); auto. }
  destruct r; exact Hs.
Qed.

Lemma send_settled : forall r,
  triple settled (send r) (fun _ w => settled w) (fun _ w => settled w).
Proof.
  intros r c H. unfold send.
  destruct (response (db c)); cbn; [exact H|].
  apply (settled_push (db c) _ (Responded r)); [exact H| | | |]; reflexivity.
Qed.

Lemma deletePlatform_settles : forall code,
  key = (PlatformCascade.destFolderPlatform, VStr (PlatformCascade.toUpperCase code)) ->
  triple at_start (PlatformCascade.deletePlatform code)
    (fun _ w => settled w) (fun _ w => settled w).
Proof.
  intros code Hkey. unfold PlatformCascade.deletePlatform.
  eapply triple_try_catch with (R := fun _ w => settled w).
  - eapply triple_bind; [apply begin_at_start|]. intros ?.
    eapply triple_bind; [now apply data_statement_in_transaction|]. intros r.
    eapply triple_bind.
    { apply triple_for_of. intros row _. apply delete_publication_in_transaction. }
    intros ?.
    eapply triple_bind; [now apply data_statement_in_transaction|]. intros r'.
    cbv beta. destruct (Nat.eqb (rowCount r') 0).
    + apply triple_pre with (P' := settled); [|apply in_transaction_settled].
      eapply triple_bind; [apply send_settled|]. intros ?.
      eapply triple_bind; [apply rollback_settled|]. intros ?.
      intros c H. exact H.
    + eapply triple_bind; [apply commit_in_transaction|]. intros ?.
      eapply triple_bind.
      { pose proof deleteImage_just_committed as H.
        rewrite Hkey in H. exact H. }
      intros ?. apply send_settled.
  - intros e.
    eapply triple_bind; [apply rollback_settled|]. intros ?. apply send_settled.
Qed.

(** What a settled state says about the trace and the artifacts. *)
Lemma settled_spec : forall w,
  settled w ->
  files w
  = (if existsb commits (trace w) && negb (existsb deletion_fails (trace w))
     then remove_artifact key f else f)
  /\ existsb attempts_deletion (trace w) = existsb commits (trace w)
  /\ deletions_follow_commit false (trace w) = true
  /\ existsb commit_fails (trace w) && existsb commits (trace w) = false
  /\ (existsb commits (trace w) = true \/ committed w = s).
Proof.
  intros w [(H1 & H2 & H3 & H4 & H5 & H6)|[(H1 & H2 & H3 & H4 & H5 & H6)|(H1 & H2 & H3)]].
  - rewrite existsb_attempts, H1, H2, H3, H4, H5, H6. cbn. repeat split; auto.
  - rewrite existsb_attempts, H1, H2, H3, H4, H5, H6. cbn. repeat split; auto.
  - destruct (quiet_spec _ H3) as [Hn Hd].
    rewrite Hn, Hd, H2, andb_false_r, (no_deletion_follows _ _ Hd). cbn.
    repeat split; auto.
Qed.
End Atomicity.

(* ================================================================= *)
(** * The user cascade *)

Definition is_admin_user (userId : Z) (u : User) : bool :=
  Z.eqb (user_id u) userId && user_is_admin u.

Definition has_user_id (userId : Z) (u : User) : bool := Z.eqb (user_id u) userId.

Definition owned_by (userId : Z) (g : Game) : bool := Z.eqb (game_user_id g) userId.

(** The store once a user and the games the user owns are gone. *)
Definition without_user (userId : Z) (s : Store) : Store :=
  set_users
    (set_games s (filter (fun g => negb (owned_by userId g)) (games s)))
    (filter (fun u => negb (has_user_id userId u)) (users s)).

Lemma filter_length_pos : forall (A : Type) (p : A -> bool) l,
  existsb p l = true -> Z.ltb 0 (Z.of_nat (List.length (filter p l))) = true.
Proof.
  intros A p l H. apply Z.ltb_lt.
  induction l as [|x l IH]; simpl in *; [discriminate|].
  destruct (p x); simpl in *; [lia|auto].
Qed.

Lemma filter_length_zero : forall (A : Type) (p : A -> bool) l,
  existsb p l = false -> Z.ltb 0 (Z.of_nat (List.length (filter p l))) = false.
Proof.
  intros A p l H. apply Z.ltb_ge.
  induction l as [|x l IH]; simpl in *; [lia|].
  destruct (p x); simpl in *; [discriminate|auto].
Qed.

Lemma filter_length_le : forall (A : Type) (p : A -> bool) l,
  List.length (filter p l) <= List.length l.
Proof.
  intros A p l. induction l as [|x l IH]; simpl; [lia|]. destruct (p x); simpl; lia.
Qed.

Lemma filter_negb_length : forall (A : Type) (p : A -> bool) l,
  (existsb p l = true -> List.length (filter (fun x => negb (p x)) l) < List.length l)
  /\ (existsb p l = false -> List.length (filter (fun x => negb (p x)) l) = List.length l).
Proof.
  intros A p l. induction l as [|x l [IH1 IH2]]; cbn [existsb filter List.length].
  - split; [discriminate|reflexivity].
  - pose proof (filter_length_le A (fun x => negb (p x)) l).
    destruct (p x); cbn [negb orb List.length]; split; intros H1;
      try discriminate; try specialize (IH1 H1); try specialize (IH2 H1); lia.
Qed.

Lemma deleted_some : forall (A : Type) (p : A -> bool) l,
  existsb p l = true ->
  Nat.eqb (List.length l - List.length (filter (fun x => negb (p x)) l)) 0 = false.
Proof.
  intros A p l H. apply Nat.eqb_neq.
  pose proof (proj1 (filter_negb_length A p l) H). lia.
Qed.

Lemma deleted_none : forall (A : Type) (p : A -> bool) l,
  existsb p l = false ->
  Nat.eqb (List.length l - List.length (filter (fun x => negb (p x)) l)) 0 = true.
Proof.
  intros A p l H. apply Nat.eqb_eq.
  pose proof (proj2 (filter_negb_length A p l) H). lia.
Qed.

Lemma deleteUser_admin : forall s f ff admin,
  existsb (is_admin_user admin) (users s) = true ->
  after (UserCascade.deleteUser (Some admin)) (initial_world s f [] ff)
  = mkWorld s None [] f ff
      [Sql (IsAdmin admin) true;
       Responded (Json 403 "DELETE_FORBIDDEN" "You can't delete an admin")]
      (Some (Json 403 "DELETE_FORBIDDEN" "You can't delete an admin")).
Proof.
  intros s f ff admin H.
  unfold after, UserCascade.deleteUser, try_catch, bind, UserModel.isAdmin,
    UserModel.first_row_no, client_query, pg, initial_world.
  cbn.
  fold (is_admin_user admin). rewrite (filter_length_pos _ _ _ H). reflexivity.
Qed.

Lemma deleteUser_member : forall s f ff member,
  existsb (is_admin_user member) (users s) = false ->
  existsb (has_user_id member) (users s) = true ->
  after (UserCascade.deleteUser (Some member)) (initial_world s f [] ff)
  = mkWorld (without_user member s) None [] f ff
      [Sql (IsAdmin member) true; Sql BEGIN true; Sql (DeleteGamesFromUser member) true;
       Sql (DeleteUser member) true; Sql COMMIT true; Responded (SendStatus 204)]
      (Some (SendStatus 204)).
Proof.
  intros s f ff member Hn He.
  unfold after, UserCascade.deleteUser, try_catch, bind, UserModel.isAdmin,
    UserModel.first_row_no, UserModel.deleteUser, GameModel.deleteGamesFromUser, statement,
    client_query, pg, initial_world.
  cbn.
  fold (is_admin_user member). rewrite (filter_length_zero _ _ _ Hn).
  cbn.
  pose proof (deleted_some _ (has_user_id member) _ He) as Hd.
  unfold has_user_id in Hd. rewrite Hd.
  reflexivity.
Qed.

(** The events of a request that stops at the policy check. *)
Definition policy_only (e : Event) : bool :=
  match e with
  | Sql (IsAdmin _) _ | Sql ROLLBACK _ | Responded _ => true
  | _ => false
  end.

Lemma deleteUser_admin_any_fault : forall s f dbf ff admin,
  existsb (is_admin_user admin) (users s) = true ->
  committed (after (UserCascade.deleteUser (Some admin)) (initial_world s f dbf ff)) = s
  /\ files (after (UserCascade.deleteUser (Some admin)) (initial_world s f dbf ff)) = f
  /\ forallb policy_only
       (trace (after (UserCascade.deleteUser (Some admin)) (initial_world s f dbf ff))) = true.
Proof.
  intros s f dbf ff admin H.
  unfold after, UserCascade.deleteUser, try_catch, bind, UserModel.isAdmin,
    UserModel.first_row_no, client_query, pg, initial_world.
  destruct dbf as [|[e|] [|[e'|] rest]]; cbn;
    try (fold (is_admin_user admin); rewrite (filter_length_pos _ _ _ H));
    repeat split; reflexivity.
Qed.

(** A store with two video games, the first published on two platforms,
    a third video game without publication, an admin and a member. *)
Definition example_publication (id : Z) (code : string) (videoGameId : Z) : Publication :=
  mkPublication id code videoGameId (VStr "2020-01-01") None None.

Definition example_store : Store :=
  mkStore
    [mkVideoGame 1 (VStr "Portal") (VStr ""); mkVideoGame 2 (VStr "Doom") (VStr "");
     mkVideoGame 3 (VStr "Unreleased") (VStr "")]
    [mkPlatform "PC" "Personal computer" "PC"; mkPlatform "PS5" "PlayStation 5" "PS5"]
    [example_publication 10 "PC" 1; example_publication 11 "PS5" 1;
     example_publication 12 "PC" 2]
    [mkGame 100 10; mkGame 101 11; mkGame 101 12]
    [mkCategoryLink 5 1; mkCategoryLink 5 2]
    [mkUser 100 "alice" true; mkUser 101 "bob" false].

Definition example_files : list (ArtifactKey * Image) :=
  [(("pictures/platform", VStr "PC"), "pc.png")].

(** C9 as stated fails: deleting an admin sends the [isAdmin] query, which
    is I/O, and when that query fails the answer is 500, not
    DELETE_FORBIDDEN. *)
Lemma deleteUser_admin_counterexample :
  trace (after (UserCascade.deleteUser (Some 100%Z))
           (initial_world example_store example_files [] []))
  = [Sql (IsAdmin 100) true;
     Responded (Json 403 "DELETE_FORBIDDEN" "You can't delete an admin")]
  /\ response (after (UserCascade.deleteUser (Some 100%Z))
                 (initial_world example_store example_files
                    [Some (Error "connection lost")] []))
     = Some (SendStatus 500).
Proof. split; reflexivity. Qed.

(** What the request to delete an admin sends and answers, by the fate
    of its statements: the policy query alone and 403; or, when the
    policy query fails, the policy query, a [ROLLBACK] and 500; or, when
    that [ROLLBACK] fails too, no answer. *)
Definition admin_trace (admin : Z) (db_faults : list (option JsError)) : list Event :=
  match db_faults with
  | Some _ :: Some _ :: _ => [Sql (IsAdmin admin) false; Sql ROLLBACK false]
  | Some _ :: _ =>
      [Sql (IsAdmin admin) false; Sql ROLLBACK true; Responded (SendStatus 500)]
  | _ =>
      [Sql (IsAdmin admin) true;
       Responded (Json 403 "DELETE_FORBIDDEN" "You can't delete an admin")]
  end.

Definition admin_response (db_faults : list (option JsError)) : option Response :=
  match db_faults with
  | Some _ :: Some _ :: _ => None
  | Some _ :: _ => Some (SendStatus 500)
  | _ => Some (Json 403 "DELETE_FORBIDDEN" "You can't delete an admin")
  end.

Lemma deleteUser_admin_trace : forall s f dbf ff admin,
  existsb (is_admin_user admin) (users s) = true ->
  trace (after (UserCascade.deleteUser (Some admin)) (initial_world s f dbf ff))
  = admin_trace admin dbf
  /\ response (after (UserCascade.deleteUser (Some admin)) (initial_world s f dbf ff))
     = admin_response dbf.
Proof.
  intros s f dbf ff admin H.
  unfold after, UserCascade.deleteUser, try_catch, bind, UserModel.isAdmin,
    UserModel.first_row_no, client_query, pg, initial_world.
  destruct dbf as [|[e|] [|[e'|] rest]]; cbn;
    try (fold (is_admin_user admin); rewrite (filter_length_pos _ _ _ H));
    split; reflexivity.
Qed.

(** C9, amended.  Deleting a user whose [is_admin] flag is true sends the
    policy query first.  When that query succeeds it is the only
    statement and the request fails with DELETE_FORBIDDEN; when it fails
    the handler sends a [ROLLBACK] and answers 500, unless the [ROLLBACK]
    fails too.  Whatever fails, no transaction is opened, no cascade
    statement is sent and neither the rows nor the artifacts change,
    whether or not the user owns games.  Deleting an existing user who is
    not an admin removes, in one transaction, the game rows the user owns
    and the user row, and nothing else. *)
Theorem deleteUser_policy_and_cascade :
  forall (s : Store) (f : list (ArtifactKey * Image))
         (db_faults file_faults : list (option JsError)) (admin member : Z),
    existsb (is_admin_user admin) (users s) = true ->
    existsb (is_admin_user member) (users s) = false ->
    existsb (has_user_id member) (users s) = true ->
    after (UserCascade.deleteUser (Some admin)) (initial_world s f [] file_faults)
    = mkWorld s None [] f file_faults
        [Sql (IsAdmin admin) true;
         Responded (Json 403 "DELETE_FORBIDDEN" "You can't delete an admin")]
        (Some (Json 403 "DELETE_FORBIDDEN" "You can't delete an admin"))
    /\ trace (after (UserCascade.deleteUser (Some admin))
                (initial_world s f db_faults file_faults))
       = admin_trace admin db_faults
    /\ response (after (UserCascade.deleteUser (Some admin))
                   (initial_world s f db_faults file_faults))
       = admin_response db_faults
    /\ committed (after (UserCascade.deleteUser (Some admin))
                    (initial_world s f db_faults file_faults)) = s
    /\ files (after (UserCascade.deleteUser (Some admin))
                (initial_world s f db_faults file_faults)) = f
    /\ forallb policy_only
         (trace (after (UserCascade.deleteUser (Some admin))
                   (initial_world s f db_faults file_faults))) = true
    /\ after (UserCascade.deleteUser (Some member)) (initial_world s f [] file_faults)
       = mkWorld (without_user member s) None [] f file_faults
           [Sql (IsAdmin member) true; Sql BEGIN true;
            Sql (DeleteGamesFromUser member) true; Sql (DeleteUser member) true;
            Sql COMMIT true; Responded (SendStatus 204)]
           (Some (SendStatus 204))
    /\ video_games (without_user member s) = video_games s
    /\ platforms (without_user member s) = platforms s
    /\ publications (without_user member s) = publications s
    /\ category_links (without_user member s) = category_links s
    /\ games (without_user member s)
       = filter (fun g => negb (owned_by member g)) (games s)
    /\ users (without_user member s)
       = filter (fun u => negb (has_user_id member u)) (users s).
Proof.
  intros s f dbf ff admin member Ha Hn He.
  destruct (deleteUser_admin_any_fault s f dbf ff admin Ha) as (H1 & H2 & H3).
  destruct (deleteUser_admin_trace s f dbf ff admin Ha) as (H4 & H5).
  repeat split; auto using deleteUser_admin, deleteUser_member.
Qed.

Lemma deleteUser_policy_and_cascade_witness :
  existsb (is_admin_user 100) (users example_store) = true
  /\ existsb (is_admin_user 101) (users example_store) = false
  /\ existsb (has_user_id 101) (users example_store) = true
  /\ games (committed (after (UserCascade.deleteUser (Some 101%Z))
                         (initial_world example_store example_files [] [])))
     = [mkGame 100 10].
Proof.
  assert (Ha : existsb (is_admin_user 100) (users example_store) = true) by reflexivity.
  assert (Hn : existsb (is_admin_user 101) (users example_store) = false) by reflexivity.
  assert (He : existsb (has_user_id 101) (users example_store) = true) by reflexivity.
  repeat (split; [assumption|]).
  rewrite (proj1 (proj2 (proj2 (proj2 (proj2 (proj2 (proj2
    (deleteUser_policy_and_cascade example_store example_files [] [] 100 101 Ha Hn He)))))))).
  reflexivity.
Defined.

(* ================================================================= *)
(** * The video game and platform cascades *)

(** ** The delete cascades without faults *)

Definition references (ids : list Z) (g : Game) : bool :=
  existsb (Z.eqb (game_publication_id g)) ids.

Definition listed (ids : list Z) (p : Publication) : bool :=
  existsb (Z.eqb (pub_id p)) ids.

(** The store once the publications [ids] and the games that reference
    them are gone. *)
Definition without_publications (ids : list Z) (s : Store) : Store :=
  set_publications
    (set_games s (filter (fun g => negb (references ids g)) (games s)))
    (filter (fun p => negb (listed ids p)) (publications s)).

Definition publication_events (ids : list Z) : list Event :=
  flat_map
    (fun id => [Sql (DeleteGamesFromPublication id) true; Sql (DeletePublication id) true])
    ids.

Lemma filter_filter : forall (A : Type) (p q : A -> bool) l,
  filter q (filter p l) = filter (fun x => p x && q x) l.
Proof.
  intros A p q l. induction l as [|x l IH]; simpl; [reflexivity|].
  destruct (p x); simpl; [destruct (q x)|]; now rewrite IH.
Qed.

Lemma without_publications_cons : forall id ids s,
  without_publications ids (without_publications [id] s) = without_publications (id :: ids) s.
Proof.
  intros id ids s. unfold without_publications, set_publications, set_games; cbn.
  rewrite !filter_filter. f_equal; apply filter_ext; intros x;
    unfold references, listed; cbn; rewrite orb_false_r, negb_orb; reflexivity.
Qed.

Lemma without_publications_nil : forall s, without_publications [] s = s.
Proof.
  intros [v p pu g c u]. unfold without_publications, set_publications, set_games; cbn.
  rewrite !filter_all by reflexivity. reflexivity.
Qed.

Lemma without_publications_single : forall id s,
  without_publications [id] s
  = mkStore (video_games s) (platforms s)
      (filter (fun x => negb (Z.eqb (pub_id x) id)) (publications s))
      (filter (fun g => negb (Z.eqb (game_publication_id g) id)) (games s))
      (category_links s) (users s).
Proof.
  intros id s. unfold without_publications, set_publications, set_games; cbn.
  f_equal; apply filter_ext; intros x; unfold references, listed; cbn;
    now rewrite orb_false_r.
Qed.

Lemma delete_publications_run : forall pubs s t f ff tr r sent0,
  for_of (map publication_row pubs) delete_publication
    (mkClient (mkWorld s (Some t) [] f ff tr r) sent0)
  = (inl tt,
     mkClient
       (mkWorld s (Some (without_publications (map pub_id pubs) t)) [] f ff
          (tr ++ publication_events (map pub_id pubs)) r)
       sent0).
Proof.
  induction pubs as [|p pubs IH]; intros s t f ff tr r sent0.
  - cbn. now rewrite without_publications_nil, app_nil_r.
  - cbn [map for_of]. unfold bind at 1.
    assert (Hstep :
      delete_publication (publication_row p)
        (mkClient (mkWorld s (Some t) [] f ff tr r) sent0)
      = (inl tt,
         mkClient
           (mkWorld s (Some (without_publications [pub_id p] t)) [] f ff
              (tr ++ publication_events [pub_id p]) r) sent0)).
    { rewrite without_publications_single.
      unfold delete_publication, bind, push. cbn.
      unfold push, ret. now rewrite <- app_assoc. }
    rewrite Hstep, IH, without_publications_cons. cbn. now rewrite <- app_assoc.
Qed.

Definition of_video_game (id : Z) (p : Publication) : bool := Z.eqb (pub_video_game_id p) id.

Definition publication_ids_of_video_game (id : Z) (s : Store) : list Z :=
  map pub_id (filter (of_video_game id) (publications s)).

(** The store once the cascade of a video game has run. *)
Definition without_video_game (id : Z) (s : Store) : Store :=
  let s1 := without_publications (publication_ids_of_video_game id s) s in
  let s2 :=
    set_category_links s1
      (filter (fun l => negb (Z.eqb (cl_video_game_id l) id)) (category_links s1)) in
  set_video_games s2 (filter (fun v => negb (Z.eqb (vg_id v) id)) (video_games s2)).

Lemma existsb_filter_nonempty : forall (A : Type) (p : A -> bool) l,
  existsb p l = true -> filter p l <> [].
Proof.
  intros A p l H. induction l as [|x l IH]; simpl in *; [discriminate|].
  destruct (p x); simpl in *; [discriminate|auto].
Qed.

Lemma deleteVideoGame_run : forall s f ff id,
  existsb (of_video_game id) (publications s) = true ->
  after (VideoGameCascade.deleteVideoGame (Some id)) (initial_world s f [] ff)
  = mkWorld (without_video_game id s) None [] f ff
      ([Sql (GetPublicationsOfVideoGame id) true; Sql BEGIN true]
         ++ publication_events (publication_ids_of_video_game id s)
         ++ [Sql (DeleteCategoriesFromVideoGame id) true; Sql (DeleteVideoGame id) true;
             Sql COMMIT true; Responded (SendStatus 204)])
      (Some (SendStatus 204)).
Proof.
  intros s f ff id H.
  assert (Hlen : Nat.eqb (List.length (map publication_row
                    (filter (of_video_game id) (publications s)))) 0 = false).
  { apply Nat.eqb_neq. rewrite length_map.
    pose proof (existsb_filter_nonempty _ _ _ H) as Hne.
    destruct (filter (of_video_game id) (publications s)); [congruence|simpl; lia]. }
  unfold after, VideoGameCascade.deleteVideoGame, try_catch, bind at 1,
    PublicationModel.getPublication_ofVideoGame, statement, initial_world.
  cbn [run next_fault db_faults db tx apply committed files file_faults trace response sent
       is_ok rows].
  fold (of_video_game id). rewrite Hlen.
  unfold bind at 1, not_awaited, client_query, pg.
  cbn [decode String.eqb Ascii.eqb Bool.eqb run next_fault db_faults db tx apply committed
       files file_faults trace response sent is_ok rows snd fst].
  unfold bind at 1.
  change (for_of ?l _) with (for_of l delete_publication).
  rewrite delete_publications_run.
  unfold bind, CategoryModel.deleteCategoriesFromVideoGame, VideoGameModel.deleteVideoGame,
    statement, client_query, pg, send.
  cbn. unfold push. cbn. rewrite <- !app_assoc. reflexivity.
Qed.

Lemma existsb_filter_false : forall (A : Type) (p q : A -> bool) l,
  (forall x, In x l -> q x = true -> p x = false) ->
  existsb p (filter q l) = false.
Proof.
  intros A p q l H. induction l as [|x l IH]; simpl; [reflexivity|].
  destruct (q x) eqn:Hq; simpl.
  - rewrite (H x (or_introl eq_refl) Hq). apply IH. intros y Hy. apply H. now right.
  - apply IH. intros y Hy. apply H. now right.
Qed.

Lemma listed_of_video_game : forall id s p,
  In p (publications s) -> of_video_game id p = true ->
  listed (publication_ids_of_video_game id s) p = true.
Proof.
  intros id s p Hin Hof. unfold listed, publication_ids_of_video_game.
  apply existsb_exists. exists (pub_id p). split; [|apply Z.eqb_refl].
  apply in_map. apply filter_In. now split.
Qed.

(** After the cascade nothing of the video game is left. *)
Lemma without_video_game_clean : forall id s,
  existsb (fun v => Z.eqb (vg_id v) id) (video_games (without_video_game id s)) = false
  /\ existsb (of_video_game id) (publications (without_video_game id s)) = false
  /\ existsb (fun l => Z.eqb (cl_video_game_id l) id)
       (category_links (without_video_game id s)) = false
  /\ existsb
       (fun g =>
          existsb (fun p => of_video_game id p && Z.eqb (pub_id p) (game_publication_id g))
            (publications s))
       (games (without_video_game id s)) = false.
Proof.
  intros id s. unfold without_video_game. cbn. repeat split.
  - apply existsb_filter_false. intros x _ H. now apply negb_true_iff in H.
  - apply existsb_filter_false. intros x Hin H. apply negb_true_iff in H.
    destruct (of_video_game id x) eqn:Hof; [|reflexivity].
    rewrite (listed_of_video_game id s x Hin Hof) in H. discriminate.
  - apply existsb_filter_false. intros x _ H. now apply negb_true_iff in H.
  - apply existsb_filter_false. intros g _ H. apply negb_true_iff in H.
    destruct (existsb _ (publications s)) eqn:He; [|reflexivity].
    apply existsb_exists in He as [p [Hin Hp]]. apply andb_true_iff in Hp as [Hof Heq].
    apply Z.eqb_eq in Heq.
    pose proof (listed_of_video_game id s p Hin Hof) as Hl.
    unfold listed in Hl. unfold references in H. rewrite <- Heq in H. congruence.
Qed.






(** ** A root that does not exist *)

(** Every publication refers to a video game and to a platform of the
    store. *)
Definition referential_integrity (s : Store) : bool :=
  forallb
    (fun p =>
       existsb (fun v => Z.eqb (vg_id v) (pub_video_game_id p)) (video_games s)
       && existsb (fun q => String.eqb (pf_code q) (pub_platform_code p)) (platforms s))
    (publications s).

Definition of_platform (code : string) (p : Publication) : bool :=
  String.eqb (pub_platform_code p) code.

Definition begins (e : Event) : bool :=
  match e with Sql BEGIN _ => true | _ => false end.

Lemma filter_none : forall (A : Type) (p : A -> bool) l,
  (forall x, In x l -> p x = false) -> filter p l = [].
Proof.
  intros A p l H. induction l as [|x l IH]; simpl; [reflexivity|].
  rewrite (H x (or_introl eq_refl)). apply IH. intros y Hy. apply H. now right.
Qed.

Lemma no_publication_of_missing_video_game : forall s id,
  referential_integrity s = true ->
  existsb (fun v => Z.eqb (vg_id v) id) (video_games s) = false ->
  filter (of_video_game id) (publications s) = [].
Proof.
  intros s id Hri Hno. apply filter_none. intros p Hin.
  unfold referential_integrity in Hri. rewrite forallb_forall in Hri.
  specialize (Hri p Hin). apply andb_true_iff in Hri as [Hv _].
  unfold of_video_game. destruct (Z.eqb_spec (pub_video_game_id p) id) as [Heq|]; [|reflexivity].
  rewrite Heq in Hv. congruence.
Qed.

Lemma no_publication_of_missing_platform : forall s code,
  referential_integrity s = true ->
  existsb (fun q => String.eqb (pf_code q) code) (platforms s) = false ->
  filter (of_platform code) (publications s) = [].
Proof.
  intros s code Hri Hno. apply filter_none. intros p Hin.
  unfold referential_integrity in Hri. rewrite forallb_forall in Hri.
  specialize (Hri p Hin). apply andb_true_iff in Hri as [_ Hp].
  unfold of_platform. destruct (String.eqb_spec (pub_platform_code p) code) as [Heq|];
    [|reflexivity].
  rewrite Heq in Hp. congruence.
Qed.

Lemma deleteVideoGame_missing : forall s f dbf ff id,
  referential_integrity s = true ->
  existsb (fun v => Z.eqb (vg_id v) id) (video_games s) = false ->
  after (VideoGameCascade.deleteVideoGame (Some id)) (initial_world s f [] ff)
  = mkWorld s None [] f ff
      [Sql (GetPublicationsOfVideoGame id) true; Responded (Send 404 "No video game found")]
      (Some (Send 404 "No video game found"))
  /\ committed (after (VideoGameCascade.deleteVideoGame (Some id))
                  (initial_world s f dbf ff)) = s
  /\ existsb begins
       (trace (after (VideoGameCascade.deleteVideoGame (Some id))
                 (initial_world s f dbf ff))) = false.
Proof.
  intros s f dbf ff id Hri Hno.
  pose proof (no_publication_of_missing_video_game s id Hri Hno) as Hnone.
  unfold of_video_game in Hnone.
  unfold after, VideoGameCascade.deleteVideoGame, try_catch, bind,
    PublicationModel.getPublication_ofVideoGame, statement, initial_world, not_awaited,
    client_query, pg.
  split; [|destruct dbf as [|[e|] [|[e'|] rest]]]; cbn; rewrite ?Hnone; cbn;
    repeat split; reflexivity.
Qed.

Lemma deletePlatform_missing : forall s f ff code,
  referential_integrity s = true ->
  existsb (fun q => String.eqb (pf_code q) (PlatformCascade.toUpperCase code)) (platforms s)
  = false ->
  after (PlatformCascade.deletePlatform code) (initial_world s f [] ff)
  = mkWorld s None [] f ff
      [Sql BEGIN true;
       Sql (GetPublicationsOfPlatform (PlatformCascade.toUpperCase code)) true;
       Sql (DeletePlatform (PlatformCascade.toUpperCase code)) true;
       Responded (Json 404 "RESOURCE_NOT_FOUND" "No platform found");
       Sql ROLLBACK true]
      (Some (Json 404 "RESOURCE_NOT_FOUND" "No platform found")).
Proof.
  intros s f ff code Hri Hno.
  pose proof (no_publication_of_missing_platform s _ Hri Hno) as Hnone.
  unfold of_platform in Hnone.
  pose proof (deleted_none _ _ _ Hno) as Hcount.
  unfold after, PlatformCascade.deletePlatform, try_catch, bind,
    PublicationModel.getPublication_ofPlatform, PlatformModel.deletePlatform, statement,
    initial_world, client_query, pg.
  cbn. rewrite Hnone. cbn. rewrite Hcount. cbn. reflexivity.
Qed.

(** C4 as stated fails for [deletePlatform]: for a platform that does not
    exist the handler opens a transaction, runs the cascade in it and
    rolls it back. *)
Lemma deletePlatform_missing_counterexample :
  existsb (fun q => String.eqb (pf_code q) "XBOX") (platforms example_store) = false
  /\ trace (after (PlatformCascade.deletePlatform "xbox")
              (initial_world example_store example_files [] []))
     = [Sql BEGIN true; Sql (GetPublicationsOfPlatform "XBOX") true;
        Sql (DeletePlatform "XBOX") true;
        Responded (Json 404 "RESOURCE_NOT_FOUND" "No platform found");
        Sql ROLLBACK true].
Proof. split; reflexivity. Qed.

(** C4, amended.  In a store where every publication refers to an
    existing video game and platform, and without failing statement:
    [deleteVideoGame] on a video game that does not exist answers 404
    right after its publication lookup, without opening a transaction;
    [deletePlatform] on a platform that does not exist opens a
    transaction, finds that its delete affected no row, answers 404 and
    rolls the transaction back.  Neither changes a row or an artifact; and
    whatever fails, [deleteVideoGame] on a missing video game opens no
    transaction and changes no row. *)
Theorem delete_missing_root :
  forall (s : Store) (f : list (ArtifactKey * Image))
         (db_faults file_faults : list (option JsError)) (id : Z) (code : string),
    referential_integrity s = true ->
    existsb (fun v => Z.eqb (vg_id v) id) (video_games s) = false ->
    existsb (fun q => String.eqb (pf_code q) (PlatformCascade.toUpperCase code)) (platforms s)
    = false ->
    after (VideoGameCascade.deleteVideoGame (Some id)) (initial_world s f [] file_faults)
    = mkWorld s None [] f file_faults
        [Sql (GetPublicationsOfVideoGame id) true;
         Responded (Send 404 "No video game found")]
        (Some (Send 404 "No video game found"))
    /\ committed (after (VideoGameCascade.deleteVideoGame (Some id))
                    (initial_world s f db_faults file_faults)) = s
    /\ existsb begins
         (trace (after (VideoGameCascade.deleteVideoGame (Some id))
                   (initial_world s f db_faults file_faults))) = false
    /\ after (PlatformCascade.deletePlatform code) (initial_world s f [] file_faults)
       = mkWorld s None [] f file_faults
           [Sql BEGIN true;
            Sql (GetPublicationsOfPlatform (PlatformCascade.toUpperCase code)) true;
            Sql (DeletePlatform (PlatformCascade.toUpperCase code)) true;
            Responded (Json 404 "RESOURCE_NOT_FOUND" "No platform found");
            Sql ROLLBACK true]
           (Some (Json 404 "RESOURCE_NOT_FOUND" "No platform found")).
Proof.
  intros s f dbf ff id code Hri Hv Hp.
  destruct (deleteVideoGame_missing s f dbf ff id Hri Hv) as (H1 & H2 & H3).
  repeat split; auto using deletePlatform_missing.
Qed.

Lemma delete_missing_root_witness :
  referential_integrity example_store = true
  /\ existsb (fun v => Z.eqb (vg_id v) 9) (video_games example_store) = false
  /\ existsb (fun q => String.eqb (pf_code q) (PlatformCascade.toUpperCase "xbox"))
       (platforms example_store) = false
  /\ response (after (VideoGameCascade.deleteVideoGame (Some 9%Z))
                 (initial_world example_store example_files [] []))
     = Some (Send 404 "No video game found").
Proof.
  assert (H1 : referential_integrity example_store = true) by reflexivity.
  assert (H2 : existsb (fun v => Z.eqb (vg_id v) 9) (video_games example_store) = false)
    by reflexivity.
  assert (H3 : existsb (fun q => String.eqb (pf_code q) (PlatformCascade.toUpperCase "xbox"))
                 (platforms example_store) = false) by reflexivity.
  repeat (split; [assumption|]).
  rewrite (proj1 (delete_missing_root example_store example_files [] [] 9 "xbox" H1 H2 H3)).
  reflexivity.
Defined.

(** C2, the failing run.  [deleteVideoGame] does not await its [BEGIN]:
    when the [BEGIN] is rejected the handler goes on outside any
    transaction, so when a later statement fails, here the deletion of
    the games of publication 11, the [ROLLBACK] reverts nothing:
    publication 10 and the game that referenced it stay deleted although
    the request answers 500. *)
Theorem deleteVideoGame_rejected_begin :
  after (VideoGameCascade.deleteVideoGame (Some 1%Z))
    (initial_world example_store example_files
       [None; Some (Error "rejected"); None; None; Some (Error "rejected")] [])
  = mkWorld
      (mkStore (video_games example_store) (platforms example_store)
         [example_publication 11 "PS5" 1; example_publication 12 "PC" 2]
         [mkGame 101 11; mkGame 101 12]
         (category_links example_store) (users example_store))
      None [] example_files []
      [Sql (GetPublicationsOfVideoGame 1) true; Sql BEGIN false;
       Sql (DeleteGamesFromPublication 10) true; Sql (DeletePublication 10) true;
       Sql (DeleteGamesFromPublication 11) false; Sql ROLLBACK true;
       Responded (Send 500 "Internal Server Error")]
      (Some (Send 500 "Internal Server Error")).
Proof. reflexivity. Qed.

(** ** The video game cascade when its [BEGIN] is accepted *)

(** The next statement is not made to fail. *)
Definition accepts_next (faults : list (option JsError)) : Prop :=
  match faults with
  | Some _ :: _ => False
  | _ => True
  end.

Lemma run_accepted : forall st w,
  accepts_next (db_faults w) -> is_control st = true -> is_ok (fst (run st w)) = true.
Proof.
  intros st w H Hst. unfold run.
  destruct (db_faults w) as [|[e|] rest]; cbn [next_fault]; try contradiction;
    destruct st; try discriminate; reflexivity.
Qed.

Lemma run_lookup_keeps : forall id w r w',
  run (GetPublicationsOfVideoGame id) w = (r, w') ->
  committed w' = committed w /\ tx w' = tx w.
Proof.
  intros id w r w' H. unfold run in H.
  destruct (db_faults w) as [|[e|] rest]; cbn [next_fault] in H;
    destruct (tx w); cbn in H; inversion H; subst; cbn; auto.
Qed.

Section BeginAccepted.
Variables (s : Store) (f : list (ArtifactKey * Image)) (key : ArtifactKey).

(** The cascade has committed, or nothing of it is visible. *)
Definition resolved (w : World) : Prop :=
  existsb commits (trace w) = true \/ untouched s f w.

Lemma settled_resolved : forall w, settled s f key w -> resolved w.
Proof.
  intros w [(_ & H & _)|[(_ & H & _)|H]]; [now left | now left | now right].
Qed.

Lemma lookup_at_start : forall id,
  triple (fun w => at_start s f w /\ accepts_next (tl (db_faults w)))
    (PublicationModel.getPublication_ofVideoGame id)
    (fun _ w => at_start s f w /\ accepts_next (db_faults w))
    (fun _ w => resolved w).
Proof.
  intros id. apply triple_statement. intros w r w' [(Hc & Hf & Ht) Hacc] Hrun.
  destruct (run_facts _ _ _ _ Hrun) as (Hf' & _ & _ & Htr & Hdf & _).
  destruct (run_lookup_keeps _ _ _ _ Hrun) as [Hc' _].
  assert (Hs : at_start s f w').
  { repeat split; try congruence. rewrite Htr, forallb_push, Ht. reflexivity. }
  destruct r as [a|e].
  - split; [exact Hs|]. now rewrite Hdf.
  - right. destruct Hs as (H1 & H2 & H3). repeat split; auto using calm_quiet.
Qed.

Lemma begin_accepted : forall E,
  triple (fun w => at_start s f w /\ accepts_next (db_faults w))
    (not_awaited (client_query pg "BEGIN" []))
    (fun _ w => in_transaction s f w) E.
Proof.
  intros E c [(Hc & Hf & Ht) Hacc]. unfold not_awaited, client_query, pg.
  cbn [decode String.eqb Ascii.eqb Bool.eqb].
  destruct (run BEGIN (db c)) as [r w'] eqn:Hrun. cbn [snd db].
  destruct (run_facts _ _ _ _ Hrun) as (Hf' & _ & _ & Htr & _ & _ & _ & Hb & _).
  destruct (Hb eq_refl) as [Hc' Htx].
  pose proof (run_accepted BEGIN (db c) Hacc eq_refl) as Hok. rewrite Hrun in Hok.
  repeat split; try congruence; [|now apply Htx].
  rewrite Htr, forallb_push, Ht. reflexivity.
Qed.

Lemma query_in_transaction : forall text params st,
  decode text params = Some st -> is_control st = false ->
  triple (in_transaction s f) (client_query pg text params)
    (fun _ w => in_transaction s f w) (fun _ w => resolved w).
Proof.
  intros text params st Hd Hst c H.
  pose proof (data_statement_in_transaction s f key st Hst (mkClient (db c) (sent c)) H) as Hs.
  unfold statement in Hs. unfold client_query, pg. rewrite Hd. cbn [db sent] in Hs.
  destruct (run st (db c)) as [[a|e] w']; cbn [db] in *; auto using settled_resolved.
Qed.

Lemma statement_resolved : forall st,
  is_control st = false ->
  triple (in_transaction s f) (statement st)
    (fun _ w => in_transaction s f w) (fun _ w => resolved w).
Proof.
  intros st Hst.
  apply triple_consequence with (P' := in_transaction s f)
    (Q' := fun _ w => in_transaction s f w) (E' := fun _ w => settled s f key w); auto.
  - now apply data_statement_in_transaction.
  - intros e w H. now apply settled_resolved.
Qed.

Lemma delete_publication_resolved : forall row,
  triple (in_transaction s f) (delete_publication row)
    (fun _ w => in_transaction s f w) (fun _ w => resolved w).
Proof.
  intros row.
  apply triple_consequence with (P' := in_transaction s f)
    (Q' := fun _ w => in_transaction s f w) (E' := fun _ w => settled s f key w); auto.
  - apply delete_publication_in_transaction.
  - intros e w H. now apply settled_resolved.
Qed.

Lemma commit_not_awaited : forall E,
  triple (in_transaction s f) (not_awaited (client_query pg "COMMIT" []))
    (fun _ w => resolved w) E.
Proof.
  intros E. eapply triple_not_awaited; [apply (commit_in_transaction s f key)| |].
  - intros a w (_ & H & _). now left.
  - intros e w H. now apply settled_resolved.
Qed.

Lemma send_resolved : forall r,
  triple resolved (send r) (fun _ w => resolved w) (fun _ w => resolved w).
Proof.
  intros r c H. unfold send. destruct (response (db c)); cbn; [exact H|].
  destruct H as [H|(Hc & Hf & Ht)].
  - left. cbn. rewrite existsb_push, H. reflexivity.
  - right. unfold untouched. cbn. rewrite forallb_push, Ht. repeat split; auto.
Qed.

Lemma rollback_not_awaited : forall E,
  triple resolved (not_awaited (client_query pg "ROLLBACK" []))
    (fun _ w => resolved w) E.
Proof.
  intros E c H. unfold not_awaited, client_query, pg.
  cbn [decode String.eqb Ascii.eqb Bool.eqb].
  destruct (run ROLLBACK (db c)) as [r w'] eqn:Hrun. cbn [snd db].
  destruct (run_facts _ _ _ _ Hrun) as (Hf' & _ & _ & Htr & _ & _ & _ & _ & Hrb & _).
  destruct (Hrb eq_refl) as [Hc' _].
  destruct H as [H|(Hc & Hf & Ht)].
  - left. rewrite Htr, existsb_push, H. reflexivity.
  - right. unfold untouched. rewrite Htr, forallb_push, Ht. repeat split; congruence.
Qed.

Lemma deleteVideoGame_resolves : forall id,
  triple (fun w => at_start s f w /\ accepts_next (tl (db_faults w)))
    (VideoGameCascade.deleteVideoGame id)
    (fun _ w => resolved w) (fun _ w => resolved w).
Proof.
  intros [id|]; unfold VideoGameCascade.deleteVideoGame.
  - eapply triple_try_catch with (R := fun _ w => resolved w).
    + eapply triple_bind; [apply lookup_at_start|]. intros r. cbv beta.
      destruct (Nat.eqb (List.length (rows r)) 0).
      * eapply triple_pre; [apply send_resolved|].
        intros w [(Hc & Hf & Ht) _]. right. repeat split; auto using calm_quiet.
      * eapply triple_bind; [apply begin_accepted|]. intros ?.
        eapply triple_bind.
        { apply triple_for_of. intros row _. apply delete_publication_resolved. }
        intros ?.
        eapply triple_bind; [now apply statement_resolved|]. intros ?.
        eapply triple_bind; [eapply query_in_transaction; reflexivity|]. intros ?.
        eapply triple_bind; [apply commit_not_awaited|]. intros ?.
        apply send_resolved.
    + intros e. eapply triple_bind; [apply rollback_not_awaited|]. intros ?.
      apply send_resolved.
  - eapply triple_pre; [apply send_resolved|].
    intros w [(Hc & Hf & Ht) _]. right. repeat split; auto using calm_quiet.
Qed.
End BeginAccepted.

(** X1.  When the [BEGIN] of [deleteVideoGame], its second statement, is
    not rejected, the cascade is atomic whatever else fails: either a
    [COMMIT] succeeded or the committed rows and the artifacts are those
    of the start. *)
Theorem deleteVideoGame_atomic_when_begin_accepted :
  forall (s : Store) (f : list (ArtifactKey * Image))
         (db_faults file_faults : list (option JsError)) (id : option Z),
    accepts_next (tl db_faults) ->
    existsb commits
      (trace (after (VideoGameCascade.deleteVideoGame id)
                (initial_world s f db_faults file_faults))) = true
    \/ (committed (after (VideoGameCascade.deleteVideoGame id)
                     (initial_world s f db_faults file_faults)) = s
        /\ files (after (VideoGameCascade.deleteVideoGame id)
                    (initial_world s f db_faults file_faults)) = f).
Proof.
  intros s f dbf ff id Hacc. unfold after.
  pose proof (deleteVideoGame_resolves s f (EmptyString, VNull) id
                (mkClient (initial_world s f dbf ff) [])) as H.
  destruct (VideoGameCascade.deleteVideoGame id (mkClient (initial_world s f dbf ff) []))
    as [[[]|e] c'];
    (assert (Hr : resolved s f (db c')) by (apply H; repeat split; auto));
    (destruct Hr as [Hr|(Hc & Hf & _)]; [now left | now right]).
Qed.

Lemma deleteVideoGame_atomic_when_begin_accepted_witness :
  accepts_next (tl [None; None; None; Some (Error "rejected")])
  /\ (existsb commits
        (trace (after (VideoGameCascade.deleteVideoGame (Some 1%Z))
                  (initial_world example_store example_files
                     [None; None; None; Some (Error "rejected")] []))) = true
      \/ (committed (after (VideoGameCascade.deleteVideoGame (Some 1%Z))
                       (initial_world example_store example_files
                          [None; None; None; Some (Error "rejected")] []))
          = example_store
          /\ files (after (VideoGameCascade.deleteVideoGame (Some 1%Z))
                      (initial_world example_store example_files
                         [None; None; None; Some (Error "rejected")] []))
             = example_files)).
Proof.
  split; [exact I|].
  apply (deleteVideoGame_atomic_when_begin_accepted example_store example_files
           [None; None; None; Some (Error "rejected")] [] (Some 1%Z)).
  exact I.
Defined.

(* ================================================================= *)
(** * Creating a platform with new video games *)

Import PlatformCascade.

Definition platform_key (code : string) : ArtifactKey := (destFolderPlatform, VStr code).
Definition video_game_key (id : Z) : ArtifactKey := (destFolderVideoGame, VNum id).

Definition has_code (code : string) (p : Platform) : bool := String.eqb (pf_code p) code.

Lemma put_artifact_here : forall k i fs, In (k, i) (put_artifact k i fs).
Proof. intros k i fs. unfold put_artifact, push. apply in_or_app. right. now left. Qed.

Lemma put_artifact_keeps : forall k i k' i' fs,
  key_eqb k' k = false -> In (k', i') fs -> In (k', i') (put_artifact k i fs).
Proof.
  intros k i k' i' fs Hk Hin. unfold put_artifact, push, remove_artifact.
  apply in_or_app. left. apply filter_In. split; [assumption|]. cbn. now rewrite Hk.
Qed.

(** ** Creating a platform with new video games, whatever fails *)

Definition succeeded (e : Event) : bool :=
  match e with
  | Sql _ ok => ok
  | SaveImage _ ok => ok
  | _ => true
  end.

(** Every image the trace reports as written is in the artifact store. *)
Definition saved (w : World) : Prop :=
  forall k, In (SaveImage k true) (trace w) -> exists i, In (k, i) (files w).

Lemma Value_eqb_eq : forall a b, Value_eqb a b = true -> a = b.
Proof.
  intros [x|x|x|] [y|y|y|] H; cbn in H; try discriminate; try reflexivity; f_equal.
  - now apply Z.eqb_eq.
  - now apply String.eqb_eq.
  - now apply Bool.eqb_prop.
Qed.

Lemma key_eqb_eq : forall a b, key_eqb a b = true -> a = b.
Proof.
  intros [a1 a2] [b1 b2] H. unfold key_eqb in H. cbn in H.
  apply andb_true_iff in H as [H1 H2].
  apply String.eqb_eq in H1. apply Value_eqb_eq in H2. now subst.
Qed.

Lemma saved_push : forall w w' e,
  saved w -> files w' = files w -> trace w' = push (trace w) e ->
  (forall k, e <> SaveImage k true) -> saved w'.
Proof.
  intros w w' e Hs Hf Ht He k Hin. rewrite Hf. rewrite Ht in Hin.
  unfold push in Hin. apply in_app_or in Hin as [Hin|[Hin|[]]]; [now apply Hs|].
  now apply He in Hin.
Qed.

Section Creation.
Variable s : Store.

(** Inside the transaction, every step so far has succeeded. *)
Definition creating (w : World) : Prop :=
  committed w = s /\ tx w <> None /\ forallb succeeded (trace w) = true
  /\ response w = None /\ saved w.

(** A step has failed before any commit. *)
Definition failed (w : World) : Prop :=
  committed w = s /\ response w = None /\ saved w.

(** The end of the request: either no row was added, or every step
    succeeded and the answer is 201. *)
Definition concluded (w : World) : Prop :=
  saved w
  /\ (committed w = s
      \/ (forallb succeeded (trace w) = true /\ response w = Some (SendStatus 201))).

Lemma run_creating : forall st w r w',
  is_control st = false -> creating w -> run st w = (r, w') ->
  match r with inl _ => creating w' | inr _ => failed w' end.
Proof.
  intros st w r w' Hst (Hc & Htx & Hok & Hr & Hs) Hrun.
  destruct (run_facts _ _ _ _ Hrun) as (Hf' & _ & Hr' & Htr & _ & _ & Hdata & _).
  destruct (Hdata Hst Htx) as [Hc' Htx'].
  assert (Hsaved : saved w') by (eapply saved_push; eauto; discriminate).
  destruct r as [a|e].
  - repeat split; try congruence; auto. rewrite Htr, forallb_push, Hok. reflexivity.
  - repeat split; try congruence; auto.
Qed.

Lemma statement_creating : forall st,
  is_control st = false ->
  triple creating (statement st) (fun _ w => creating w) (fun _ w => failed w).
Proof.
  intros st Hst. apply triple_statement. intros w r w' H Hrun.
  exact (run_creating st w r w' Hst H Hrun).
Qed.

Lemma query_creating : forall text params st,
  decode text params = Some st -> is_control st = false ->
  triple creating (client_query pg text params)
    (fun _ w => creating w) (fun _ w => failed w).
Proof.
  intros text params st Hd Hst. eapply triple_query; [exact Hd|]. intros w r w' H Hrun.
  exact (run_creating st w r w' Hst H Hrun).
Qed.

Lemma creating_failed : forall w, creating w -> failed w.
Proof. intros w (Hc & _ & _ & Hr & Hs). repeat split; assumption. Qed.

Lemma saveImageToPng_creating : forall buffer name dest,
  triple creating (ImageManager.saveImageToPng buffer name dest)
    (fun _ w => creating w) (fun _ w => failed w).
Proof.
  intros buffer name dest c (Hc & Htx & Hok & Hr & Hs).
  unfold ImageManager.saveImageToPng.
  destruct (file_faults (db c)) as [|[e|] rest]; cbn [next_fault].
  - unfold creating. cbn. rewrite forallb_push, Hok. repeat split; auto.
    intros k Hin. unfold push in Hin. apply in_app_or in Hin as [Hin|[Hin|[]]].
    + destruct (Hs k Hin) as [i Hi]. destruct (key_eqb k (dest, name)) eqn:Hk.
      * apply key_eqb_eq in Hk. subst. eexists. apply put_artifact_here.
      * exists i. now apply put_artifact_keeps.
    + inversion Hin; subst. eexists. apply put_artifact_here.
  - unfold failed. cbn. repeat split; auto.
    intros k Hin. unfold push in Hin. apply in_app_or in Hin as [Hin|[Hin|[]]];
      [now apply Hs | discriminate].
  - unfold creating. cbn. rewrite forallb_push, Hok. repeat split; auto.
    intros k Hin. unfold push in Hin. apply in_app_or in Hin as [Hin|[Hin|[]]].
    + destruct (Hs k Hin) as [i Hi]. destruct (key_eqb k (dest, name)) eqn:Hk.
      * apply key_eqb_eq in Hk. subst. eexists. apply put_artifact_here.
      * exists i. now apply put_artifact_keeps.
    + inversion Hin; subst. eexists. apply put_artifact_here.
Qed.

Lemma create_video_games_creating : forall code videoGames pictures,
  triple creating (create_video_games code videoGames pictures)
    (fun _ w => creating w) (fun _ w => failed w).
Proof.
  intros code videoGames. induction videoGames as [|v rest IH]; intros pictures.
  - intros c H. exact H.
  - cbn [create_video_games].
    eapply triple_bind.
    { unfold VideoGameModel.createVideoGame.
      eapply query_creating; reflexivity. }
    intros r. cbv beta.
    eapply triple_bind with (R := fun _ w => creating w).
    { destruct (rows r); intros c H; cbn; auto using creating_failed. }
    intros videoGameId. cbv beta.
    eapply triple_bind with (R := fun _ w => creating w).
    { destruct pictures; intros c H; cbn; auto using creating_failed. }
    intros array. cbv beta.
    destruct array as [|file array'].
    + intros c H. cbn. now apply creating_failed.
    + eapply triple_bind; [apply saveImageToPng_creating|]. intros ?.
      eapply triple_bind.
      { unfold PublicationModel.createPublication.
        destruct videoGameId;
          try (intros c H; cbn; now apply creating_failed).
        now apply statement_creating. }
      intros ?. apply IH.
Qed.

(** The state a request starts in. *)
Definition starting (w : World) : Prop :=
  committed w = s /\ forallb succeeded (trace w) = true /\ response w = None /\ saved w.

(** Every step has succeeded, the commit included. *)
Definition all_committed (w : World) : Prop :=
  forallb succeeded (trace w) = true /\ response w = None /\ saved w.

Lemma failed_concluded : forall w, failed w -> concluded w.
Proof. intros w (Hc & _ & Hs). split; auto. Qed.

Lemma begin_starting :
  triple starting (client_query pg "BEGIN" [])
    (fun _ w => creating w) (fun _ w => failed w).
Proof.
  eapply triple_query; [reflexivity|]. intros w r w' (Hc & Hok & Hr & Hs) Hrun.
  destruct (run_facts _ _ _ _ Hrun) as (Hf' & _ & Hr' & Htr & _ & _ & _ & Hb & _).
  destruct (Hb eq_refl) as [Hc' Htx].
  assert (Hsaved : saved w') by (eapply saved_push; eauto; discriminate).
  destruct r as [a|e].
  - repeat split; try congruence; auto. rewrite Htr, forallb_push, Hok. reflexivity.
  - repeat split; try congruence; auto.
Qed.

Lemma commit_creating :
  triple creating (client_query pg "COMMIT" [])
    (fun _ w => all_committed w) (fun _ w => failed w).
Proof.
  eapply triple_query; [reflexivity|]. intros w r w' (Hc & Htx & Hok & Hr & Hs) Hrun.
  destruct (run_facts _ _ _ _ Hrun) as (Hf' & _ & Hr' & Htr & _ & Hfail & _).
  assert (Hsaved : saved w') by (eapply saved_push; eauto; discriminate).
  destruct r as [a|e].
  - repeat split; try congruence; auto. rewrite Htr, forallb_push, Hok. reflexivity.
  - destruct (Hfail eq_refl) as [Hc' _]. repeat split; try congruence; auto.
Qed.

Lemma send_all_committed :
  triple all_committed (send (SendStatus 201))
    (fun _ w => concluded w) (fun _ w => failed w).
Proof.
  intros c (Hok & Hr & Hs). unfold send. rewrite Hr. unfold concluded. cbn.
  rewrite forallb_push, Hok. split; [|right; split; reflexivity].
  eapply saved_push with (w := db c); eauto; try reflexivity; discriminate.
Qed.

Lemma rollback_failed :
  triple failed (client_query pg "ROLLBACK" [])
    (fun _ w => failed w) (fun _ w => concluded w).
Proof.
  eapply triple_query; [reflexivity|]. intros w r w' (Hc & Hr & Hs) Hrun.
  destruct (run_facts _ _ _ _ Hrun) as (Hf' & _ & Hr' & Htr & _ & _ & _ & _ & Hrb & _).
  destruct (Hrb eq_refl) as [Hc' _].
  assert (Hsaved : saved w') by (eapply saved_push; eauto; discriminate).
  destruct r as [a|e]; [|apply failed_concluded]; repeat split; try congruence; auto.
Qed.

Lemma send_failed : forall r,
  triple failed (send r) (fun _ w => concluded w) (fun _ w => concluded w).
Proof.
  intros r c (Hc & Hr & Hs). unfold send. rewrite Hr. unfold concluded. cbn.
  split; [|now left].
  eapply saved_push with (w := db c); eauto; try reflexivity; discriminate.
Qed.

Lemma send_starting : forall r,
  triple starting (send r) (fun _ w => concluded w) (fun _ w => concluded w).
Proof.
  intros r c (Hc & Hok & Hr & Hs). apply (send_failed r c). repeat split; assumption.
Qed.

Lemma createPlatformWithNewVideoGames_concludes :
  forall scope code description abbreviation videoGames req_files,
    triple starting
      (createPlatformWithNewVideoGames scope code description abbreviation videoGames
         req_files)
      (fun _ w => concluded w) (fun _ w => concluded w).
Proof.
  intros scope code description abbreviation videoGames req_files.
  unfold createPlatformWithNewVideoGames.
  destruct (platformPicture req_files) as [[|p more]|]; try apply send_starting.
  destruct (match files_videoGamesPictures req_files with
            | Some l => negb (Nat.eqb (List.length l) (List.length videoGames))
            | None => true
            end); [apply send_starting|].
  eapply triple_try_catch with (R := fun _ w => failed w).
  - eapply triple_bind; [apply begin_starting|]. intros ?.
    eapply triple_bind; [now apply statement_creating|]. intros ?.
    eapply triple_bind with (R := fun _ w => creating w).
    { destruct (picture scope); intros c H; cbn; auto using creating_failed. }
    intros file.
    eapply triple_bind; [apply saveImageToPng_creating|]. intros ?.
    eapply triple_bind; [apply create_video_games_creating|]. intros ?.
    eapply triple_bind; [apply commit_creating|]. intros ?.
    apply send_all_committed.
  - intros e.
    eapply triple_bind; [apply rollback_failed|]. intros ?.
    destruct (match error_code e with
              | Some c => String.eqb c UNIQUE_VIOLATION
              | None => false
              end); [apply send_failed|].
    destruct (includes (error_message e) "format"); apply send_failed.
Qed.
End Creation.

(** A request for the platform SWITCH with two new video games, the
    platform picture and one picture per video game. *)
Definition example_video_games : list NewVideoGame :=
  [mkNewVideoGame (VStr "Zelda") (VStr "") (VStr "2017-03-03") None None;
   mkNewVideoGame (VStr "Mario") (VStr "") (VStr "2017-10-27") None None].

Definition example_upload : Files :=
  mkFiles (Some [mkFile "switch.png"]) (Some [mkFile "zelda.png"; mkFile "mario.png"]).

(** ** The handler as the sources give it

    Neither [picture] nor [videoGamesPictures] is declared, so reading
    [picture.buffer] throws a [ReferenceError] right after the platform
    row is inserted: the request is rolled back. *)

Definition unanswered (w : World) : Prop := response w = None.

Definition not_created (w : World) : Prop := response w <> Some (SendStatus 201).

Lemma unanswered_not_created : forall w, unanswered w -> not_created w.
Proof. intros w H. unfold not_created. rewrite H. discriminate. Qed.

Lemma triple_false : forall (A : Type) (m : M (Client World) A) Q E,
  triple (fun _ => False) m Q E.
Proof. intros A m Q E c []. Qed.

Lemma statement_unanswered : forall st,
  triple unanswered (statement st) (fun _ w => unanswered w) (fun _ w => unanswered w).
Proof.
  intros st. apply triple_statement. intros w r w' H Hrun.
  destruct (run_facts _ _ _ _ Hrun) as (_ & _ & Hr' & _).
  unfold unanswered in *. destruct r; congruence.
Qed.

Lemma query_unanswered : forall text params,
  triple unanswered (client_query pg text params)
    (fun _ w => unanswered w) (fun _ w => unanswered w).
Proof.
  intros text params c H. unfold client_query, pg.
  destruct (decode text params) as [st|]; [|exact H].
  destruct (run st (db c)) as [r w'] eqn:Hrun.
  destruct (run_facts _ _ _ _ Hrun) as (_ & _ & Hr' & _).
  unfold unanswered in *. destruct r; cbn; congruence.
Qed.

Lemma send_unanswered : forall r,
  r <> SendStatus 201 ->
  triple unanswered (send r) (fun _ w => not_created w) (fun _ w => not_created w).
Proof.
  intros r Hr c H. unfold send, unanswered in *. rewrite H. unfold not_created. cbn.
  congruence.
Qed.

Lemma createPlatformWithNewVideoGames_undeclared :
  forall code description abbreviation videoGames req_files,
    triple unanswered
      (createPlatformWithNewVideoGames module_scope code description abbreviation videoGames
         req_files)
      (fun _ w => not_created w) (fun _ w => not_created w).
Proof.
  intros code description abbreviation videoGames req_files.
  unfold createPlatformWithNewVideoGames.
  destruct (platformPicture req_files) as [[|p more]|];
    try (apply send_unanswered; discriminate).
  destruct (match files_videoGamesPictures req_files with
            | Some l => negb (Nat.eqb (List.length l) (List.length videoGames))
            | None => true
            end); [apply send_unanswered; discriminate|].
  eapply triple_try_catch with (R := fun _ w => unanswered w).
  - eapply triple_bind; [apply query_unanswered|]. intros ?.
    eapply triple_bind; [apply statement_unanswered|]. intros ?.
    eapply triple_bind with (R := fun _ _ => False).
    + intros c H. exact H.
    + intros file. apply triple_false.
  - intros e.
    eapply triple_bind with (R := fun _ w => unanswered w).
    { eapply triple_consequence
        with (Q' := fun _ w => unanswered w) (E' := fun _ w => unanswered w);
        [apply query_unanswered | auto | auto |].
      intros e' w H. now apply unanswered_not_created. }
    intros ?.
    destruct (match error_code e with
              | Some c => String.eqb c UNIQUE_VIOLATION
              | None => false
              end); [apply send_unanswered; discriminate|].
    destruct (includes (error_message e) "format"); apply send_unanswered; discriminate.
Qed.

(** X23.  As the sources give [createPlatformWithNewVideoGames] (with
    [picture] and [videoGamesPictures] declared nowhere), no request is
    answered 201 and no request adds a row, whatever the input and
    whatever fails. *)
Lemma createPlatformWithNewVideoGames_never_succeeds :
  forall s f dbf ff code description abbreviation videoGames req_files,
    response
      (after (createPlatformWithNewVideoGames module_scope code description abbreviation
                videoGames req_files)
         (initial_world s f dbf ff)) <> Some (SendStatus 201)
    /\ committed
         (after (createPlatformWithNewVideoGames module_scope code description abbreviation
                   videoGames req_files)
            (initial_world s f dbf ff)) = s.
Proof.
  intros s f dbf ff code description abbreviation videoGames req_files.
  pose proof (createPlatformWithNewVideoGames_undeclared code description abbreviation
                videoGames req_files (mkClient (initial_world s f dbf ff) [])) as H1.
  pose proof (createPlatformWithNewVideoGames_concludes s module_scope code description
                abbreviation videoGames req_files (mkClient (initial_world s f dbf ff) []))
    as H2.
  unfold after.
  destruct (createPlatformWithNewVideoGames _ _ _ _ _ _ _) as [[[]|e] c'];
    (assert (Hn : not_created (db c')) by (apply H1; reflexivity));
    (assert (Hc : concluded s (db c'))
       by (apply H2; repeat split; try reflexivity; intros k []));
    (split; [exact Hn|]);
    destruct Hc as [_ [Hc|[_ Hr]]]; [exact Hc | contradiction | exact Hc | contradiction].
Qed.

(** A request that passes both checks on the uploaded files, for a code
    that is free and with no failing statement: the platform row is
    inserted, reading [picture] throws the [ReferenceError], the
    transaction is rolled back and the answer is 500.  No row is added
    and no image is written. *)
Lemma createPlatformWithNewVideoGames_as_given :
  forall s f ff code description abbreviation videoGames p more pictures,
    List.length pictures = List.length videoGames ->
    existsb (has_code code) (platforms s) = false ->
    after (createPlatformWithNewVideoGames module_scope code description abbreviation
             videoGames (mkFiles (Some (p :: more)) (Some pictures)))
      (initial_world s f [] ff)
    = mkWorld s None [] f ff
        [Sql BEGIN true; Sql (CreatePlatform code description abbreviation) true;
         Sql ROLLBACK true; Responded (SendStatus 500)]
        (Some (SendStatus 500)).
Proof.
  intros s f ff code description abbreviation videoGames p more pictures Hlen Hfree.
  unfold has_code in Hfree.
  unfold after, createPlatformWithNewVideoGames. cbn [platformPicture files_videoGamesPictures].
  rewrite Hlen, Nat.eqb_refl. cbn [negb].
  unfold try_catch, bind, client_query, pg, PlatformModel.createPlatform, statement,
    initial_world, send.
  cbn. rewrite Hfree. reflexivity.
Qed.

(** C1.  The request of the example, on which nothing fails: a free
    platform code, two new video games, the platform picture and one
    picture per video game.  The handler inserts the platform row, throws
    a [ReferenceError] on the undeclared [picture], rolls back and
    answers 500: no platform, video game or publication row is added and
    no image is written. *)
Theorem createPlatformWithNewVideoGames_reference_error :
  after (createPlatformWithNewVideoGames module_scope "SWITCH" "Nintendo Switch" "NSW"
           example_video_games example_upload)
    (initial_world example_store example_files [] [])
  = mkWorld example_store None [] example_files []
      [Sql BEGIN true; Sql (CreatePlatform "SWITCH" "Nintendo Switch" "NSW") true;
       Sql ROLLBACK true; Responded (SendStatus 500)]
      (Some (SendStatus 500)).
Proof.
  unfold example_upload. now apply createPlatformWithNewVideoGames_as_given.
Qed.

(* ================================================================= *)
(** * Part IV.  The rest of the model layer *)

(** ** model/videoGame.js, the earlier revision without pagination

    [getVideoGames] numbers its placeholders by the number of conditions
    collected so far, not by the number of values; [getVideoGamesPagination]
    is a lookup of its own. *)
Module VideoGameModel_2_5.

Definition getVideoGames_statement (id : option Value) (name : option string)
  : string * list Value :=
  let queryConditions : list string := [] in
  let queryValues : list Value := [] in
  let '(queryConditions, queryValues) :=
    match id with
    | Some id =>
        (push queryConditions ("id = " ++ placeholder (List.length queryConditions + 1)),
         push queryValues (id))
    | None => (queryConditions, queryValues)
    end in
  let '(queryConditions, queryValues) :=
    match name with
    | Some name =>
        (push queryConditions
           ("LOWER(name) LIKE " ++ placeholder (List.length queryConditions + 1)),
         push queryValues (VStr ("%" ++ toLowerCase name ++ "%")))
    | None => (queryConditions, queryValues)
    end in
  let query := "SELECT * FROM video_game" in
  let query :=
    if Nat.ltb 0 (List.length queryConditions)
    then query ++ " WHERE " ++ join " AND " queryConditions
    else query in
  (query, queryValues).

Section WithClient.
Context {Db : Type} (backend : Backend Db).

Definition getVideoGames id name : M (Client Db) PgResult :=
  let '(query, queryValues) := getVideoGames_statement id name in
  client_query backend query queryValues.

(** [page] and [limit] are numbers that are integers.  JavaScript
    computes the offset in doubles; that is the integer computed here as
    long as both and the product are safe integers
    ([Number.isSafeInteger]), and what is stated of this lookup is for
    that range. *)
Definition getVideoGamesPagination (page limit : Z) : M (Client Db) PgResult :=
  let offset := ((page - 1) * limit)%Z in
  client_query backend "SELECT * FROM video_game LIMIT $1 OFFSET $2"
    [VNum limit; VNum offset].
End WithClient.
End VideoGameModel_2_5.

(** ** Counting statements

    [SELECT count( * ) AS no FROM t WHERE c AND ...]: the server answers
    one row whose column [no] is the number of rows of [t] that satisfy
    every condition.  [pg] hands a [bigint] over as a decimal string. *)
Record CountStmt : Type :=
  { cnt_table : string;
    cnt_where : list Condition }.

Definition parse_count (text : string) : option CountStmt :=
  match tokens text with
  | sel :: cnt :: kw_as :: col :: from :: table :: ts =>
      if String.eqb sel "SELECT" && String.eqb cnt "count(*)" && String.eqb kw_as "AS"
         && String.eqb col "no" && String.eqb from "FROM"
      then
        match parse_where ts with
        | Some (conds, []) => Some {| cnt_table := table; cnt_where := conds |}
        | _ => None
        end
      else None
  | _ => None
  end.

Definition run_count (q : CountStmt) (params : list Value) (table : list Row) : PgResult :=
  let matching := filter (fun r => forallb (holds params r) (cnt_where q)) table in
  mkResult [[("no", VStr (decimal (List.length matching)))]] 1.

(** The backend restricted to counting statements. *)
Definition count_backend : Backend Database :=
  fun text params d =>
    match parse_count text with
    | Some q => (inl (run_count q params (d (cnt_table q))), d)
    | None => (inr (DatabaseError "42601" "syntax error" ""), d)
    end.

(** The table of users, under the name the statements give it. *)
Definition user_table : string := dq ++ "user" ++ dq.

(** A row whose column [col] holds [v]. *)
Definition has_value (col : string) (v : Value) (r : Row) : bool :=
  match field r col with
  | Some x => Value_eqb x v
  | None => false
  end.

(** What a function answers from a database, started on a fresh client. *)
Definition answer {A : Type} (m : M (Client Database) A) (d : Database) : A + JsError :=
  fst (m (mkClient d [])).

(** How many of the optional arguments are given. *)
Definition given (args : list (option Value)) : nat :=
  List.length (filter (fun a => negb (UserModel.is_null a)) args).

(** The values of the arguments that are given, in order. *)
Definition values_given (args : list (option Value)) : list Value :=
  flat_map (fun a => match a with Some v => [v] | None => [] end) args.

(* ================================================================= *)
(** * Theorems on the rest of the model layer *)

Definition genre_fields (u : GenreModel.UpdateValues) : list (string * option Value) :=
  [("name", GenreModel.name u); ("description", GenreModel.description u)].

(** X2.  [updateGenre] with at least one provided field sends exactly one
    statement; its text parses to one assignment per provided field,
    numbered from [$1] in step with the parameter array, followed by the
    key predicate [id = $n]; every assignment addresses the value of its
    own field and the key predicate addresses the identifier. *)
Theorem updateGenre_in_lock_step :
  forall (Db : Type) (backend : Backend Db) (c : Client Db) (id : Value)
         (u : GenreModel.UpdateValues),
    provided (genre_fields u) <> [] ->
    exists text stmt,
      GenreModel.updateGenre backend id u c
      = client_query backend text (expected_params (provided (genre_fields u)) id) c
      /\ parse_update text = Some stmt
      /\ upd_table stmt = "genre"
      /\ fst (upd_where stmt) = "id"
      /\ param (expected_params (provided (genre_fields u)) id) (snd (upd_where stmt))
         = Some id
      /\ List.length (expected_params (provided (genre_fields u)) id)
         = S (List.length (upd_set stmt))
      /\ map fst (upd_set stmt) = map fst (provided (genre_fields u))
      /\ (forall i col v,
             nth_error (provided (genre_fields u)) i = Some (col, v) ->
             exists n,
               nth_error (upd_set stmt) i = Some (col, n)
               /\ param (expected_params (provided (genre_fields u)) id) n = Some v).
Proof.
  intros Db backend c id u Hprov.
  destruct (expected_update_addresses "genre" "id" (provided (genre_fields u)) id)
    as (Haddr & Hkey & Hlen).
  assert (Hrun : exists text,
             GenreModel.updateGenre backend id u c
             = client_query backend text (expected_params (provided (genre_fields u)) id) c
             /\ parse_update text
                = Some (expected_update "genre" "id" (provided (genre_fields u)))).
  { destruct u as [[n|] [d|]]; cbn in Hprov; try congruence; eexists; split; reflexivity. }
  destruct Hrun as (text & Hsent & Hparse).
  exists text, (expected_update "genre" "id" (provided (genre_fields u))).
  repeat (split; [first [assumption | reflexivity]|]).
  split; [|assumption].
  destruct u as [[n|] [d|]]; reflexivity.
Qed.

Lemma updateGenre_in_lock_step_witness :
  provided (genre_fields {| GenreModel.name := None;
                            GenreModel.description := Some (VStr "Role playing") |}) <> []
  /\ exists text stmt,
      GenreModel.updateGenre (constant_backend 1) (VNum 4)
        {| GenreModel.name := None; GenreModel.description := Some (VStr "Role playing") |}
        (mkClient tt [])
      = client_query (constant_backend 1) text
          (expected_params
             (provided (genre_fields
                {| GenreModel.name := None;
                   GenreModel.description := Some (VStr "Role playing") |})) (VNum 4))
          (mkClient tt [])
      /\ parse_update text = Some stmt
      /\ upd_table stmt = "genre".
Proof.
  split; [discriminate|].
  destruct (updateGenre_in_lock_step unit (constant_backend 1) (mkClient tt []) (VNum 4)
              {| GenreModel.name := None; GenreModel.description := Some (VStr "Role playing") |}
              ltac:(discriminate))
    as (text & stmt & H1 & H2 & H3 & _).
  exists text, stmt. auto.
Defined.

(** ** The existence check *)

Lemma count_is_positive : forall n,
  UserModel.gt_zero (Some (VStr (decimal n))) = Nat.ltb 0 n.
Proof.
  intros n. unfold UserModel.gt_zero, decimal.
  now rewrite NilEmpty.usu, DecimalNat.Unsigned.of_to.
Qed.

Lemma filter_nonempty_existsb : forall (A : Type) (p : A -> bool) l,
  Nat.ltb 0 (List.length (filter p l)) = existsb p l.
Proof.
  intros A p l. induction l as [|x l IH]; [reflexivity|].
  cbn [filter existsb]. destruct (p x); [reflexivity|exact IH].
Qed.

Lemma count_one_condition : forall text table col (d : Database) (v : Value),
  parse_count text = Some {| cnt_table := table; cnt_where := [CondEq col 1] |} ->
  (r <- client_query count_backend text [v] ;; UserModel.first_row_no r) (mkClient d [])
  = (inl (existsb (has_value col v) (d table)), mkClient d [(text, [v])]).
Proof.
  intros text table col d v H.
  unfold bind, client_query, count_backend. rewrite H.
  cbn -[decimal UserModel.gt_zero].
  rewrite (filter_ext _ (has_value col v)).
  - now rewrite count_is_positive, filter_nonempty_existsb.
  - intros r. unfold has_value.
    destruct (field r col); [now rewrite andb_true_r | reflexivity].
Qed.

(** X3.  [clientExists] with exactly one of [id], [username], [email]
    sends one counting statement with that one condition and one
    parameter, and answers [true] exactly when some row of the user table
    holds the value in that column. *)
Theorem clientExists_single_filter :
  forall (d : Database) (v : Value),
    UserModel.clientExists count_backend (Some v) None None (mkClient d [])
    = (inl (existsb (has_value "id" v) (d user_table)),
       mkClient d [("SELECT count(*) AS no FROM " ++ user_table ++ " WHERE id = $1", [v])])
    /\ UserModel.clientExists count_backend None (Some v) None (mkClient d [])
       = (inl (existsb (has_value "username" v) (d user_table)),
          mkClient d
            [("SELECT count(*) AS no FROM " ++ user_table ++ " WHERE username = $1", [v])])
    /\ UserModel.clientExists count_backend None None (Some v) (mkClient d [])
       = (inl (existsb (has_value "email" v) (d user_table)),
          mkClient d
            [("SELECT count(*) AS no FROM " ++ user_table ++ " WHERE email = $1", [v])]).
Proof.
  intros d v.
  repeat split; refine (count_one_condition _ user_table _ d v _); reflexivity.
Qed.

(** X4.  [clientExists] with two or three of its filters joins the
    conditions with a comma, the separator of the update builders, where
    a [WHERE] clause needs [AND]: the text holds a comma and no [AND], it
    is not a counting statement, and a server that parses its statements
    rejects it whatever the user table holds. *)
Theorem clientExists_filters_joined_by_commas :
  forall (Db : Type) (backend : Backend Db) (c : Client Db) (id username email : option Value),
    2 <= given [id; username; email] ->
    exists text,
      UserModel.clientExists backend id username email c
      = (r <- client_query backend text (values_given [id; username; email]) ;;
         UserModel.first_row_no r) c
      /\ In "," (tokens text)
      /\ ~ In "AND" (tokens text)
      /\ parse_count text = None
      /\ (forall d,
            answer (UserModel.clientExists count_backend id username email) d
            = inr (DatabaseError "42601" "syntax error" "")).
Proof.
  intros Db backend c [id|] [username|] [email|] H; cbn in H; try lia;
    eexists; (split; [reflexivity|]);
    (split; [vm_compute; tauto|]);
    (split; [vm_compute; intuition discriminate|]);
    (split; [reflexivity|]); intros d; reflexivity.
Qed.

Lemma clientExists_filters_joined_by_commas_witness :
  2 <= given [Some (VNum 7); Some (VStr "bob"); None]
  /\ exists text,
       UserModel.clientExists (constant_backend 0) (Some (VNum 7)) (Some (VStr "bob")) None
         (mkClient tt [])
       = (r <- client_query (constant_backend 0) text
                 (values_given [Some (VNum 7); Some (VStr "bob"); None]) ;;
          UserModel.first_row_no r) (mkClient tt [])
       /\ In "," (tokens text).
Proof.
  assert (H : 2 <= given [Some (VNum 7); Some (VStr "bob"); None]) by (cbn; lia).
  split; [exact H|].
  destruct (clientExists_filters_joined_by_commas unit (constant_backend 0) (mkClient tt [])
              (Some (VNum 7)) (Some (VStr "bob")) None H) as (text & H1 & H2 & _).
  exists text. auto.
Defined.

(** ** The earlier revision of the video game lookups *)

(** X5.  The earlier revision of [getVideoGames], which numbers its
    placeholders by the conditions collected so far, builds the very
    statement and parameters of the later one called without [page] and
    [limit]; so it returns every matching video game, unpaginated. *)
Theorem getVideoGames_revisions_agree :
  forall (id : option Value) (name : option string),
    VideoGameModel_2_5.getVideoGames_statement id name
    = VideoGameModel.getVideoGames_statement id name None None
    /\ (forall (Db : Type) (backend : Backend Db),
          VideoGameModel_2_5.getVideoGames backend id name
          = VideoGameModel.getVideoGames backend id name None None)
    /\ (forall d,
          lookup (VideoGameModel_2_5.getVideoGames select_backend id name) d
          = Some (matching_video_games id name d)).
Proof.
  intros id name.
  assert (H : VideoGameModel_2_5.getVideoGames_statement id name
              = VideoGameModel.getVideoGames_statement id name None None).
  { destruct id, name; reflexivity. }
  split; [exact H|]. split.
  - intros Db backend.
    unfold VideoGameModel_2_5.getVideoGames, VideoGameModel.getVideoGames. now rewrite H.
  - intros d.
    unfold VideoGameModel_2_5.getVideoGames. rewrite H.
    apply (getVideoGames_unpaginated d id name None None). now left.
Qed.

Lemma getVideoGamesPagination_page : forall d page limit,
  (1 <= page)%Z -> (0 <= limit)%Z ->
  lookup (VideoGameModel_2_5.getVideoGamesPagination select_backend page limit) d
  = Some (page_of page limit (d "video_game")).
Proof.
  intros d page limit Hp Hl.
  assert (Ho : (0 <= (page - 1) * limit)%Z) by nia.
  unfold lookup, VideoGameModel_2_5.getVideoGamesPagination.
  cbv [client_query select_backend db fst]; eval_parse;
  cbv [run_select sel_table sel_where sel_order_by sel_limit sel_offset bound param nth_error].
  destruct (Z.ltb_spec limit 0); try lia.
  destruct (Z.ltb_spec ((page - 1) * limit) 0); try lia.
  cbv [rows]. unfold page_of. do 3 f_equal. now apply filter_all.
Qed.

Lemma getVideoGamesPagination_before_first : forall d page limit,
  (page < 1)%Z -> (0 < limit)%Z ->
  lookup (VideoGameModel_2_5.getVideoGamesPagination select_backend page limit) d = None.
Proof.
  intros d page limit Hp Hl.
  assert (Ho : ((page - 1) * limit < 0)%Z) by nia.
  unfold lookup, VideoGameModel_2_5.getVideoGamesPagination.
  cbv [client_query select_backend db fst]; eval_parse;
  cbv [run_select sel_table sel_where sel_order_by sel_limit sel_offset bound param nth_error].
  destruct (Z.ltb_spec limit 0); try lia.
  destruct (Z.ltb_spec ((page - 1) * limit) 0); try lia.
  reflexivity.
Qed.

(** [Number.isSafeInteger]: the integers on which the arithmetic of
    doubles is the arithmetic of integers. *)
Definition safe_integer (z : Z) : bool := (Z.abs z <=? 2 ^ 53 - 1)%Z.

(** X6.  For a page and a limit that are safe integers with a safe
    product, [getVideoGamesPagination] sends one statement, without any
    ordering, with the parameters [limit] and [(page - 1) * limit].  For
    a page from 1 on it returns [limit] rows from offset
    [(page - 1) * limit] of the table in the order in which the server
    scans it for that call; a page before the first one makes the offset
    negative, which the server refuses. *)
Theorem getVideoGamesPagination_page_window :
  forall (d : Database) (page limit : Z),
    safe_integer page = true ->
    safe_integer limit = true ->
    safe_integer ((page - 1) * limit) = true ->
    (0 <= limit)%Z ->
    sent (snd (VideoGameModel_2_5.getVideoGamesPagination select_backend page limit
                 (mkClient d [])))
    = [("SELECT * FROM video_game LIMIT $1 OFFSET $2",
        [VNum limit; VNum ((page - 1) * limit)])]
    /\ ~ In "ORDER" (tokens "SELECT * FROM video_game LIMIT $1 OFFSET $2")
    /\ ((1 <= page)%Z ->
        lookup (VideoGameModel_2_5.getVideoGamesPagination select_backend page limit) d
        = Some (firstn (Z.to_nat limit)
                  (skipn (Z.to_nat ((page - 1) * limit)) (d "video_game"))))
    /\ ((page < 1)%Z -> (0 < limit)%Z ->
        lookup (VideoGameModel_2_5.getVideoGamesPagination select_backend page limit) d
        = None).
Proof.
  intros d page limit _ _ _ Hl. split; [|split; [|split]].
  - unfold VideoGameModel_2_5.getVideoGamesPagination, client_query.
    destruct (select_backend _ _ _) as [[r|e] d']; reflexivity.
  - cbv. intros H. repeat (destruct H as [H|H]; [discriminate|]). exact H.
  - intros Hp. now rewrite getVideoGamesPagination_page.
  - intros Hp Hpos. now apply getVideoGamesPagination_before_first.
Qed.

Lemma getVideoGamesPagination_page_window_witness :
  safe_integer 3 = true
  /\ safe_integer 10 = true
  /\ safe_integer ((3 - 1) * 10) = true
  /\ (0 <= 10)%Z
  /\ lookup (VideoGameModel_2_5.getVideoGamesPagination select_backend 3 10) catalog25
     = Some (map video_game_row (ids 21 5)).
Proof.
  assert (H1 : safe_integer 3 = true) by reflexivity.
  assert (H2 : safe_integer 10 = true) by reflexivity.
  assert (H3 : safe_integer ((3 - 1) * 10) = true) by reflexivity.
  assert (H4 : (0 <= 10)%Z) by lia.
  repeat (split; [assumption|]).
  rewrite (proj1 (proj2 (proj2
    (getVideoGamesPagination_page_window catalog25 3 10 H1 H2 H3 H4))) ltac:(lia)).
  reflexivity.
Defined.

(** ** The genre lookup *)

(** The rows of [genre] that pass the optional filter on [id]. *)
Definition matching_genres (id : option Value) (d : Database) : list Row :=
  filter
    (fun r =>
       match id with
       | Some id => has_value "id" id r
       | None => true
       end)
    (d "genre").

(** The page of a list when [page] and [limit] are both given, the whole
    list otherwise. *)
Definition paged (page limit : option Z) (l : list Row) : list Row :=
  match page, limit with
  | Some p, Some n => page_of p n l
  | _, _ => l
  end.

Ltac eval_genres :=
  lazymatch goal with
  | |- context [GenreModel.getGenres_statement ?a ?b ?c ?e] =>
      let t := eval lazy in (fst (GenreModel.getGenres_statement a b c e)) in
      let v := eval cbv [snd GenreModel.getGenres_statement push app List.length]
               in (snd (GenreModel.getGenres_statement a b c e)) in
      change (GenreModel.getGenres_statement a b c e) with (t, v)
  end.

Ltac run_genres :=
  eval_genres;
  cbv [client_query select_backend db fst]; eval_parse;
  cbv [run_select sel_table sel_where sel_order_by sel_limit sel_offset bound param nth_error].

(** X7.  [getGenres] without the [id] filter, or without [alphabetical],
    returns the genres that pass the filter, ordered by name when
    [alphabetical] is set, and cut to the 1-based page at offset
    [(page - 1) * limit] when [page] and [limit] are both given; a [page]
    without [limit], or a [limit] without [page], changes nothing. *)
Theorem getGenres_lookup :
  forall (d : Database) (id : option Value) (alphabetical : bool) (page limit : option Z),
    id = None \/ alphabetical = false ->
    (forall p n, page = Some p -> limit = Some n -> (1 <= p)%Z /\ (0 <= n)%Z) ->
    lookup (GenreModel.getGenres select_backend id alphabetical page limit) d
    = Some (paged page limit
              (if alphabetical then order_by "name" (matching_genres id d)
               else matching_genres id d)).
Proof.
  intros d id alphabetical page limit Hshape Hpage.
  unfold lookup, GenreModel.getGenres.
  destruct id as [id|], alphabetical; try (destruct Hshape; discriminate);
    destruct page as [p|], limit as [n|];
    try (destruct (Hpage p n eq_refl eq_refl) as [Hp Hn];
         assert (Ho : (0 <= (p - 1) * n)%Z) by nia);
    run_genres;
    try (destruct (Z.ltb_spec n 0); try lia;
         destruct (Z.ltb_spec ((p - 1) * n) 0); try lia);
    cbv [rows paged page_of]; unfold matching_genres;
    lazymatch goal with
    | |- ?lhs = ?rhs =>
        lazymatch lhs with
        | context [filter ?f _] =>
            lazymatch rhs with
            | context [filter ?g _] =>
                rewrite (filter_ext f g)
                  by (intros r; unfold has_value; cbn [forallb holds param nth_error];
                      destruct (field r "id"); rewrite ?andb_true_r; reflexivity)
            end
        end
    end; reflexivity.
Qed.

Lemma getGenres_lookup_witness :
  (@None Value = None \/ true = false)
  /\ (forall p n, Some 2%Z = Some p -> Some 10%Z = Some n -> (1 <= p)%Z /\ (0 <= n)%Z)
  /\ lookup (GenreModel.getGenres select_backend None true (Some 2%Z) (Some 10%Z))
       (fun _ => [])
     = Some [].
Proof.
  assert (H1 : @None Value = None \/ true = false) by (now left).
  assert (H2 : forall p n, Some 2%Z = Some p -> Some 10%Z = Some n -> (1 <= p)%Z /\ (0 <= n)%Z).
  { intros p n Hp Hn. inversion Hp. inversion Hn. lia. }
  split; [exact H1|]. split; [exact H2|].
  rewrite (getGenres_lookup (fun _ => []) None true (Some 2%Z) (Some 10%Z) H1 H2).
  reflexivity.
Defined.

(** X8.  [getGenres] with both the [id] filter and [alphabetical] appends
    [ORDER BY] right after the placeholder of the filter, without a blank:
    the text holds the run [$1ORDER] where a placeholder [$1] and a
    keyword [ORDER] are meant, whatever [page] and [limit] are. *)
Theorem getGenres_filter_runs_into_order :
  forall (id : Value) (page limit : option Z),
    In "$1ORDER" (tokens (fst (GenreModel.getGenres_statement (Some id) true page limit)))
    /\ ~ In "$1" (tokens (fst (GenreModel.getGenres_statement (Some id) true page limit)))
    /\ ~ In "ORDER" (tokens (fst (GenreModel.getGenres_statement (Some id) true page limit)))
    /\ fst (GenreModel.getGenres_statement (Some id) true None None)
       = "SELECT * FROM genre  WHERE id = $1ORDER BY name ASC"
    /\ parse_select (fst (GenreModel.getGenres_statement (Some id) true page limit)) = None.
Proof.
  intros id [p|] [n|];
    (split; [vm_compute; tauto|]);
    (split; [vm_compute; intuition discriminate|]);
    (split; [vm_compute; intuition discriminate|]);
    split; reflexivity.
Qed.

(** ** Searching video games by name *)

(** A character [LIKE] reads as itself: not [%], not [_] and not the
    escape character. *)
Definition is_literal (c : ascii) : bool :=
  negb (Ascii.eqb c "%" || Ascii.eqb c "_" || Ascii.eqb c "\").

Fixpoint literal (s : string) : bool :=
  match s with
  | EmptyString => true
  | String c s' => is_literal c && literal s'
  end.

Lemma lower_ascii_literal : forall c, is_literal c = true -> is_literal (lower_ascii c) = true.
Proof.
  intros [[] [] [] [] [] [] [] []] H; try exact H; reflexivity.
Qed.

Lemma toLowerCase_literal : forall s, literal s = true -> literal (toLowerCase s) = true.
Proof.
  induction s as [|c s IH]; [reflexivity|]. cbn [literal toLowerCase]. intros H.
  apply andb_true_iff in H as [Hc Hs]. now rewrite lower_ascii_literal, IH.
Qed.

Lemma like_percent_step : forall q s,
  like (String "%" q) s
  = like q s || match s with
                | EmptyString => false
                | String _ s' => like (String "%" q) s'
                end.
Proof. intros q s. destruct s; reflexivity. Qed.

Lemma like_percent_all : forall s, like "%" s = true.
Proof.
  induction s as [|c s IH]; [reflexivity|].
  rewrite like_percent_step, IH. apply orb_true_r.
Qed.

Lemma like_literal_prefix : forall p s,
  literal p = true -> like (p ++ "%") s = prefix p s.
Proof.
  induction p as [|a p IH]; intros s H.
  - cbn [append]. rewrite like_percent_all. now destruct s.
  - cbn [literal] in H. apply andb_true_iff in H as [Ha Hp].
    unfold is_literal in Ha. apply negb_true_iff in Ha.
    apply orb_false_iff in Ha as [Ha _]. apply orb_false_iff in Ha as [Hpc Hus].
    cbn [append like]. rewrite Hpc.
    destruct s as [|c s]; [reflexivity|].
    rewrite Hus. cbn [orb prefix]. rewrite IH by assumption.
    destruct (ascii_dec a c) as [Heq|Hne].
    + subst. now rewrite Ascii.eqb_refl.
    + apply Ascii.eqb_neq in Hne. now rewrite Hne.
Qed.

Lemma like_substring : forall p s,
  literal p = true -> like ("%" ++ p ++ "%") s = includes s p.
Proof.
  intros p s H. change ("%" ++ p ++ "%") with (String "%" (p ++ "%")).
  induction s as [|c s IH]; rewrite like_percent_step, like_literal_prefix by assumption.
  - reflexivity.
  - rewrite IH. reflexivity.
Qed.

(** The rows of [video_game] whose name contains [name], letter case
    aside, and that pass the optional filter on [id]. *)
Definition video_games_named (id : option Value) (name : string) (d : Database) : list Row :=
  filter
    (fun r =>
       match id with
       | Some id => has_value "id" id r
       | None => true
       end
       && match field r "name" with
          | Some (VStr s) => includes (toLowerCase s) (toLowerCase name)
          | _ => false
          end)
    (d "video_game").

Lemma matching_video_games_named : forall id name d,
  literal name = true ->
  matching_video_games id (Some name) d = video_games_named id name d.
Proof.
  intros id name d H. unfold matching_video_games, video_games_named.
  apply filter_ext. intros r. f_equal.
  destruct (field r "name") as [[| s | |]|]; try reflexivity.
  apply like_substring. now apply toLowerCase_literal.
Qed.

(** Text all of whose bytes are ASCII. *)
Fixpoint ascii_text (s : string) : bool :=
  match s with
  | EmptyString => true
  | String c s' => Nat.ltb (nat_of_ascii c) 128 && ascii_text s'
  end.

(** A row whose name, when it is a string, is ASCII text. *)
Definition ascii_named (r : Row) : bool :=
  match field r "name" with
  | Some (VStr s) => ascii_text s
  | _ => true
  end.

(** X9.  For a [name] of ASCII text without [%], [_] and backslash, over
    video games whose names are ASCII text, [getVideoGames] searches by
    substring, letter case aside: it returns the video games whose name
    contains [name] once both are put to lower case, together with the
    optional filter on [id], in both revisions of the lookup; with a page
    and a limit (safe integers with a safe product) it returns that page
    of them. *)
Theorem getVideoGames_searches_substring :
  forall (d : Database) (id : option Value) (name : string),
    literal name = true ->
    ascii_text name = true ->
    forallb ascii_named (d "video_game") = true ->
    lookup (VideoGameModel.getVideoGames select_backend id (Some name) None None) d
    = Some (video_games_named id name d)
    /\ lookup (VideoGameModel_2_5.getVideoGames select_backend id (Some name)) d
       = Some (video_games_named id name d)
    /\ (forall page limit,
          safe_integer page = true -> safe_integer limit = true ->
          safe_integer ((page - 1) * limit) = true ->
          (1 <= page)%Z -> (0 <= limit)%Z ->
          lookup (VideoGameModel.getVideoGames select_backend id (Some name)
                    (Some page) (Some limit)) d
          = Some (page_of page limit (video_games_named id name d))).
Proof.
  intros d id name H _ _.
  rewrite <- (matching_video_games_named id name d H).
  split; [|split].
  - apply getVideoGames_unpaginated. now left.
  - unfold VideoGameModel_2_5.getVideoGames.
    assert (Hs : VideoGameModel_2_5.getVideoGames_statement id (Some name)
                 = VideoGameModel.getVideoGames_statement id (Some name) None None)
      by (destruct id; reflexivity).
    rewrite Hs.
    apply (getVideoGames_unpaginated d id (Some name) None None). now left.
  - intros page limit _ _ _ Hp Hl. now apply getVideoGames_page.
Qed.

Lemma getVideoGames_searches_substring_witness :
  literal "GAME 2" = true
  /\ ascii_text "GAME 2" = true
  /\ forallb ascii_named (catalog25 "video_game") = true
  /\ lookup (VideoGameModel.getVideoGames select_backend None (Some "GAME 2") None None)
       catalog25
     = Some (map video_game_row (2 :: ids 20 6)%Z).
Proof.
  assert (H : literal "GAME 2" = true) by reflexivity.
  assert (Ha : ascii_text "GAME 2" = true) by reflexivity.
  assert (Hd : forallb ascii_named (catalog25 "video_game") = true) by reflexivity.
  repeat (split; [assumption|]).
  rewrite (proj1 (getVideoGames_searches_substring catalog25 None "GAME 2" H Ha Hd)).
  reflexivity.
Defined.

Lemma like_underscore : forall s,
  like "%_%" s = negb (String.eqb s "").
Proof.
  induction s as [|c s IH]; [reflexivity|].
  rewrite like_percent_step, IH. cbn [like]. cbn [Ascii.eqb Bool.eqb andb orb].
  now rewrite like_percent_all.
Qed.

Lemma like_percents : forall s, like "%%" s = true.
Proof.
  intros s. rewrite like_percent_step, like_percent_all. reflexivity.
Qed.

Definition has_name (r : Row) : bool :=
  match field r "name" with
  | Some (VStr _) => true
  | _ => false
  end.

Definition has_nonempty_name (r : Row) : bool :=
  match field r "name" with
  | Some (VStr s) => negb (String.eqb s "")
  | _ => false
  end.

Lemma toLowerCase_empty : forall s, String.eqb (toLowerCase s) "" = String.eqb s "".
Proof. intros [|c s]; reflexivity. Qed.

(** X10.  The [name] of a video game search goes into the [LIKE] pattern
    as it is, so its wildcards stay wildcards: the empty name and the
    name [%] return every video game that has a name, and the name [_]
    returns every video game whose name is not empty, whether or not it
    contains an underscore. *)
Theorem getVideoGames_name_wildcards :
  forall (d : Database),
    lookup (VideoGameModel.getVideoGames select_backend None (Some "") None None) d
    = Some (filter has_name (d "video_game"))
    /\ lookup (VideoGameModel.getVideoGames select_backend None (Some "%") None None) d
       = Some (filter has_name (d "video_game"))
    /\ lookup (VideoGameModel.getVideoGames select_backend None (Some "_") None None) d
       = Some (filter has_nonempty_name (d "video_game")).
Proof.
  intros d.
  rewrite !getVideoGames_unpaginated by (now left).
  unfold matching_video_games.
  repeat split; f_equal; apply filter_ext; intros r;
    unfold has_name, has_nonempty_name; cbn [andb toLowerCase append lower_ascii];
    destruct (field r "name") as [[| s | |]|]; try reflexivity.
  - apply like_percents.
  - change (like "%%%" (toLowerCase s) = true).
    rewrite like_percent_step, like_percents. reflexivity.
  - change (like "%_%" (toLowerCase s) = negb (String.eqb s "")).
    now rewrite like_underscore, toLowerCase_empty.
Qed.

(* ================================================================= *)
(** * Part V.  What a request leaves behind, whatever fails *)

(** ** The state of a request

    [at_state s t f r]: the committed rows are [s], the open transaction
    works on [t] (none if [t] is [None]), the artifacts are [f] and the
    response is [r].  [kept s f r] says the same without the transaction. *)
Definition at_state (s : Store) (t : option Store) (f : list (ArtifactKey * Image))
    (r : option Response) (w : World) : Prop :=
  committed w = s /\ tx w = t /\ files w = f /\ response w = r.

Definition kept (s : Store) (f : list (ArtifactKey * Image)) (r : option Response)
    (w : World) : Prop :=
  committed w = s /\ files w = f /\ response w = r.

Lemma at_state_kept : forall s t f r w, at_state s t f r w -> kept s f r w.
Proof. intros s t f r w (H1 & _ & H2 & H3). repeat split; assumption. Qed.

Lemma at_state_initial : forall s f dbf ff,
  at_state s None f None (initial_world s f dbf ff).
Proof. intros. repeat split. Qed.

(** A data statement inside the transaction works on the copy of the
    transaction; when it fails the copy is as before. *)
Lemma run_in_transaction : forall st w t r w',
  is_control st = false -> tx w = Some t -> run st w = (r, w') ->
  committed w' = committed w /\ files w' = files w /\ response w' = response w
  /\ match r with
     | inl a => fst (apply st t) = inl a /\ tx w' = Some (snd (apply st t))
     | inr _ => tx w' = Some t
     end.
Proof.
  intros st w t r w' Hst Htx H. unfold run in H. rewrite Htx in H.
  destruct (db_faults w) as [|[e|] rest]; cbn [next_fault] in H;
    try (destruct st; try discriminate; inversion H; subst; cbn; auto; fail);
    destruct st; try discriminate;
    match type of H with
    | (let '(_, _) := apply ?st ?s in _) = _ =>
        destruct (apply st s) as [[r0|e0] s0] eqn:Ha; inversion H; subst; cbn;
        try (apply apply_failure_keeps in Ha; subst); auto
    end.
Qed.

(** Outside a transaction a data statement commits at once. *)
Lemma run_autocommit : forall st w r w',
  is_control st = false -> tx w = None -> run st w = (r, w') ->
  tx w' = None /\ files w' = files w /\ response w' = response w
  /\ match r with
     | inl a => fst (apply st (committed w)) = inl a
                /\ committed w' = snd (apply st (committed w))
     | inr _ => committed w' = committed w
     end.
Proof.
  intros st w r w' Hst Htx H. unfold run in H. rewrite Htx in H.
  destruct (db_faults w) as [|[e|] rest]; cbn [next_fault] in H;
    try (destruct st; try discriminate; inversion H; subst; cbn; auto; fail);
    destruct st; try discriminate;
    match type of H with
    | (let '(_, _) := apply ?st ?s in _) = _ =>
        destruct (apply st s) as [[r0|e0] s0] eqn:Ha; inversion H; subst; cbn;
        try (apply apply_failure_keeps in Ha; subst); auto
    end.
Qed.

Lemma run_control : forall st w r w',
  is_control st = true -> run st w = (r, w') ->
  files w' = files w /\ response w' = response w
  /\ match r with
     | inl _ =>
         match st with
         | BEGIN => committed w' = committed w /\ tx w' = Some (working w)
         | COMMIT => committed w' = working w /\ tx w' = None
         | _ => committed w' = committed w /\ tx w' = None
         end
     | inr _ => committed w' = committed w /\ tx w' = tx w
     end.
Proof.
  intros st w r w' Hst H. unfold run in H.
  destruct (db_faults w) as [|[e|] rest]; cbn [next_fault] in H;
    destruct st; try discriminate; inversion H; subst; cbn; unfold working;
    destruct (tx w); auto.
Qed.

Lemma triple_post : forall (A : Type) (P : World -> Prop) (m : M (Client World) A)
    (Q Q' : A -> World -> Prop) (E : JsError -> World -> Prop),
  triple P m Q' E -> (forall a w, Q' a w -> Q a w) -> triple P m Q E.
Proof. intros A P m Q Q' E Hm HQ. eapply triple_consequence; eauto. Qed.

Lemma triple_error : forall (A : Type) (P : World -> Prop) (m : M (Client World) A)
    (Q : A -> World -> Prop) (E E' : JsError -> World -> Prop),
  triple P m Q E' -> (forall e w, E' e w -> E e w) -> triple P m Q E.
Proof. intros A P m Q E E' Hm HE. eapply triple_consequence; eauto. Qed.

Lemma triple_bind_ret : forall (A B : Type) (P : World -> Prop) (a : A)
    (k : A -> M (Client World) B) Q E,
  triple P (k a) Q E -> triple P (bind (ret a) k) Q E.
Proof. intros A B P a k Q E H c HP. exact (H c HP). Qed.

Section Requests.
Variables (s : Store) (f : list (ArtifactKey * Image)) (r : option Response).

Lemma statement_in_tx : forall st t,
  is_control st = false ->
  triple (at_state s (Some t) f r) (statement st)
    (fun a w => fst (apply st t) = inl a /\ at_state s (Some (snd (apply st t))) f r w)
    (fun _ w => kept s f r w).
Proof.
  intros st t Hst. apply triple_statement. intros w a w' (Hc & Htx & Hf & Hr) Hrun.
  destruct (run_in_transaction st w t a w' Hst Htx Hrun) as (Hc' & Hf' & Hr' & Hres).
  destruct a as [a|e].
  - destruct Hres as [Ha Htx']. split; [exact Ha|]. repeat split; congruence.
  - repeat split; congruence.
Qed.

Lemma query_in_tx : forall text params st t,
  decode text params = Some st -> is_control st = false ->
  triple (at_state s (Some t) f r) (client_query pg text params)
    (fun a w => fst (apply st t) = inl a /\ at_state s (Some (snd (apply st t))) f r w)
    (fun _ w => kept s f r w).
Proof.
  intros text params st t Hd Hst. eapply triple_query; [exact Hd|].
  intros w a w' (Hc & Htx & Hf & Hr) Hrun.
  destruct (run_in_transaction st w t a w' Hst Htx Hrun) as (Hc' & Hf' & Hr' & Hres).
  destruct a as [a|e].
  - destruct Hres as [Ha Htx']. split; [exact Ha|]. repeat split; congruence.
  - repeat split; congruence.
Qed.

Lemma query_autocommit : forall text params st,
  decode text params = Some st -> is_control st = false ->
  triple (at_state s None f r) (client_query pg text params)
    (fun a w => fst (apply st s) = inl a /\ at_state (snd (apply st s)) None f r w)
    (fun _ w => at_state s None f r w).
Proof.
  intros text params st Hd Hst. eapply triple_query; [exact Hd|].
  intros w a w' (Hc & Htx & Hf & Hr) Hrun.
  destruct (run_autocommit st w a w' Hst Htx Hrun) as (Htx' & Hf' & Hr' & Hres).
  rewrite Hc in Hres.
  destruct a as [a|e].
  - destruct Hres as [Ha Hc']. split; [exact Ha|]. repeat split; congruence.
  - repeat split; congruence.
Qed.

Lemma begin_at :
  triple (at_state s None f r) (client_query pg "BEGIN" [])
    (fun _ w => at_state s (Some s) f r w) (fun _ w => kept s f r w).
Proof.
  eapply triple_query; [reflexivity|]. intros w a w' (Hc & Htx & Hf & Hr) Hrun.
  destruct (run_control BEGIN w a w' eq_refl Hrun) as (Hf' & Hr' & Hres).
  unfold working in Hres. rewrite Htx, Hc in Hres.
  destruct a as [a|e]; destruct Hres as [Hc' Htx']; repeat split; congruence.
Qed.

Lemma commit_at : forall t,
  triple (at_state s (Some t) f r) (client_query pg "COMMIT" [])
    (fun _ w => at_state t None f r w) (fun _ w => kept s f r w).
Proof.
  intros t. eapply triple_query; [reflexivity|]. intros w a w' (Hc & Htx & Hf & Hr) Hrun.
  destruct (run_control COMMIT w a w' eq_refl Hrun) as (Hf' & Hr' & Hres).
  unfold working in Hres. rewrite Htx in Hres.
  destruct a as [a|e]; destruct Hres as [Hc' Htx']; repeat split; congruence.
Qed.

Lemma rollback_at : forall t,
  triple (at_state s t f r) (client_query pg "ROLLBACK" [])
    (fun _ w => at_state s None f r w) (fun _ w => kept s f r w).
Proof.
  intros t. eapply triple_query; [reflexivity|]. intros w a w' (Hc & Htx & Hf & Hr) Hrun.
  destruct (run_control ROLLBACK w a w' eq_refl Hrun) as (Hf' & Hr' & Hres).
  destruct a as [a|e]; destruct Hres as [Hc' Htx']; repeat split; congruence.
Qed.

Lemma rollback_kept :
  triple (kept s f r) (client_query pg "ROLLBACK" [])
    (fun _ w => kept s f r w) (fun _ w => kept s f r w).
Proof.
  eapply triple_query; [reflexivity|]. intros w a w' (Hc & Hf & Hr) Hrun.
  destruct (run_control ROLLBACK w a w' eq_refl Hrun) as (Hf' & Hr' & Hres).
  destruct a as [a|e]; destruct Hres as [Hc' Htx']; repeat split; congruence.
Qed.
End Requests.

(** The first response of a request is recorded and cannot fail. *)
Lemma send_first : forall s t f x E,
  triple (at_state s t f None) (send x) (fun _ w => at_state s t f (Some x) w) E.
Proof.
  intros s t f x E c (Hc & Htx & Hf & Hr). unfold send. rewrite Hr. cbn.
  repeat split; assumption.
Qed.

Lemma send_first_kept : forall s f x E,
  triple (kept s f None) (send x) (fun _ w => kept s f (Some x) w) E.
Proof.
  intros s f x E c (Hc & Hf & Hr). unfold send. rewrite Hr. cbn.
  repeat split; assumption.
Qed.

(** A second response throws and changes nothing. *)
Lemma send_second : forall s f x y Q,
  triple (kept s f (Some y)) (send x) Q (fun _ w => kept s f (Some y) w).
Proof.
  intros s f x y Q c (Hc & Hf & Hr). unfold send. rewrite Hr. cbn.
  repeat split; assumption.
Qed.

(** ** Deleting a user *)

Section UserRequest.
Variables (s : Store) (f : list (ArtifactKey * Image)) (userId : Z).

(** Either the request answered 204 and the user and the games the user
    owned are gone, or it did not answer 204 and no row has changed; the
    artifacts are as before in both cases. *)
Definition user_outcome (w : World) : Prop :=
  (response w = Some (SendStatus 204) /\ committed w = without_user userId s /\ files w = f)
  \/ (response w <> Some (SendStatus 204) /\ committed w = s /\ files w = f).

Lemma isAdmin_at :
  triple (at_state s None f None) (UserModel.isAdmin pg (VNum userId))
    (fun _ w => at_state s None f None w) (fun _ w => kept s f None w).
Proof.
  unfold UserModel.isAdmin.
  eapply triple_bind with (R := fun _ w => at_state s None f None w).
  - eapply triple_error; [eapply triple_post|].
    + eapply (query_autocommit s f None) with (st := IsAdmin userId); reflexivity.
    + intros a w [_ H]. exact H.
    + intros e w H. now apply at_state_kept in H.
  - intros a. unfold UserModel.first_row_no.
    destruct (rows a); intros c H; cbn; [exact (at_state_kept _ _ _ _ _ H)|exact H].
Qed.

Lemma deleteUser_outcome :
  triple (at_state s None f None) (UserCascade.deleteUser (Some userId))
    (fun _ w => user_outcome w) (fun _ w => user_outcome w).
Proof.
  unfold UserCascade.deleteUser.
  eapply triple_try_catch with (R := fun _ w => kept s f None w).
  - eapply triple_bind; [apply isAdmin_at|]. intros [|]; cbv beta.
    + eapply triple_post; [apply (send_first s None f)|].
      intros a w (Hc & _ & Hf & Hr). right. repeat split; congruence.
    + eapply triple_bind; [apply (begin_at s f None)|]. intros ?.
      eapply triple_bind.
      { unfold GameModel.deleteGamesFromUser. now apply (statement_in_tx s f None). }
      intros g. cbv beta.
      eapply triple_bind with (R := fun _ w => at_state s (Some (without_user userId s)) f None w).
      { apply triple_pre with (P' := at_state s
                  (Some (snd (apply (DeleteGamesFromUser userId) s))) f None);
          [|now intros w [_ H]].
        unfold UserModel.deleteUser.
        eapply triple_post;
          [eapply (query_in_tx s f None) with (st := DeleteUser userId); reflexivity|].
        intros b w [_ H]. exact H. }
      intros b. cbv beta. destruct (Nat.eqb (rowCount b) 0).
      * eapply triple_bind; [apply (rollback_at s f None)|]. intros ?.
        eapply triple_post; [apply (send_first s None f)|].
        intros u w (Hc & _ & Hf & Hr). right. repeat split; congruence.
      * eapply triple_bind; [apply (commit_at s f None)|]. intros ?.
        eapply triple_post; [apply (send_first (without_user userId s) None f)|].
        intros u w (Hc & _ & Hf & Hr). left. repeat split; assumption.
  - intros e.
    eapply triple_bind with (R := fun _ w => kept s f None w).
    + eapply triple_error; [apply (rollback_kept s f None)|].
      intros e' w (Hc & Hf & Hr). right. repeat split; congruence.
    + intros ?. eapply triple_post; [apply (send_first_kept s f)|].
      intros u w (Hc & Hf & Hr). right. repeat split; congruence.
Qed.
End UserRequest.

(** X11.  Whatever statements fail, [deleteUser] is all or nothing:
    either it answers 204 and exactly the user row and the game rows the
    user owned are gone, or it does not answer 204 and the committed rows
    are those of the start.  It never touches an artifact. *)
Theorem deleteUser_all_or_nothing :
  forall (s : Store) (f : list (ArtifactKey * Image))
         (db_faults file_faults : list (option JsError)) (userId : Z),
    (response (after (UserCascade.deleteUser (Some userId))
                 (initial_world s f db_faults file_faults)) = Some (SendStatus 204)
     /\ committed (after (UserCascade.deleteUser (Some userId))
                     (initial_world s f db_faults file_faults)) = without_user userId s
     /\ files (after (UserCascade.deleteUser (Some userId))
                 (initial_world s f db_faults file_faults)) = f)
    \/ (response (after (UserCascade.deleteUser (Some userId))
                    (initial_world s f db_faults file_faults)) <> Some (SendStatus 204)
        /\ committed (after (UserCascade.deleteUser (Some userId))
                        (initial_world s f db_faults file_faults)) = s
        /\ files (after (UserCascade.deleteUser (Some userId))
                    (initial_world s f db_faults file_faults)) = f).
Proof.
  intros s f dbf ff userId. unfold after.
  pose proof (deleteUser_outcome s f userId (mkClient (initial_world s f dbf ff) [])
                (at_state_initial s f dbf ff)) as H.
  destruct (UserCascade.deleteUser (Some userId) (mkClient (initial_world s f dbf ff) []))
    as [[[]|e] c']; exact H.
Qed.

Lemma no_admin_without_user : forall userId l,
  existsb (has_user_id userId) l = false -> existsb (is_admin_user userId) l = false.
Proof.
  intros userId l. induction l as [|u l IH]; [reflexivity|].
  cbn [existsb]. intros H. apply orb_false_iff in H as [Hu Hl].
  unfold is_admin_user, has_user_id in *. rewrite Hu, IH by assumption. reflexivity.
Qed.

Lemma deleteUser_missing_run : forall s f ff userId,
  existsb (has_user_id userId) (users s) = false ->
  after (UserCascade.deleteUser (Some userId)) (initial_world s f [] ff)
  = mkWorld s None [] f ff
      [Sql (IsAdmin userId) true; Sql BEGIN true; Sql (DeleteGamesFromUser userId) true;
       Sql (DeleteUser userId) true; Sql ROLLBACK true;
       Responded (Json 404 "RESOURCE_NOT_FOUND" "No user found")]
      (Some (Json 404 "RESOURCE_NOT_FOUND" "No user found")).
Proof.
  intros s f ff userId Hno.
  pose proof (no_admin_without_user userId _ Hno) as Hn.
  unfold after, UserCascade.deleteUser, try_catch, bind, UserModel.isAdmin,
    UserModel.first_row_no, UserModel.deleteUser, GameModel.deleteGamesFromUser, statement,
    client_query, pg, initial_world.
  cbn.
  fold (is_admin_user userId). rewrite (filter_length_zero _ _ _ Hn).
  cbn.
  pose proof (deleted_none _ (has_user_id userId) _ Hno) as Hd.
  unfold has_user_id in Hd. rewrite Hd.
  reflexivity.
Qed.

(** X12.  [deleteUser] on an id that no user row carries, without failing
    statement: the policy query finds no admin, the handler opens a
    transaction, deletes the games recorded under that id and the user,
    finds that no user row was affected, rolls the transaction back and
    answers 404 RESOURCE_NOT_FOUND; no row and no artifact has changed. *)
Theorem deleteUser_missing :
  forall (s : Store) (f : list (ArtifactKey * Image)) (file_faults : list (option JsError))
         (userId : Z),
    existsb (has_user_id userId) (users s) = false ->
    after (UserCascade.deleteUser (Some userId)) (initial_world s f [] file_faults)
    = mkWorld s None [] f file_faults
        [Sql (IsAdmin userId) true; Sql BEGIN true; Sql (DeleteGamesFromUser userId) true;
         Sql (DeleteUser userId) true; Sql ROLLBACK true;
         Responded (Json 404 "RESOURCE_NOT_FOUND" "No user found")]
        (Some (Json 404 "RESOURCE_NOT_FOUND" "No user found")).
Proof. intros s f ff userId Hno. now apply deleteUser_missing_run. Qed.

Lemma deleteUser_missing_witness :
  existsb (has_user_id 999) (users example_store) = false
  /\ response (after (UserCascade.deleteUser (Some 999%Z))
                 (initial_world example_store example_files [] []))
     = Some (Json 404 "RESOURCE_NOT_FOUND" "No user found").
Proof.
  assert (H : existsb (has_user_id 999) (users example_store) = false) by reflexivity.
  split; [exact H|].
  rewrite (deleteUser_missing example_store example_files [] 999 H). reflexivity.
Defined.

(** ** Deleting a platform *)

Definition publication_ids_of_platform (code : string) (s : Store) : list Z :=
  map pub_id (filter (of_platform code) (publications s)).

(** The store once the cascade of a platform has run. *)
Definition without_platform (code : string) (s : Store) : Store :=
  let s1 := without_publications (publication_ids_of_platform code s) s in
  set_platforms s1 (filter (fun p => negb (String.eqb (pf_code p) code)) (platforms s1)).

Lemma delete_publications_at : forall s f r pubs t,
  triple (at_state s (Some t) f r) (for_of (map publication_row pubs) delete_publication)
    (fun _ w => at_state s (Some (without_publications (map pub_id pubs) t)) f r w)
    (fun _ w => kept s f r w).
Proof.
  intros s f r pubs. induction pubs as [|p pubs IH]; intros t.
  - intros c H. cbn. now rewrite without_publications_nil.
  - cbn [map for_of].
    eapply triple_bind with
      (R := fun _ w => at_state s (Some (without_publications [pub_id p] t)) f r w).
    + unfold delete_publication. cbn [get field publication_row String.eqb Ascii.eqb Bool.eqb].
      unfold GameModel.deleteGamesFromPublication, PublicationModel.deletePublication.
      eapply triple_bind;
        [apply (statement_in_tx s f r (DeleteGamesFromPublication (pub_id p)) t eq_refl)|].
      intros a. cbv beta.
      eapply triple_bind with
        (R := fun _ w => at_state s (Some (without_publications [pub_id p] t)) f r w).
      * apply triple_pre with
          (P' := at_state s (Some (snd (apply (DeleteGamesFromPublication (pub_id p)) t))) f r);
          [|now intros w [_ H]].
        eapply triple_post;
          [apply (statement_in_tx s f r (DeletePublication (pub_id p)) _ eq_refl)|].
        intros b w [_ H]. rewrite without_publications_single. exact H.
      * intros b c H. exact H.
    + intros u. cbv beta.
      eapply triple_post; [apply IH|].
      intros v w H. cbv beta in H. now rewrite without_publications_cons in H.
Qed.

Section PlatformRequest.
Variables (s : Store) (f : list (ArtifactKey * Image)) (code : string).

(** The request answered 204, the platform, its publications and the
    games that referenced them are gone and so is the platform's image;
    or the cascade has committed in the same way and the removal of the
    image, tried after the commit, has failed, so that the image is
    still there; or the request did not answer 204 and neither a row nor
    an artifact has changed. *)
Definition platform_outcome (w : World) : Prop :=
  (response w = Some (SendStatus 204)
   /\ committed w = without_platform code s
   /\ files w = remove_artifact (destFolderPlatform, VStr code) f)
  \/ (committed w = without_platform code s
      /\ files w = f
      /\ existsb deletion_fails (trace w) = true)
  \/ (response w <> Some (SendStatus 204) /\ committed w = s /\ files w = f).

(** Nothing has changed and the request has answered 404 at most. *)
Definition pending (w : World) : Prop :=
  committed w = s /\ files w = f
  /\ (response w = None
      \/ response w = Some (Json 404 "RESOURCE_NOT_FOUND" "No platform found")).

(** The cascade has committed and the removal of the image has failed. *)
Definition image_left (w : World) : Prop :=
  committed w = without_platform code s
  /\ files w = f
  /\ existsb deletion_fails (trace w) = true.

Lemma kept_pending : forall w, kept s f None w -> pending w.
Proof. intros w (Hc & Hf & Hr). repeat split; auto. Qed.

Lemma pending_outcome : forall w, pending w -> platform_outcome w.
Proof.
  intros w (Hc & Hf & [Hr|Hr]); right; right; repeat split; congruence.
Qed.

Lemma unfinished_outcome_of_platform : forall w,
  pending w \/ image_left w -> platform_outcome w.
Proof.
  intros w [H|H]; [now apply pending_outcome|]. right. left. exact H.
Qed.

Lemma rollback_pending :
  triple (fun w => pending w \/ image_left w) (client_query pg "ROLLBACK" [])
    (fun _ w => pending w \/ image_left w) (fun _ w => pending w \/ image_left w).
Proof.
  eapply triple_query; [reflexivity|]. intros w a w' H Hrun.
  destruct (run_control ROLLBACK w a w' eq_refl Hrun) as (Hf' & Hr' & Hres).
  destruct (run_facts _ _ _ _ Hrun) as (_ & _ & _ & Htr & _).
  assert (Hc' : committed w' = committed w) by (destruct a; now destruct Hres).
  assert (H' : pending w' \/ image_left w').
  { destruct H as [(Hc & Hf & Hr)|(Hc & Hf & Hd)].
    - left. unfold pending. rewrite Hc', Hf', Hr'. auto.
    - right. unfold image_left. rewrite Hc', Hf', Htr, existsb_push, Hd. auto. }
  destruct a; exact H'.
Qed.

Lemma send_pending : forall x,
  x <> SendStatus 204 ->
  triple (fun w => pending w \/ image_left w) (send x)
    (fun _ w => platform_outcome w) (fun _ w => platform_outcome w).
Proof.
  intros x Hx c H. unfold send.
  destruct (response (db c)) as [y|] eqn:Hy; cbn.
  - now apply unfinished_outcome_of_platform.
  - destruct H as [(Hc & Hf & Hr)|(Hc & Hf & Hd)].
    + right. right. split; [intros H; inversion H; contradiction|]. split; assumption.
    + right. left. repeat split; auto. cbn. rewrite existsb_push, Hd. reflexivity.
Qed.

(** After the commit the image is removed, or its removal fails and
    everything stays as the commit left it. *)
Lemma deleteImage_at : forall x,
  triple (at_state (without_platform code s) None f x)
    (ImageManager.deleteImage (VStr code) destFolderPlatform)
    (fun _ w =>
       at_state (without_platform code s) None
         (remove_artifact (destFolderPlatform, VStr code) f) x w)
    (fun _ w => image_left w).
Proof.
  intros x c (Hc & Htx & Hf & Hr). unfold ImageManager.deleteImage.
  destruct (next_fault (file_faults (db c))) as [[e|] rest]; cbn.
  - unfold image_left. cbn. rewrite existsb_push, orb_true_r. repeat split; assumption.
  - rewrite Hf. repeat split; assumption.
Qed.

Lemma deletePlatformCascade_outcome : forall params_code,
  toUpperCase params_code = code ->
  triple (at_state s None f None) (deletePlatform params_code)
    (fun _ w => platform_outcome w) (fun _ w => platform_outcome w).
Proof.
  intros params_code Hcode. unfold deletePlatform. rewrite Hcode.
  eapply triple_try_catch with (R := fun _ w => pending w \/ image_left w).
  - eapply triple_bind.
    { eapply triple_error; [apply (begin_at s f None)|].
      intros e w H. left. now apply kept_pending. }
    intros ?.
    eapply triple_bind.
    { unfold PublicationModel.getPublication_ofPlatform.
      eapply triple_error;
        [apply (statement_in_tx s f None (GetPublicationsOfPlatform code) s eq_refl)|].
      intros e w H. left. now apply kept_pending. }
    intros found. cbv beta.
    eapply triple_bind with
      (R := fun _ w => at_state s (Some (without_publications
                                            (publication_ids_of_platform code s) s)) f None w).
    { intros c [Ha H]. cbn in Ha. inversion Ha; subst found. cbn [rows].
      pose proof (delete_publications_at s f None
                    (filter (fun p => String.eqb (pub_platform_code p) code) (publications s))
                    s c H) as Hloop.
      change (for_of ?l _) with (for_of l delete_publication).
      destruct (for_of _ delete_publication c) as [[u|e] c']; [exact Hloop|].
      left. now apply kept_pending. }
    intros ?.
    eapply triple_bind with
      (R := fun _ w => at_state s (Some (without_platform code s)) f None w).
    { unfold PlatformModel.deletePlatform.
      eapply triple_error; [eapply triple_post|].
      - apply (statement_in_tx s f None (DeletePlatform code) _ eq_refl).
      - intros b w [_ H]. exact H.
      - intros e w H. left. now apply kept_pending. }
    intros b. cbv beta. destruct (Nat.eqb (rowCount b) 0).
    + eapply triple_bind with
        (R := fun _ w => kept s f (Some (Json 404 "RESOURCE_NOT_FOUND" "No platform found")) w).
      { eapply triple_post; [apply (send_first s _ f)|].
        intros u w H. cbv beta in H. exact (at_state_kept _ _ _ _ _ H). }
      intros ?.
      eapply triple_bind with (R := fun _ w => pending w).
      { eapply triple_consequence;
          [apply (rollback_kept s f
                    (Some (Json 404 "RESOURCE_NOT_FOUND" "No platform found"))) | auto | |];
          [intros ? w (Hc & Hf & Hr); repeat split; auto
          |intros ? w (Hc & Hf & Hr); left; repeat split; auto]. }
      intros ? c H. cbn. now apply pending_outcome.
    + eapply triple_bind.
      { eapply triple_error; [apply (commit_at s f None)|].
        intros e w H. left. now apply kept_pending. }
      intros ?.
      eapply triple_bind.
      { eapply triple_error; [apply deleteImage_at|]. intros e w H. now right. }
      intros ?.
      eapply triple_post; [apply send_first|].
      intros u w (Hc & _ & Hf & Hr). left. repeat split; assumption.
  - intros e.
    eapply triple_bind with (R := fun _ w => pending w \/ image_left w).
    + eapply triple_error; [apply rollback_pending|].
      intros e' w H. now apply unfinished_outcome_of_platform.
    + intros ?. apply send_pending. discriminate.
Qed.
End PlatformRequest.

(** X13.  Whatever statements fail, and whether or not the removal of
    the image fails, [deletePlatform] leaves one of three states: it has
    answered 204, the platform, its publications and the games that
    referenced them are gone and the platform's image is removed; or the
    cascade has committed in the same way, the removal of the image was
    tried and has failed, and the image is still there; or it has not
    answered 204 and neither a row nor an artifact has changed.  The code
    is put to upper case first. *)
Theorem deletePlatform_all_or_nothing :
  forall (s : Store) (f : list (ArtifactKey * Image))
         (db_faults file_faults : list (option JsError)) (code : string),
    (response (after (deletePlatform code) (initial_world s f db_faults file_faults))
     = Some (SendStatus 204)
     /\ committed (after (deletePlatform code) (initial_world s f db_faults file_faults))
        = without_platform (toUpperCase code) s
     /\ files (after (deletePlatform code) (initial_world s f db_faults file_faults))
        = remove_artifact (destFolderPlatform, VStr (toUpperCase code)) f)
    \/ (committed (after (deletePlatform code) (initial_world s f db_faults file_faults))
        = without_platform (toUpperCase code) s
        /\ files (after (deletePlatform code) (initial_world s f db_faults file_faults)) = f
        /\ existsb deletion_fails
             (trace (after (deletePlatform code) (initial_world s f db_faults file_faults)))
           = true)
    \/ (response (after (deletePlatform code) (initial_world s f db_faults file_faults))
        <> Some (SendStatus 204)
        /\ committed (after (deletePlatform code) (initial_world s f db_faults file_faults))
           = s
        /\ files (after (deletePlatform code) (initial_world s f db_faults file_faults)) = f).
Proof.
  intros s f dbf ff code. unfold after.
  pose proof (deletePlatformCascade_outcome s f (toUpperCase code) code eq_refl
                (mkClient (initial_world s f dbf ff) []) (at_state_initial s f dbf ff)) as H.
  destruct (deletePlatform code (mkClient (initial_world s f dbf ff) [])) as [[[]|e] c'];
    exact H.
Qed.

Lemma deletePlatform_run : forall s f ff code,
  existsb (has_code (toUpperCase code)) (platforms s) = true ->
  accepts_next ff ->
  after (deletePlatform code) (initial_world s f [] ff)
  = mkWorld (without_platform (toUpperCase code) s) None []
      (remove_artifact (destFolderPlatform, VStr (toUpperCase code)) f) (tl ff)
      ([Sql BEGIN true; Sql (GetPublicationsOfPlatform (toUpperCase code)) true]
         ++ publication_events (publication_ids_of_platform (toUpperCase code) s)
         ++ [Sql (DeletePlatform (toUpperCase code)) true; Sql COMMIT true;
             DeleteImage (destFolderPlatform, VStr (toUpperCase code));
             Responded (SendStatus 204)])
      (Some (SendStatus 204)).
Proof.
  intros s f ff code H Hff.
  pose proof (deleted_some _ (has_code (toUpperCase code)) _ H) as Hd.
  unfold has_code in Hd.
  assert (Hnext : next_fault ff = (None, tl ff))
    by (destruct ff as [|[e|] rest]; [reflexivity | contradiction | reflexivity]).
  unfold after, deletePlatform, try_catch, bind at 1, client_query, pg, initial_world.
  cbn [decode String.eqb Ascii.eqb Bool.eqb run next_fault db_faults db tx apply committed
       files file_faults trace response sent is_ok rows snd fst].
  unfold bind at 1, PublicationModel.getPublication_ofPlatform, statement.
  cbn [run next_fault db_faults db tx apply committed files file_faults trace response sent
       is_ok rows].
  unfold bind at 1.
  change (for_of ?l _) with (for_of l delete_publication).
  rewrite delete_publications_run.
  unfold bind, PlatformModel.deletePlatform, statement, client_query, pg, send,
    ImageManager.deleteImage.
  cbn. rewrite Hd. cbn. rewrite Hnext. cbn. unfold push. cbn. rewrite <- !app_assoc.
  reflexivity.
Qed.

(** After the cascade nothing of the platform is left, and nothing else
    is touched. *)
Lemma without_platform_clean : forall code s,
  existsb (has_code code) (platforms (without_platform code s)) = false
  /\ existsb (of_platform code) (publications (without_platform code s)) = false
  /\ existsb
       (fun g =>
          existsb (fun p => of_platform code p && Z.eqb (pub_id p) (game_publication_id g))
            (publications s))
       (games (without_platform code s)) = false
  /\ video_games (without_platform code s) = video_games s
  /\ category_links (without_platform code s) = category_links s
  /\ users (without_platform code s) = users s.
Proof.
  intros code s. unfold without_platform. cbn. repeat split.
  - apply existsb_filter_false. intros x _ H. now apply negb_true_iff in H.
  - apply existsb_filter_false. intros x Hin H. apply negb_true_iff in H.
    destruct (of_platform code x) eqn:Hof; [|reflexivity].
    assert (Hl : listed (publication_ids_of_platform code s) x = true).
    { unfold listed, publication_ids_of_platform.
      apply existsb_exists. exists (pub_id x). split; [|apply Z.eqb_refl].
      apply in_map. apply filter_In. now split. }
    congruence.
  - apply existsb_filter_false. intros g _ H. apply negb_true_iff in H.
    destruct (existsb _ (publications s)) eqn:He; [|reflexivity].
    apply existsb_exists in He as [p [Hin Hp]]. apply andb_true_iff in Hp as [Hof Heq].
    apply Z.eqb_eq in Heq.
    assert (Hl : references (publication_ids_of_platform code s) g = true).
    { unfold references, publication_ids_of_platform.
      apply existsb_exists. exists (pub_id p). split; [|now rewrite Heq, Z.eqb_refl].
      apply in_map. apply filter_In. now split. }
    congruence.
Qed.

(** X14.  For a platform that exists, when no statement fails and the
    removal of the image does not fail, [deletePlatform] puts the code
    to upper case and runs inside one transaction, for each publication
    of the platform in turn, the deletion of the games that reference it
    and of the publication, then the deletion of the platform row; it
    commits, removes the platform's image and answers 204.  Afterwards
    no platform row of that code, no publication of the platform and no
    game referencing one of them remains; video games, category links
    and users are untouched. *)
Theorem deletePlatform_cascade :
  forall (s : Store) (f : list (ArtifactKey * Image)) (file_faults : list (option JsError))
         (code : string),
    existsb (has_code (toUpperCase code)) (platforms s) = true ->
    accepts_next file_faults ->
    after (deletePlatform code) (initial_world s f [] file_faults)
    = mkWorld (without_platform (toUpperCase code) s) None []
        (remove_artifact (destFolderPlatform, VStr (toUpperCase code)) f) (tl file_faults)
        ([Sql BEGIN true; Sql (GetPublicationsOfPlatform (toUpperCase code)) true]
           ++ publication_events (publication_ids_of_platform (toUpperCase code) s)
           ++ [Sql (DeletePlatform (toUpperCase code)) true; Sql COMMIT true;
               DeleteImage (destFolderPlatform, VStr (toUpperCase code));
               Responded (SendStatus 204)])
        (Some (SendStatus 204))
    /\ existsb (has_code (toUpperCase code))
         (platforms (without_platform (toUpperCase code) s)) = false
    /\ existsb (of_platform (toUpperCase code))
         (publications (without_platform (toUpperCase code) s)) = false
    /\ existsb
         (fun g =>
            existsb (fun p => of_platform (toUpperCase code) p
                              && Z.eqb (pub_id p) (game_publication_id g))
              (publications s))
         (games (without_platform (toUpperCase code) s)) = false
    /\ video_games (without_platform (toUpperCase code) s) = video_games s
    /\ category_links (without_platform (toUpperCase code) s) = category_links s
    /\ users (without_platform (toUpperCase code) s) = users s.
Proof.
  intros s f ff code H Hff. split; [now apply deletePlatform_run|].
  apply without_platform_clean.
Qed.

Lemma deletePlatform_cascade_witness :
  existsb (has_code (toUpperCase "pc")) (platforms example_store) = true
  /\ accepts_next [None; Some (Error "EIO")]
  /\ committed (after (deletePlatform "pc")
                  (initial_world example_store example_files [] [None; Some (Error "EIO")]))
     = mkStore (video_games example_store)
         [mkPlatform "PS5" "PlayStation 5" "PS5"]
         [example_publication 11 "PS5" 1]
         [mkGame 101 11]
         (category_links example_store) (users example_store)
  /\ files (after (deletePlatform "pc")
              (initial_world example_store example_files [] [None; Some (Error "EIO")]))
     = [].
Proof.
  assert (H : existsb (has_code (toUpperCase "pc")) (platforms example_store) = true)
    by reflexivity.
  split; [exact H|]. split; [exact I|].
  rewrite (proj1 (deletePlatform_cascade example_store example_files
                    [None; Some (Error "EIO")] "pc" H I)).
  split; reflexivity.
Defined.

(** ** The image of a deleted platform *)

(** C5 as stated fails: the cascade of platform PC commits, the removal
    of its image, tried right after the commit, fails, and the image is
    still there although the platform and its publications are gone. *)
Lemma deletePlatform_image_counterexample :
  existsb commits
    (trace (after (deletePlatform "pc")
              (initial_world example_store example_files [] [Some (Error "EACCES")])))
  = true
  /\ existsb (has_code "PC")
       (platforms
          (committed (after (deletePlatform "pc")
                        (initial_world example_store example_files []
                           [Some (Error "EACCES")]))))
     = false
  /\ files (after (deletePlatform "pc")
              (initial_world example_store example_files [] [Some (Error "EACCES")]))
     = [(platform_key "PC", "pc.png")]
  /\ existsb deletion_fails
       (trace (after (deletePlatform "pc")
                 (initial_world example_store example_files [] [Some (Error "EACCES")])))
     = true.
Proof. repeat split; reflexivity. Qed.

(** C5, amended.  [deletePlatform] removes the platform's image if and
    only if the transaction of the cascade has committed and the removal
    of the image has not failed; the removal is tried exactly when the
    transaction has committed, and in the trace every attempt comes
    after a successful [COMMIT]; a [COMMIT] that fails excludes a
    successful one, so it leaves the artifacts as they were; and without
    a successful [COMMIT] the committed rows are those of the start.
    This holds whatever statements and removals fail.  For a platform
    that exists, when nothing fails, the transaction does commit and the
    image is removed. *)
Theorem deletePlatform_image_follows_commit :
  forall (s : Store) (f : list (ArtifactKey * Image))
         (db_faults file_faults : list (option JsError)) (code : string),
    files (after (deletePlatform code) (initial_world s f db_faults file_faults))
    = (if existsb commits
            (trace (after (deletePlatform code) (initial_world s f db_faults file_faults)))
          && negb (existsb deletion_fails
                     (trace (after (deletePlatform code)
                               (initial_world s f db_faults file_faults))))
       then remove_artifact (destFolderPlatform, VStr (toUpperCase code)) f
       else f)
    /\ existsb attempts_deletion
         (trace (after (deletePlatform code) (initial_world s f db_faults file_faults)))
       = existsb commits
           (trace (after (deletePlatform code) (initial_world s f db_faults file_faults)))
    /\ deletions_follow_commit false
         (trace (after (deletePlatform code) (initial_world s f db_faults file_faults)))
       = true
    /\ existsb commit_fails
         (trace (after (deletePlatform code) (initial_world s f db_faults file_faults)))
       && existsb commits
            (trace (after (deletePlatform code) (initial_world s f db_faults file_faults)))
       = false
    /\ (existsb commits
          (trace (after (deletePlatform code) (initial_world s f db_faults file_faults)))
        = true
        \/ committed (after (deletePlatform code) (initial_world s f db_faults file_faults))
           = s)
    /\ (existsb (has_code (toUpperCase code)) (platforms s) = true ->
        db_faults = [] ->
        accepts_next file_faults ->
        existsb commits
          (trace (after (deletePlatform code) (initial_world s f db_faults file_faults)))
        = true
        /\ existsb deletion_fails
             (trace (after (deletePlatform code) (initial_world s f db_faults file_faults)))
           = false
        /\ existsb (has_code (toUpperCase code))
             (platforms
                (committed (after (deletePlatform code)
                              (initial_world s f db_faults file_faults))))
           = false).
Proof.
  intros s f dbf ff code.
  assert (Hs : settled s f (destFolderPlatform, VStr (toUpperCase code))
                 (after (deletePlatform code) (initial_world s f dbf ff))).
  { unfold after.
    pose proof (deletePlatform_settles s f _ code eq_refl
                  (mkClient (initial_world s f dbf ff) [])) as H.
    destruct (deletePlatform code (mkClient (initial_world s f dbf ff) [])) as [[[]|e] c'];
      apply H; repeat split; reflexivity. }
  destruct (settled_spec _ _ _ _ Hs) as (H1 & H2 & H3 & H4 & H5).
  repeat (split; [assumption|]).
  intros Hpf Hdb Hff. subst dbf.
  rewrite (deletePlatform_run s f ff code Hpf Hff). cbn [trace committed].
  rewrite !existsb_app. cbn.
  assert (Hev : forall l, existsb commits (publication_events l) = false
                          /\ existsb deletion_fails (publication_events l) = false).
  { intros l. induction l as [|x l [IH1 IH2]]; cbn; auto. }
  destruct (Hev (publication_ids_of_platform (toUpperCase code) s)) as [Hc Hd].
  rewrite Hc, Hd. cbn. repeat split; try reflexivity.
  apply without_platform_clean.
Qed.

Lemma deletePlatform_image_follows_commit_witness :
  existsb (has_code (toUpperCase "pc")) (platforms example_store) = true
  /\ accepts_next []
  /\ existsb commits
       (trace (after (deletePlatform "pc") (initial_world example_store example_files [] [])))
     = true
  /\ files (after (deletePlatform "pc") (initial_world example_store example_files [] []))
     = remove_artifact (destFolderPlatform, VStr (toUpperCase "pc")) example_files.
Proof.
  assert (H : existsb (has_code (toUpperCase "pc")) (platforms example_store) = true)
    by reflexivity.
  split; [exact H|]. split; [exact I|].
  pose proof (deletePlatform_image_follows_commit example_store example_files [] [] "pc")
    as (Hfiles & _ & _ & _ & _ & Hrun).
  destruct (Hrun H eq_refl I) as (Hc & Hd & _).
  split; [exact Hc|]. rewrite Hfiles, Hc, Hd. reflexivity.
Defined.

(** ** Deleting a video game *)

Section VideoGameRequest.
Variable f : list (ArtifactKey * Image).

(** No response yet, the artifacts as at the start. *)
Definition idle (w : World) : Prop := files w = f /\ response w = None.

(** One of the four responses of [deleteVideoGame], the artifacts as at
    the start. *)
Definition answered (w : World) : Prop :=
  files w = f
  /\ (response w = Some (Send 400 "Id must be a Number")
      \/ response w = Some (Send 404 "No video game found")
      \/ response w = Some (SendStatus 204)
      \/ response w = Some (Send 500 "Internal Server Error")).

Lemma statement_idle : forall st,
  triple idle (statement st) (fun _ w => idle w) (fun _ w => idle w).
Proof.
  intros st. apply triple_statement. intros w a w' [Hf Hr] Hrun.
  destruct (run_facts _ _ _ _ Hrun) as (Hf' & _ & Hr' & _).
  destruct a; split; congruence.
Qed.

Lemma query_idle : forall text params,
  triple idle (client_query pg text params) (fun _ w => idle w) (fun _ w => idle w).
Proof.
  intros text params c H. unfold client_query, pg.
  destruct (decode text params) as [st|]; [|exact H].
  destruct (run st (db c)) as [a w'] eqn:Hrun.
  destruct (run_facts _ _ _ _ Hrun) as (Hf' & _ & Hr' & _).
  destruct H as [Hf Hr]. destruct a; cbn; split; congruence.
Qed.

Lemma not_awaited_idle : forall text params E,
  triple idle (not_awaited (client_query pg text params)) (fun _ w => idle w) E.
Proof.
  intros text params E.
  eapply triple_not_awaited; [apply query_idle| |]; auto.
Qed.

Lemma delete_publication_idle : forall row,
  triple idle (delete_publication row) (fun _ w => idle w) (fun _ w => idle w).
Proof.
  intros row. unfold delete_publication,
    GameModel.deleteGamesFromPublication, PublicationModel.deletePublication.
  destruct (get row "id"); try (intros c H; exact H).
  eapply triple_bind; [apply statement_idle|]. intros ?.
  eapply triple_bind; [apply statement_idle|]. intros ?.
  intros c H. exact H.
Qed.

Lemma send_idle : forall x E,
  x = Send 400 "Id must be a Number" \/ x = Send 404 "No video game found"
  \/ x = SendStatus 204 \/ x = Send 500 "Internal Server Error" ->
  triple idle (send x) (fun _ w => answered w) E.
Proof.
  intros x E Hx c [Hf Hr]. unfold send. rewrite Hr. cbn. split; [exact Hf|].
  destruct Hx as [Hx|[Hx|[Hx|Hx]]]; subst; auto.
Qed.

(** The handler cannot throw: the error postcondition is [False]. *)
Lemma deleteVideoGame_answers : forall id,
  triple idle (VideoGameCascade.deleteVideoGame id)
    (fun _ w => answered w) (fun _ _ => False).
Proof.
  intros [id|]; unfold VideoGameCascade.deleteVideoGame.
  - eapply triple_try_catch with (R := fun _ w => idle w).
    + eapply triple_bind.
      { unfold PublicationModel.getPublication_ofVideoGame. apply statement_idle. }
      intros a. cbv beta.
      destruct (Nat.eqb (List.length (rows a)) 0).
      * apply send_idle. auto.
      * eapply triple_bind; [apply not_awaited_idle|]. intros ?.
        eapply triple_bind.
        { apply triple_for_of. intros row _. apply delete_publication_idle. }
        intros ?.
        eapply triple_bind.
        { unfold CategoryModel.deleteCategoriesFromVideoGame. apply statement_idle. }
        intros ?.
        eapply triple_bind.
        { unfold VideoGameModel.deleteVideoGame. apply query_idle. }
        intros ?.
        eapply triple_bind; [apply not_awaited_idle|]. intros ?.
        apply send_idle. auto.
    + intros e.
      eapply triple_bind; [apply not_awaited_idle|]. intros ?.
      apply send_idle. auto.
  - apply send_idle. auto.
Qed.
End VideoGameRequest.

(** ** Failures that [deleteVideoGame] catches *)

(** A statement that the server rejects. *)
Definition statement_fails (e : Event) : bool :=
  match e with Sql _ false => true | _ => false end.

(** A [BEGIN], [COMMIT] or [ROLLBACK] that the server rejects.  In
    [deleteVideoGame] none of the three is awaited, so its rejection is
    the rejection of a promise that no one handles. *)
Definition control_rejected (e : Event) : bool :=
  match e with
  | Sql BEGIN false | Sql COMMIT false | Sql ROLLBACK false => true
  | _ => false
  end.

(** A statement other than these three that the server rejects. *)
Definition awaited_fails (e : Event) : bool :=
  statement_fails e && negb (control_rejected e).

Lemma statement_fails_split : forall t,
  existsb control_rejected t = false ->
  existsb awaited_fails t = false ->
  existsb statement_fails t = false.
Proof.
  induction t as [|e t IH]; [reflexivity|]. cbn [existsb]. intros H1 H2.
  apply orb_false_elim in H1 as [H1 H1']. apply orb_false_elim in H2 as [H2 H2'].
  rewrite (IH H1' H2'). unfold awaited_fails in H2. rewrite H1 in H2.
  destruct (statement_fails e); [discriminate|reflexivity].
Qed.

(** No response yet and no awaited statement has failed. *)
Definition unfailed (w : World) : Prop :=
  response w = None /\ existsb awaited_fails (trace w) = false.

(** No response yet. *)
Definition silent (w : World) : Prop := response w = None.

(** The request has answered 500, or it has answered 400, 404 or 204
    and no awaited statement has failed. *)
Definition accounted (w : World) : Prop :=
  response w = Some (Send 500 "Internal Server Error")
  \/ ((response w = Some (Send 400 "Id must be a Number")
       \/ response w = Some (Send 404 "No video game found")
       \/ response w = Some (SendStatus 204))
      /\ existsb awaited_fails (trace w) = false).

Lemma statement_unfailed : forall st,
  triple unfailed (statement st) (fun _ w => unfailed w) (fun _ w => silent w).
Proof.
  intros st. apply triple_statement. intros w a w' [Hr Ht] Hrun.
  destruct (run_facts _ _ _ _ Hrun) as (_ & _ & Hr' & Htr & _).
  destruct a as [a|e]; cbn [is_ok] in Htr.
  - split; [congruence|]. rewrite Htr, existsb_push, Ht. reflexivity.
  - unfold silent. congruence.
Qed.

Lemma query_unfailed : forall text params st,
  decode text params = Some st ->
  triple unfailed (client_query pg text params) (fun _ w => unfailed w) (fun _ w => silent w).
Proof.
  intros text params st Hd c H.
  pose proof (statement_unfailed st (mkClient (db c) (sent c)) H) as Hs.
  unfold statement in Hs. unfold client_query, pg. rewrite Hd. cbn [db sent] in Hs.
  destruct (run st (db c)) as [[a|e] w']; exact Hs.
Qed.

Lemma control_unfailed : forall text st E,
  decode text [] = Some st -> is_control st = true ->
  triple unfailed (not_awaited (client_query pg text [])) (fun _ w => unfailed w) E.
Proof.
  intros text st E Hd Hst c [Hr Ht]. unfold not_awaited, client_query, pg. rewrite Hd.
  destruct (run st (db c)) as [a w'] eqn:Hrun. cbn [snd db].
  destruct (run_facts _ _ _ _ Hrun) as (_ & _ & Hr' & Htr & _).
  split; [congruence|]. rewrite Htr, existsb_push, Ht.
  destruct st; try discriminate; destruct (is_ok a); reflexivity.
Qed.

Lemma control_silent : forall text E,
  triple silent (not_awaited (client_query pg text [])) (fun _ w => silent w) E.
Proof.
  intros text E c H. unfold not_awaited, client_query, pg, silent in *.
  destruct (decode text []) as [st|]; [|exact H].
  destruct (run st (db c)) as [a w'] eqn:Hrun. cbn [snd db].
  destruct (run_facts _ _ _ _ Hrun) as (_ & _ & Hr' & _). congruence.
Qed.

Lemma delete_publication_unfailed : forall row,
  triple unfailed (delete_publication row) (fun _ w => unfailed w) (fun _ w => silent w).
Proof.
  intros row. unfold delete_publication,
    GameModel.deleteGamesFromPublication, PublicationModel.deletePublication.
  destruct (get row "id"); try (intros c [H _]; exact H).
  eapply triple_bind; [apply statement_unfailed|]. intros ?.
  eapply triple_bind; [apply statement_unfailed|]. intros ?.
  intros c H. exact H.
Qed.

Lemma send_unfailed : forall x E,
  x = Send 400 "Id must be a Number" \/ x = Send 404 "No video game found"
  \/ x = SendStatus 204 ->
  triple unfailed (send x) (fun _ w => accounted w) E.
Proof.
  intros x E Hx c [Hr Ht]. unfold send. rewrite Hr. cbn. right. split.
  - destruct Hx as [Hx|[Hx|Hx]]; subst; auto.
  - cbn. rewrite existsb_push, Ht. reflexivity.
Qed.

Lemma send_silent : forall E,
  triple silent (send (Send 500 "Internal Server Error")) (fun _ w => accounted w) E.
Proof. intros E c Hr. unfold send, silent in *. rewrite Hr. cbn. now left. Qed.

Lemma deleteVideoGame_accounts : forall id,
  triple unfailed (VideoGameCascade.deleteVideoGame id)
    (fun _ w => accounted w) (fun _ _ => False).
Proof.
  intros [id|]; unfold VideoGameCascade.deleteVideoGame.
  - eapply triple_try_catch with (R := fun _ w => silent w).
    + eapply triple_bind.
      { unfold PublicationModel.getPublication_ofVideoGame. apply statement_unfailed. }
      intros a. cbv beta.
      destruct (Nat.eqb (List.length (rows a)) 0).
      * apply send_unfailed. auto.
      * eapply triple_bind; [eapply control_unfailed; reflexivity|]. intros ?.
        eapply triple_bind.
        { apply triple_for_of. intros row _. apply delete_publication_unfailed. }
        intros ?.
        eapply triple_bind.
        { unfold CategoryModel.deleteCategoriesFromVideoGame. apply statement_unfailed. }
        intros ?.
        eapply triple_bind.
        { unfold VideoGameModel.deleteVideoGame. eapply query_unfailed. reflexivity. }
        intros ?.
        eapply triple_bind; [eapply control_unfailed; reflexivity|]. intros ?.
        apply send_unfailed. auto.
    + intros e.
      eapply triple_bind; [apply control_silent|]. intros ?.
      apply send_silent.
  - apply send_unfailed. auto.
Qed.
(** X15.  In a run of [deleteVideoGame] in which the server rejects none
    of [BEGIN], [COMMIT] and [ROLLBACK] (the statements the handler does
    not await), whatever else fails: the handler returns normally and
    has answered 500, 400, 404 or 204; it answers 400, 404 or 204 only
    when no statement has failed, and whenever a statement has failed
    the answer is 500 Internal Server Error. *)
Theorem deleteVideoGame_answers_every_failure :
  forall (s : Store) (f : list (ArtifactKey * Image))
         (db_faults file_faults : list (option JsError)) (id : option Z),
    existsb control_rejected
      (trace (after (VideoGameCascade.deleteVideoGame id)
                (initial_world s f db_faults file_faults))) = false ->
    fst (VideoGameCascade.deleteVideoGame id
           (mkClient (initial_world s f db_faults file_faults) [])) = inl tt
    /\ (response (after (VideoGameCascade.deleteVideoGame id)
                    (initial_world s f db_faults file_faults))
        = Some (Send 500 "Internal Server Error")
        \/ ((response (after (VideoGameCascade.deleteVideoGame id)
                         (initial_world s f db_faults file_faults))
             = Some (Send 400 "Id must be a Number")
             \/ response (after (VideoGameCascade.deleteVideoGame id)
                            (initial_world s f db_faults file_faults))
                = Some (Send 404 "No video game found")
             \/ response (after (VideoGameCascade.deleteVideoGame id)
                            (initial_world s f db_faults file_faults))
                = Some (SendStatus 204))
            /\ existsb statement_fails
                 (trace (after (VideoGameCascade.deleteVideoGame id)
                           (initial_world s f db_faults file_faults))) = false))
    /\ (existsb statement_fails
          (trace (after (VideoGameCascade.deleteVideoGame id)
                    (initial_world s f db_faults file_faults))) = true ->
        response (after (VideoGameCascade.deleteVideoGame id)
                    (initial_world s f db_faults file_faults))
        = Some (Send 500 "Internal Server Error")).
Proof.
  intros s f dbf ff id. unfold after.
  pose proof (deleteVideoGame_accounts id (mkClient (initial_world s f dbf ff) [])) as H.
  destruct (VideoGameCascade.deleteVideoGame id (mkClient (initial_world s f dbf ff) []))
    as [[[]|e] c']; cbn [fst snd]; intros Hctl.
  - assert (Ha : accounted (db c')) by (apply H; split; reflexivity).
    split; [reflexivity|].
    destruct Ha as [Ha|[Ha Hn]].
    + split; [now left|]. intros _. exact Ha.
    + pose proof (statement_fails_split _ Hctl Hn) as Hnone.
      split; [right; now split|]. intros Hsome. congruence.
  - exfalso. apply H. split; reflexivity.
Qed.

Lemma deleteVideoGame_answers_every_failure_witness :
  existsb control_rejected
    (trace (after (VideoGameCascade.deleteVideoGame (Some 1%Z))
              (initial_world example_store example_files
                 [None; None; None; Some (Error "deadlock detected")] []))) = false
  /\ existsb statement_fails
       (trace (after (VideoGameCascade.deleteVideoGame (Some 1%Z))
                 (initial_world example_store example_files
                    [None; None; None; Some (Error "deadlock detected")] []))) = true
  /\ response (after (VideoGameCascade.deleteVideoGame (Some 1%Z))
                 (initial_world example_store example_files
                    [None; None; None; Some (Error "deadlock detected")] []))
     = Some (Send 500 "Internal Server Error").
Proof.
  assert (H : existsb control_rejected
                (trace (after (VideoGameCascade.deleteVideoGame (Some 1%Z))
                          (initial_world example_store example_files
                             [None; None; None; Some (Error "deadlock detected")] [])))
              = false) by reflexivity.
  assert (Hf : existsb statement_fails
                 (trace (after (VideoGameCascade.deleteVideoGame (Some 1%Z))
                           (initial_world example_store example_files
                              [None; None; None; Some (Error "deadlock detected")] [])))
               = true) by reflexivity.
  split; [exact H|]. split; [exact Hf|].
  exact (proj2 (proj2 (deleteVideoGame_answers_every_failure example_store example_files
                         [None; None; None; Some (Error "deadlock detected")] []
                         (Some 1%Z) H)) Hf).
Defined.

(** X16.  Whatever statements fail, [deleteVideoGame] leaves every
    artifact where it is: the image stored for the video game is still
    there after the video game has been deleted. *)
Theorem deleteVideoGame_keeps_artifacts :
  forall (s : Store) (f : list (ArtifactKey * Image))
         (db_faults file_faults : list (option JsError)) (id : option Z),
    files (after (VideoGameCascade.deleteVideoGame id)
             (initial_world s f db_faults file_faults)) = f.
Proof.
  intros s f dbf ff id. unfold after.
  pose proof (deleteVideoGame_answers f id (mkClient (initial_world s f dbf ff) [])) as H.
  destruct (VideoGameCascade.deleteVideoGame id (mkClient (initial_world s f dbf ff) []))
    as [[[]|e] c']; cbn [snd].
  - apply H. split; reflexivity.
  - exfalso. apply H. split; reflexivity.
Qed.

(** A fault schedule that lets [k] statements pass and then goes on as
    [rest]. *)
Definition passing (k : nat) (rest : list (option JsError)) : list (option JsError) :=
  (repeat None k ++ rest)%list.

Lemma passing_S : forall k rest, passing (S k) rest = None :: passing k rest.
Proof. reflexivity. Qed.

Lemma delete_publications_passing : forall pubs s t rest f ff tr r sent0,
  for_of (map publication_row pubs) delete_publication
    (mkClient (mkWorld s (Some t) (passing (2 * List.length pubs) rest) f ff tr r) sent0)
  = (inl tt,
     mkClient
       (mkWorld s (Some (without_publications (map pub_id pubs) t)) rest f ff
          (tr ++ publication_events (map pub_id pubs)) r)
       sent0).
Proof.
  induction pubs as [|p pubs IH]; intros s t rest f ff tr r sent0.
  - cbn. now rewrite without_publications_nil, app_nil_r.
  - cbn [map for_of]. unfold bind at 1.
    replace (2 * List.length (p :: pubs)) with (S (S (2 * List.length pubs)))
      by (cbn [List.length]; lia).
    rewrite !passing_S.
    assert (Hstep :
      delete_publication (publication_row p)
        (mkClient (mkWorld s (Some t) (None :: None :: passing (2 * List.length pubs) rest)
                     f ff tr r) sent0)
      = (inl tt,
         mkClient
           (mkWorld s (Some (without_publications [pub_id p] t))
              (passing (2 * List.length pubs) rest) f ff
              (tr ++ publication_events [pub_id p]) r) sent0)).
    { rewrite without_publications_single.
      unfold delete_publication, bind, push. cbn.
      unfold push, ret. now rewrite <- app_assoc. }
    rewrite Hstep, IH, without_publications_cons. cbn. now rewrite <- app_assoc.
Qed.

Lemma deleteVideoGame_rejected_commit_run : forall s f ff id e rest,
  existsb (of_video_game id) (publications s) = true ->
  after (VideoGameCascade.deleteVideoGame (Some id))
    (initial_world s f
       (None :: None
          :: passing (2 * List.length (filter (of_video_game id) (publications s)))
               (None :: None :: Some e :: rest)) ff)
  = mkWorld s (Some (without_video_game id s)) rest f ff
      ([Sql (GetPublicationsOfVideoGame id) true; Sql BEGIN true]
         ++ publication_events (publication_ids_of_video_game id s)
         ++ [Sql (DeleteCategoriesFromVideoGame id) true; Sql (DeleteVideoGame id) true;
             Sql COMMIT false; Responded (SendStatus 204)])
      (Some (SendStatus 204)).
Proof.
  intros s f ff id e rest H.
  assert (Hlen : Nat.eqb (List.length (map publication_row
                    (filter (of_video_game id) (publications s)))) 0 = false).
  { apply Nat.eqb_neq. rewrite length_map.
    pose proof (existsb_filter_nonempty _ _ _ H) as Hne.
    destruct (filter (of_video_game id) (publications s)); [congruence|simpl; lia]. }
  unfold after, VideoGameCascade.deleteVideoGame, try_catch, bind at 1,
    PublicationModel.getPublication_ofVideoGame, statement, initial_world.
  cbn [run next_fault db_faults db tx apply committed files file_faults trace response sent
       is_ok rows].
  fold (of_video_game id). rewrite Hlen.
  unfold bind at 1, not_awaited, client_query, pg.
  cbn [decode String.eqb Ascii.eqb Bool.eqb run next_fault db_faults db tx apply committed
       files file_faults trace response sent is_ok rows snd fst].
  unfold bind at 1.
  change (for_of ?l _) with (for_of l delete_publication).
  rewrite delete_publications_passing.
  unfold bind, CategoryModel.deleteCategoriesFromVideoGame, VideoGameModel.deleteVideoGame,
    statement, client_query, pg, send.
  cbn. unfold push. cbn. rewrite <- !app_assoc. reflexivity.
Qed.

(** X17.  [deleteVideoGame] does not await its [COMMIT] either: when
    every statement of the cascade succeeds and the [COMMIT] is rejected,
    the handler still answers 204, although no commit has succeeded and
    every committed row is as before. *)
Theorem deleteVideoGame_rejected_commit :
  forall (s : Store) (f : list (ArtifactKey * Image)) (file_faults : list (option JsError))
         (id : Z) (e : JsError) (rest : list (option JsError)),
    existsb (of_video_game id) (publications s) = true ->
    response
      (after (VideoGameCascade.deleteVideoGame (Some id))
         (initial_world s f
            (None :: None
               :: passing (2 * List.length (filter (of_video_game id) (publications s)))
                    (None :: None :: Some e :: rest)) file_faults))
    = Some (SendStatus 204)
    /\ committed
         (after (VideoGameCascade.deleteVideoGame (Some id))
            (initial_world s f
               (None :: None
                  :: passing (2 * List.length (filter (of_video_game id) (publications s)))
                       (None :: None :: Some e :: rest)) file_faults))
       = s
    /\ existsb commits
         (trace
            (after (VideoGameCascade.deleteVideoGame (Some id))
               (initial_world s f
                  (None :: None
                     :: passing (2 * List.length (filter (of_video_game id) (publications s)))
                          (None :: None :: Some e :: rest)) file_faults)))
       = false
    /\ existsb commit_fails
         (trace
            (after (VideoGameCascade.deleteVideoGame (Some id))
               (initial_world s f
                  (None :: None
                     :: passing (2 * List.length (filter (of_video_game id) (publications s)))
                          (None :: None :: Some e :: rest)) file_faults)))
       = true.
Proof.
  intros s f ff id e rest H.
  rewrite (deleteVideoGame_rejected_commit_run s f ff id e rest H).
  cbn [response committed trace].
  split; [reflexivity|]. split; [reflexivity|].
  rewrite !existsb_app. cbn [existsb commits commit_fails orb].
  assert (Hq : forall l, existsb commits (publication_events l) = false).
  { intros l. induction l as [|i l IH]; [reflexivity|exact IH]. }
  rewrite Hq. split; [reflexivity|]. now rewrite !orb_true_r.
Qed.

Lemma deleteVideoGame_rejected_commit_witness :
  existsb (of_video_game 2) (publications example_store) = true
  /\ response
       (after (VideoGameCascade.deleteVideoGame (Some 2%Z))
          (initial_world example_store example_files
             [None; None; None; None; None; None; Some (Error "connection lost")] []))
     = Some (SendStatus 204)
  /\ committed
       (after (VideoGameCascade.deleteVideoGame (Some 2%Z))
          (initial_world example_store example_files
             [None; None; None; None; None; None; Some (Error "connection lost")] []))
     = example_store.
Proof.
  assert (H : existsb (of_video_game 2) (publications example_store) = true) by reflexivity.
  split; [exact H|].
  destruct (deleteVideoGame_rejected_commit example_store example_files [] 2
              (Error "connection lost") [] H) as (H1 & H2 & _).
  split; [exact H1 | exact H2].
Defined.

(** ** controller/platform.js, creating and updating one platform *)
Module PlatformHandlers.

(** [createPlatform] once [req.body] has passed the schema, which yields
    [code], [description] and [abbreviation]; [picture] is
    [req.files.picture], [None] when no file of that name was uploaded. *)
Definition createPlatform (code description abbreviation : string)
    (picture : option (list File)) : M (Client World) unit :=
  match picture with
  | None => send (Json 400 "INVALID_INPUT" "No picture")
  | Some picture =>
      try_catch
        (client_query pg "BEGIN" [] ;;;
         PlatformModel.createPlatform code description abbreviation ;;;
         file <-
           match picture with
           | file :: _ => ret file
           | [] => throw (TypeError "Cannot read properties of undefined (reading 'buffer')")
           end ;;
         ImageManager.saveImageToPng (buffer file) (VStr code) destFolderPlatform ;;;
         client_query pg "COMMIT" [] ;;;
         send (SendStatus 201))
        (fun error =>
           client_query pg "ROLLBACK" [] ;;;
           if match error_code error with
              | Some c => String.eqb c UNIQUE_VIOLATION
              | None => false
              end
           then send (Json 409 "DUPLICATE_ENTRY" (error_detail error))
           else if includes (error_message error) "format"
           then send (Json 400 "INVALID_INPUT" "Invalid image format")
           else send (SendStatus 500))
  end.

(** The body of a platform update after the partial schema: a field is
    [None] when the body does not carry it. *)
Record UpdateValues : Type :=
  { upd_code : option string;
    upd_description : option string;
    upd_abbreviation : option string }.

(** [Object.keys(updateValues).length] *)
Definition keys (u : UpdateValues) : nat :=
  List.length
    (filter (fun x => negb (UserModel.is_null x))
       [upd_code u; upd_description u; upd_abbreviation u]).

(** A string that may be [undefined], as an image name. *)
Definition name_of (x : option string) : Value :=
  match x with
  | Some s => VStr s
  | None => VNull
  end.

Section AbsentModels.
(** [PlatformModel.updatePlatform] and [modifyImageName] belong to files
    that are not in the sources: the handler is given for whatever they
    do. *)
Variable PlatformModel_updatePlatform : string -> UpdateValues -> M (Client World) PgResult.
Variable modifyImageName : string -> option string -> string -> M (Client World) unit.

Definition updatePlatform (params_code : string) (updateValues : UpdateValues)
    (picture : option (list File)) : M (Client World) unit :=
  let code := toUpperCase params_code in
  if Nat.eqb (keys updateValues) 0
  then send (Json 400 "INVALID_INPUT" "No values to update")
  else
    try_catch
      (client_query pg "BEGIN" [] ;;;
       r <- PlatformModel_updatePlatform code updateValues ;;
       if Nat.eqb (rowCount r) 0 then
         send (Json 404 "RESOURCE_NOT_FOUND" "No platform found") ;;;
         client_query pg "ROLLBACK" [] ;;;
         ret tt
       else
         match picture with
         | Some picture =>
             ImageManager.deleteImage (VStr code) destFolderPlatform ;;;
             file <-
               match picture with
               | file :: _ => ret file
               | [] =>
                   throw (TypeError "Cannot read properties of undefined (reading 'buffer')")
               end ;;
             ImageManager.saveImageToPng (buffer file) (name_of (upd_code updateValues))
               destFolderPlatform
         | None =>
             if match upd_code updateValues with
                | Some c => negb (String.eqb code c)
                | None => true
                end
             then modifyImageName code (upd_code updateValues) destFolderPlatform
             else ret tt
         end ;;;
         client_query pg "COMMIT" [] ;;;
         send (SendStatus 204))
      (fun error =>
         client_query pg "ROLLBACK" [] ;;;
         if match error_code error with
            | Some c => String.eqb c UNIQUE_VIOLATION
            | None => false
            end
         then send (Json 409 "DUPLICATE_ENTRY" (error_detail error))
         else if includes (error_message error) "format"
         then send (Json 400 "INVALID_INPUT" "Invalid image format")
         else send (SendStatus 500)).
End AbsentModels.
End PlatformHandlers.

(** The store once one platform row is added. *)
Definition platform_added (code description abbreviation : string) (s : Store) : Store :=
  set_platforms s (push (platforms s) (mkPlatform code description abbreviation)).

Lemma saveImageToPng_at : forall s t f x image name dest,
  triple (at_state s t f x) (ImageManager.saveImageToPng image name dest)
    (fun _ w => at_state s t (put_artifact (dest, name) image f) x w)
    (fun _ w => kept s f x w).
Proof.
  intros s t f x image name dest c (Hc & Htx & Hf & Hr).
  unfold ImageManager.saveImageToPng.
  destruct (file_faults (db c)) as [|[e|] rest]; cbn [next_fault]; cbn;
    rewrite ?Hf; repeat split; assumption.
Qed.

Lemma createPlatform_accepted : forall code description abbreviation s a,
  fst (apply (CreatePlatform code description abbreviation) s) = inl a ->
  existsb (has_code code) (platforms s) = false
  /\ snd (apply (CreatePlatform code description abbreviation) s)
     = platform_added code description abbreviation s.
Proof.
  intros code description abbreviation s a H. cbn in *. fold (has_code code) in *.
  destruct (existsb (has_code code) (platforms s)); [discriminate|]. split; reflexivity.
Qed.

Section CreatePlatformRequest.
Variables (s : Store) (f : list (ArtifactKey * Image))
          (code description abbreviation : string) (image : Image).

(** Either the request answered 201, the code was free, the platform row
    is in and its image is stored; or it did not answer 201 and no row
    was added, while the image may have been written already. *)
Definition create_outcome (w : World) : Prop :=
  (response w = Some (SendStatus 201)
   /\ existsb (has_code code) (platforms s) = false
   /\ committed w = platform_added code description abbreviation s
   /\ files w = put_artifact (platform_key code) image f)
  \/ (response w <> Some (SendStatus 201)
      /\ committed w = s
      /\ (files w = f \/ files w = put_artifact (platform_key code) image f)).

(** No row was added and nothing was answered; the image may have been
    written. *)
Definition unfinished (x : option Response) (w : World) : Prop :=
  committed w = s /\ response w = x
  /\ (files w = f \/ files w = put_artifact (platform_key code) image f).

Lemma kept_unfinished : forall x w, kept s f x w -> unfinished x w.
Proof. intros x w (Hc & Hf & Hr). repeat split; auto. Qed.

Lemma unfinished_outcome : forall x w,
  x <> Some (SendStatus 201) -> unfinished x w -> create_outcome w.
Proof. intros x w Hx (Hc & Hr & Hf). right. repeat split; congruence. Qed.

Lemma rollback_unfinished :
  triple (unfinished None) (client_query pg "ROLLBACK" [])
    (fun _ w => unfinished None w) (fun _ w => unfinished None w).
Proof.
  eapply triple_query; [reflexivity|]. intros w a w' (Hc & Hr & Hf) Hrun.
  destruct (run_control ROLLBACK w a w' eq_refl Hrun) as (Hf' & Hr' & Hres).
  destruct a as [a|e]; destruct Hres as [Hc' Htx']; unfold unfinished;
    rewrite Hc', Hf', Hr'; auto.
Qed.

Lemma send_unfinished : forall x,
  x <> SendStatus 201 ->
  triple (unfinished None) (send x)
    (fun _ w => create_outcome w) (fun _ w => create_outcome w).
Proof.
  intros x Hx c (Hc & Hr & Hf). unfold send. rewrite Hr. cbn.
  right. split; [intros H; inversion H; contradiction|]. split; assumption.
Qed.

Lemma createPlatform_outcome : forall more,
  triple (at_state s None f None)
    (PlatformHandlers.createPlatform code description abbreviation
       (Some (mkFile image :: more)))
    (fun _ w => create_outcome w) (fun _ w => create_outcome w).
Proof.
  intros more. unfold PlatformHandlers.createPlatform.
  eapply triple_try_catch with (R := fun _ w => unfinished None w).
  - eapply triple_bind.
    { eapply triple_error; [apply (begin_at s f None)|].
      intros e w H. now apply kept_unfinished. }
    intros ?.
    eapply triple_bind with
      (R := fun _ w =>
              existsb (has_code code) (platforms s) = false
              /\ at_state s (Some (platform_added code description abbreviation s)) f None w).
    { unfold PlatformModel.createPlatform.
      eapply triple_error; [eapply triple_post|].
      - apply (statement_in_tx s f None (CreatePlatform code description abbreviation) s eq_refl).
      - intros res w [Ha H]. cbv beta.
        destruct (createPlatform_accepted _ _ _ _ _ Ha) as [Hfree Hs]. split; [exact Hfree|].
        now rewrite <- Hs.
      - intros e w H. now apply kept_unfinished. }
    intros ?. apply triple_bind_ret.
    eapply triple_bind with
      (R := fun _ w =>
              existsb (has_code code) (platforms s) = false
              /\ at_state s (Some (platform_added code description abbreviation s))
                   (put_artifact (platform_key code) image f) None w).
    { cbn [buffer].
      intros c [Hfree H].
      pose proof (saveImageToPng_at _ _ _ _ image (VStr code) destFolderPlatform c H) as Hsave.
      destruct (ImageManager.saveImageToPng image (VStr code) destFolderPlatform c)
        as [[u|e] c']; [split; [exact Hfree|exact Hsave]|].
      now apply kept_unfinished. }
    intros ?.
    eapply triple_bind with
      (R := fun _ w =>
              existsb (has_code code) (platforms s) = false
              /\ at_state (platform_added code description abbreviation s) None
                   (put_artifact (platform_key code) image f) None w).
    { intros c [Hfree H].
      pose proof (commit_at s (put_artifact (platform_key code) image f) None _ c H) as Hcommit.
      destruct (client_query pg "COMMIT" [] c) as [[u|e] c']; [split; assumption|].
      destruct Hcommit as (Hc & Hf & Hr). repeat split; auto. }
    intros ? c [Hfree (Hc & Htx & Hf & Hr)]. unfold send. rewrite Hr. cbn.
    left. repeat split; assumption.
  - intros e.
    eapply triple_bind with (R := fun _ w => unfinished None w).
    + eapply triple_error; [apply rollback_unfinished|].
      intros e' w H. eapply unfinished_outcome; [|exact H]. discriminate.
    + intros ?.
      destruct (match error_code e with
                | Some c => String.eqb c UNIQUE_VIOLATION
                | None => false
                end); [apply send_unfinished; discriminate|].
      destruct (includes (error_message e) "format"); apply send_unfinished; discriminate.
Qed.
End CreatePlatformRequest.

Lemma createPlatform_run : forall s f code description abbreviation image more,
  existsb (has_code code) (platforms s) = false ->
  after (PlatformHandlers.createPlatform code description abbreviation
           (Some (mkFile image :: more)))
    (initial_world s f [] [])
  = mkWorld (platform_added code description abbreviation s) None []
      (put_artifact (platform_key code) image f) []
      [Sql BEGIN true; Sql (CreatePlatform code description abbreviation) true;
       SaveImage (platform_key code) true; Sql COMMIT true; Responded (SendStatus 201)]
      (Some (SendStatus 201)).
Proof.
  intros s f code description abbreviation image more Hfree.
  unfold after, PlatformHandlers.createPlatform, try_catch, bind,
    PlatformModel.createPlatform, statement, client_query, pg, initial_world,
    ImageManager.saveImageToPng, send.
  cbn. fold (has_code code). rewrite Hfree. cbn. reflexivity.
Qed.

(** X18.  Whatever statements or image writes fail, [createPlatform]
    adds its row all or nothing: either it answers 201, the code was
    free, exactly the platform row is added and the image is stored under
    the code; or it does not answer 201 and no row is added.  In the
    second case the image may already be stored: the write comes before
    the [COMMIT] and is not undone. *)
Theorem createPlatform_all_or_nothing :
  forall (s : Store) (f : list (ArtifactKey * Image))
         (db_faults file_faults : list (option JsError))
         (code description abbreviation : string) (image : Image) (more : list File),
    (response
       (after (PlatformHandlers.createPlatform code description abbreviation
                 (Some (mkFile image :: more)))
          (initial_world s f db_faults file_faults)) = Some (SendStatus 201)
     /\ existsb (has_code code) (platforms s) = false
     /\ committed
          (after (PlatformHandlers.createPlatform code description abbreviation
                    (Some (mkFile image :: more)))
             (initial_world s f db_faults file_faults))
        = platform_added code description abbreviation s
     /\ files
          (after (PlatformHandlers.createPlatform code description abbreviation
                    (Some (mkFile image :: more)))
             (initial_world s f db_faults file_faults))
        = put_artifact (platform_key code) image f)
    \/ (response
          (after (PlatformHandlers.createPlatform code description abbreviation
                    (Some (mkFile image :: more)))
             (initial_world s f db_faults file_faults)) <> Some (SendStatus 201)
        /\ committed
             (after (PlatformHandlers.createPlatform code description abbreviation
                       (Some (mkFile image :: more)))
                (initial_world s f db_faults file_faults)) = s
        /\ (files
              (after (PlatformHandlers.createPlatform code description abbreviation
                        (Some (mkFile image :: more)))
                 (initial_world s f db_faults file_faults)) = f
            \/ files
                 (after (PlatformHandlers.createPlatform code description abbreviation
                           (Some (mkFile image :: more)))
                    (initial_world s f db_faults file_faults))
               = put_artifact (platform_key code) image f)).
Proof.
  intros s f dbf ff code description abbreviation image more. unfold after.
  pose proof (createPlatform_outcome s f code description abbreviation image more
                (mkClient (initial_world s f dbf ff) []) (at_state_initial s f dbf ff)) as H.
  destruct (PlatformHandlers.createPlatform code description abbreviation
              (Some (mkFile image :: more)) (mkClient (initial_world s f dbf ff) []))
    as [[[]|e] c']; exact H.
Qed.

(** X19.  [createPlatform] without failing statement: a free code gives
    201, the platform row and its image; a code that is taken gives 409
    DUPLICATE_ENTRY, no row and no image; an image the writer refuses for
    its format gives 400 INVALID_INPUT and no row; and without an
    uploaded picture the handler answers 400 before any statement. *)
Theorem createPlatform_answers :
  forall (s : Store) (f : list (ArtifactKey * Image))
         (code description abbreviation : string) (image : Image) (more : list File),
    (existsb (has_code code) (platforms s) = false ->
     after (PlatformHandlers.createPlatform code description abbreviation
              (Some (mkFile image :: more)))
       (initial_world s f [] [])
     = mkWorld (platform_added code description abbreviation s) None []
         (put_artifact (platform_key code) image f) []
         [Sql BEGIN true; Sql (CreatePlatform code description abbreviation) true;
          SaveImage (platform_key code) true; Sql COMMIT true; Responded (SendStatus 201)]
         (Some (SendStatus 201)))
    /\ (existsb (has_code code) (platforms s) = true ->
        exists detail,
          after (PlatformHandlers.createPlatform code description abbreviation
                   (Some (mkFile image :: more)))
            (initial_world s f [] [])
          = mkWorld s None [] f []
              [Sql BEGIN true; Sql (CreatePlatform code description abbreviation) false;
               Sql ROLLBACK true; Responded (Json 409 "DUPLICATE_ENTRY" detail)]
              (Some (Json 409 "DUPLICATE_ENTRY" detail)))
    /\ (existsb (has_code code) (platforms s) = false ->
        forall e,
          error_code e = None -> includes (error_message e) "format" = true ->
          after (PlatformHandlers.createPlatform code description abbreviation
                   (Some (mkFile image :: more)))
            (initial_world s f [] [Some e])
          = mkWorld s None [] f []
              [Sql BEGIN true; Sql (CreatePlatform code description abbreviation) true;
               SaveImage (platform_key code) false; Sql ROLLBACK true;
               Responded (Json 400 "INVALID_INPUT" "Invalid image format")]
              (Some (Json 400 "INVALID_INPUT" "Invalid image format")))
    /\ (forall db_faults file_faults,
          after (PlatformHandlers.createPlatform code description abbreviation None)
            (initial_world s f db_faults file_faults)
          = mkWorld s None db_faults f file_faults
              [Responded (Json 400 "INVALID_INPUT" "No picture")]
              (Some (Json 400 "INVALID_INPUT" "No picture"))).
Proof.
  intros s f code description abbreviation image more.
  split; [|split; [|split]].
  - intros Hfree. now apply createPlatform_run.
  - intros Htaken. eexists.
    unfold after, PlatformHandlers.createPlatform, try_catch, bind,
      PlatformModel.createPlatform, statement, client_query, pg, initial_world,
      ImageManager.saveImageToPng, send.
    cbn. fold (has_code code). rewrite Htaken. cbn. reflexivity.
  - intros Hfree e Hcode Hformat.
    unfold after, PlatformHandlers.createPlatform, try_catch, bind,
      PlatformModel.createPlatform, statement, client_query, pg, initial_world,
      ImageManager.saveImageToPng, send.
    cbn. fold (has_code code). rewrite Hfree. cbn. rewrite Hcode, Hformat. reflexivity.
  - intros dbf ff. reflexivity.
Qed.

Lemma filter_all_in : forall (A : Type) (p : A -> bool) l,
  (forall x, In x l -> p x = true) -> filter p l = l.
Proof.
  intros A p l H. induction l as [|x l IH]; [reflexivity|].
  cbn [filter]. rewrite (H x (or_introl eq_refl)). f_equal.
  apply IH. intros y Hy. apply H. now right.
Qed.

Lemma existsb_false_in : forall (A : Type) (p : A -> bool) l x,
  existsb p l = false -> In x l -> p x = false.
Proof.
  intros A p l x H Hin. destruct (p x) eqn:Hp; [|reflexivity].
  assert (He : existsb p l = true) by (apply existsb_exists; eauto). congruence.
Qed.

Lemma key_eqb_refl : forall k, key_eqb k k = true.
Proof.
  intros [d [z|n|b|]]; unfold key_eqb; cbn; rewrite String.eqb_refl; cbn;
    auto using Z.eqb_refl, String.eqb_refl, Bool.eqb_reflx.
Qed.

Lemma remove_put_artifact : forall k i fs,
  remove_artifact k (put_artifact k i fs) = remove_artifact k fs.
Proof.
  intros k i fs. unfold put_artifact, remove_artifact, push.
  rewrite filter_app. cbn [filter fst]. rewrite key_eqb_refl. cbn [negb].
  rewrite app_nil_r, filter_filter. apply filter_ext. intros x.
  now destruct (negb (key_eqb (fst x) k)).
Qed.

Lemma without_added_platform : forall s code description abbreviation,
  referential_integrity s = true ->
  existsb (has_code code) (platforms s) = false ->
  without_platform code (platform_added code description abbreviation s) = s.
Proof.
  intros s code description abbreviation Hri Hfree.
  pose proof (no_publication_of_missing_platform s code Hri Hfree) as Hnone.
  unfold without_platform, publication_ids_of_platform, platform_added.
  cbn [publications set_platforms]. rewrite Hnone. cbn [map].
  rewrite without_publications_nil. unfold set_platforms, push. cbn.
  rewrite filter_app. cbn [filter pf_code]. rewrite String.eqb_refl. cbn [negb].
  rewrite app_nil_r.
  rewrite filter_all_in.
  - now destruct s.
  - intros x Hin. apply negb_true_iff. exact (existsb_false_in _ _ _ x Hfree Hin).
Qed.

(** X20.  Creating a platform and then deleting it, in any letter case
    of its code, is a round trip: in a store where every publication
    refers to an existing video game and platform, after [createPlatform]
    of a free code and [deletePlatform] of a code that is the same in
    upper case, both answered with success, the committed rows are those
    before the creation and no image is stored under the code. *)
Theorem createPlatform_then_deletePlatform :
  forall (s : Store) (f : list (ArtifactKey * Image))
         (code description abbreviation : string) (image : Image) (more : list File)
         (params_code : string),
    referential_integrity s = true ->
    existsb (has_code code) (platforms s) = false ->
    toUpperCase params_code = code ->
    response
      (after (PlatformHandlers.createPlatform code description abbreviation
                (Some (mkFile image :: more)))
         (initial_world s f [] [])) = Some (SendStatus 201)
    /\ after (deletePlatform params_code)
         (initial_world
            (committed
               (after (PlatformHandlers.createPlatform code description abbreviation
                         (Some (mkFile image :: more)))
                  (initial_world s f [] [])))
            (files
               (after (PlatformHandlers.createPlatform code description abbreviation
                         (Some (mkFile image :: more)))
                  (initial_world s f [] [])))
            [] [])
       = mkWorld s None [] (remove_artifact (platform_key code) f) []
           [Sql BEGIN true; Sql (GetPublicationsOfPlatform code) true;
            Sql (DeletePlatform code) true; Sql COMMIT true;
            DeleteImage (platform_key code); Responded (SendStatus 204)]
           (Some (SendStatus 204)).
Proof.
  intros s f code description abbreviation image more params_code Hri Hfree Hcode.
  rewrite (createPlatform_run s f code description abbreviation image more Hfree).
  cbn [response committed files]. split; [reflexivity|].
  assert (Hthere : existsb (has_code (toUpperCase params_code))
                     (platforms (platform_added code description abbreviation s)) = true).
  { rewrite Hcode. unfold platform_added, set_platforms, push. cbn [platforms].
    rewrite existsb_app. cbn [existsb]. unfold has_code at 2. cbn [pf_code].
    rewrite String.eqb_refl. now rewrite orb_true_r. }
  rewrite (deletePlatform_run _ _ [] params_code Hthere I). rewrite Hcode. cbn [tl].
  rewrite (without_added_platform s code description abbreviation Hri Hfree).
  rewrite remove_put_artifact.
  pose proof (no_publication_of_missing_platform s code Hri Hfree) as Hnone.
  unfold publication_ids_of_platform, platform_added. cbn [publications set_platforms].
  rewrite Hnone. reflexivity.
Qed.

Lemma createPlatform_then_deletePlatform_witness :
  referential_integrity example_store = true
  /\ existsb (has_code "SWITCH") (platforms example_store) = false
  /\ toUpperCase "switch" = "SWITCH"
  /\ committed
       (after (deletePlatform "switch")
          (initial_world
             (committed
                (after (PlatformHandlers.createPlatform "SWITCH" "Nintendo Switch" "NSW"
                          (Some [mkFile "switch.png"]))
                   (initial_world example_store example_files [] [])))
             (files
                (after (PlatformHandlers.createPlatform "SWITCH" "Nintendo Switch" "NSW"
                          (Some [mkFile "switch.png"]))
                   (initial_world example_store example_files [] [])))
             [] []))
     = example_store.
Proof.
  assert (H1 : referential_integrity example_store = true) by reflexivity.
  assert (H2 : existsb (has_code "SWITCH") (platforms example_store) = false) by reflexivity.
  assert (H3 : toUpperCase "switch" = "SWITCH") by reflexivity.
  repeat (split; [assumption|]).
  rewrite (proj2 (createPlatform_then_deletePlatform example_store example_files
                    "SWITCH" "Nintendo Switch" "NSW" "switch.png" [] "switch" H1 H2 H3)).
  reflexivity.
Defined.

(** [updatePlatform] with a body that carries no field answers 400
    INVALID_INPUT "No values to update" before it sends any statement or
    touches any artifact, whatever the platform model and the image
    manager do and whether or not a picture is uploaded. *)
Lemma updatePlatform_without_values :
  forall (PlatformModel_updatePlatform :
            string -> PlatformHandlers.UpdateValues -> M (Client World) PgResult)
         (modifyImageName : string -> option string -> string -> M (Client World) unit)
         (s : Store) (f : list (ArtifactKey * Image))
         (db_faults file_faults : list (option JsError))
         (params_code : string) (picture : option (list File)),
    PlatformHandlers.updatePlatform PlatformModel_updatePlatform modifyImageName params_code
      {| PlatformHandlers.upd_code := None;
         PlatformHandlers.upd_description := None;
         PlatformHandlers.upd_abbreviation := None |}
      picture (mkClient (initial_world s f db_faults file_faults) [])
    = (inl tt,
       mkClient
         (mkWorld s None db_faults f file_faults
            [Responded (Json 400 "INVALID_INPUT" "No values to update")]
            (Some (Json 400 "INVALID_INPUT" "No values to update")))
         []).
Proof. reflexivity. Qed.

(** X21.  [createPlatformWithNewVideoGames] checks the uploaded files
    before it sends any statement: without a platform picture it answers
    400 "No picture for the platform"; with one, but without exactly one
    picture per video game, it answers 400 "No picture for one or many
    video game(s)".  Neither a row nor an artifact is touched, whatever
    the two undeclared identifiers stand for. *)
Theorem createPlatformWithNewVideoGames_checks_pictures :
  forall (scope : Scope) (s : Store) (f : list (ArtifactKey * Image))
         (db_faults file_faults : list (option JsError))
         (code description abbreviation : string) (videoGames : list NewVideoGame)
         (pictures : option (list File)),
    (forall platformPicture,
       platformPicture = None \/ platformPicture = Some [] ->
       after (createPlatformWithNewVideoGames scope code description abbreviation videoGames
                (mkFiles platformPicture pictures))
         (initial_world s f db_faults file_faults)
       = mkWorld s None db_faults f file_faults
           [Responded (Json 400 "INVALID_INPUT" "No picture for the platform")]
           (Some (Json 400 "INVALID_INPUT" "No picture for the platform")))
    /\ (forall picture more,
          match pictures with
          | Some l => List.length l <> List.length videoGames
          | None => True
          end ->
          after (createPlatformWithNewVideoGames scope code description abbreviation videoGames
                   (mkFiles (Some (picture :: more)) pictures))
            (initial_world s f db_faults file_faults)
          = mkWorld s None db_faults f file_faults
              [Responded (Json 400 "INVALID_INPUT" "No picture for one or many video game(s)")]
              (Some (Json 400 "INVALID_INPUT" "No picture for one or many video game(s)"))).
Proof.
  intros scope s f dbf ff code description abbreviation videoGames pictures. split.
  - intros platformPicture [H|H]; subst; reflexivity.
  - intros picture more H.
    unfold after, createPlatformWithNewVideoGames. cbn [platformPicture files_videoGamesPictures].
    destruct pictures as [l|]; [|reflexivity].
    apply Nat.eqb_neq in H. rewrite H. reflexivity.
Qed.

(** ** controller/videoGame.js, the lookup handler *)
Module VideoGameHandlers.

Inductive Reply : Type :=
| ReplyJson (body : list Row)                (* res.json(rows) *)
| ReplySend (status : nat) (text : string).  (* res.status(s).send(text) *)

Section WithClient.
Context {Db : Type} (backend : Backend Db).

(** [getVideoGame] once [req.query] has passed the schema, which yields
    [id] and [name]. *)
Definition getVideoGame (id : option Value) (name : option string) : M (Client Db) Reply :=
  try_catch
    (r <- VideoGameModel.getVideoGames backend id name None None ;;
     let videoGames := rows r in
     if Nat.eqb (List.length videoGames) 0
     then ret (ReplySend 404 "No video game found")
     else ret (ReplyJson videoGames))
    (fun _ => ret (ReplySend 500 "Internal Server Error")).

End WithClient.
End VideoGameHandlers.

(** X22.  The lookup handler [getVideoGame] never paginates: it answers
    with every video game that passes the filters on [id] and [name], in
    scan order, and with 404 "No video game found" exactly when there is
    none; it sends one statement. *)
Theorem getVideoGame_returns_every_match :
  forall (d : Database) (id : option Value) (name : option string),
    fst (VideoGameHandlers.getVideoGame select_backend id name (mkClient d []))
    = inl (match matching_video_games id name d with
           | [] => VideoGameHandlers.ReplySend 404 "No video game found"
           | found => VideoGameHandlers.ReplyJson found
           end)
    /\ List.length
         (sent (snd (VideoGameHandlers.getVideoGame select_backend id name (mkClient d []))))
       = 1.
Proof.
  intros d id name.
  pose proof (getVideoGames_unpaginated d id name None None (or_introl eq_refl)) as H.
  unfold lookup in H.
  unfold VideoGameHandlers.getVideoGame, try_catch, bind.
  assert (Hsent : forall c,
            sent (snd (VideoGameModel.getVideoGames select_backend id name None None c))
            = push (sent c)
                (VideoGameModel.getVideoGames_statement id name None None)).
  { intros c. unfold VideoGameModel.getVideoGames.
    destruct (VideoGameModel.getVideoGames_statement id name None None) as [q v].
    unfold client_query. destruct (select_backend q v (db c)). reflexivity. }
  specialize (Hsent (mkClient d [])).
  destruct (VideoGameModel.getVideoGames select_backend id name None None (mkClient d []))
    as [[r|e] c']; [|discriminate].
  cbn [fst snd] in *. injection H as H. rewrite H.
  destruct (matching_video_games id name d); cbn; rewrite Hsent; split; reflexivity.
Qed.

(* ================================================================= *)
(** * Part VI.  Referential integrity *)

(** ** Foreign keys

    A publication refers to a video game and to a platform; a game row
    refers to a publication and to a user; a category link refers to a
    video game. *)
Definition publication_sound (s : Store) (p : Publication) : bool :=
  existsb (fun v => Z.eqb (vg_id v) (pub_video_game_id p)) (video_games s)
  && existsb (fun q => String.eqb (pf_code q) (pub_platform_code p)) (platforms s).

Definition game_sound (s : Store) (g : Game) : bool :=
  existsb (fun p => Z.eqb (pub_id p) (game_publication_id g)) (publications s)
  && existsb (fun u => Z.eqb (user_id u) (game_user_id g)) (users s).

Definition link_sound (s : Store) (l : CategoryLink) : bool :=
  existsb (fun v => Z.eqb (vg_id v) (cl_video_game_id l)) (video_games s).

(** Every foreign key of the store refers to a row of the store. *)
Definition integrity (s : Store) : bool :=
  forallb (publication_sound s) (publications s)
  && forallb (game_sound s) (games s)
  && forallb (link_sound s) (category_links s).

Lemma integrity_spec : forall s,
  integrity s = true <->
  (forall p, In p (publications s) -> publication_sound s p = true)
  /\ (forall g, In g (games s) -> game_sound s g = true)
  /\ (forall l, In l (category_links s) -> link_sound s l = true).
Proof.
  intros s. unfold integrity. rewrite !andb_true_iff, !forallb_forall. tauto.
Qed.

Lemma existsb_filter_keeps : forall (A : Type) (p keep : A -> bool) l,
  existsb p l = true ->
  (forall x, In x l -> p x = true -> keep x = true) ->
  existsb p (filter keep l) = true.
Proof.
  intros A p keep l H Hk. apply existsb_exists in H as [x [Hin Hp]].
  apply existsb_exists. exists x. split; [|exact Hp].
  apply filter_In. split; [exact Hin|]. now apply Hk.
Qed.

(** ** What each statement of a cascade needs to keep the foreign keys *)

Lemma delete_games_sound : forall s keep,
  integrity s = true ->
  integrity (set_games s (filter keep (games s))) = true.
Proof.
  intros s keep H. apply integrity_spec in H as (Hp & Hg & Hl). apply integrity_spec.
  cbn. repeat split; auto.
  intros g Hin. apply filter_In in Hin as [Hin _]. exact (Hg g Hin).
Qed.

Lemma delete_publication_sound : forall s id,
  integrity s = true ->
  (forall g, In g (games s) -> game_publication_id g <> id) ->
  integrity (set_publications s
               (filter (fun x => negb (Z.eqb (pub_id x) id)) (publications s))) = true.
Proof.
  intros s id H Hfree. apply integrity_spec in H as (Hp & Hg & Hl). apply integrity_spec.
  cbn. repeat split; auto.
  - intros p Hin. apply filter_In in Hin as [Hin _]. exact (Hp p Hin).
  - intros g Hin. specialize (Hg g Hin). unfold game_sound in *. cbn.
    apply andb_true_iff in Hg as [Hpub Huser]. rewrite Huser, andb_true_r.
    apply existsb_filter_keeps; [exact Hpub|].
    intros x _ Hx. apply Z.eqb_eq in Hx. apply negb_true_iff. apply Z.eqb_neq.
    rewrite Hx. now apply Hfree.
Qed.

Lemma delete_links_sound : forall s keep,
  integrity s = true ->
  integrity (set_category_links s (filter keep (category_links s))) = true.
Proof.
  intros s keep H. apply integrity_spec in H as (Hp & Hg & Hl). apply integrity_spec.
  cbn. repeat split; auto.
  intros l Hin. apply filter_In in Hin as [Hin _]. exact (Hl l Hin).
Qed.

Lemma delete_video_game_sound : forall s id,
  integrity s = true ->
  (forall p, In p (publications s) -> pub_video_game_id p <> id) ->
  (forall l, In l (category_links s) -> cl_video_game_id l <> id) ->
  integrity (set_video_games s
               (filter (fun v => negb (Z.eqb (vg_id v) id)) (video_games s))) = true.
Proof.
  intros s id H Hpubs Hlinks.
  apply integrity_spec in H as (Hp & Hg & Hl). apply integrity_spec.
  cbn. repeat split; auto.
  - intros p Hin. specialize (Hp p Hin). unfold publication_sound in *. cbn.
    apply andb_true_iff in Hp as [Hv Hq]. rewrite Hq, andb_true_r.
    apply existsb_filter_keeps; [exact Hv|].
    intros x _ Hx. apply Z.eqb_eq in Hx. apply negb_true_iff. apply Z.eqb_neq.
    rewrite Hx. now apply Hpubs.
  - intros l Hin. specialize (Hl l Hin). unfold link_sound in *. cbn.
    apply existsb_filter_keeps; [exact Hl|].
    intros x _ Hx. apply Z.eqb_eq in Hx. apply negb_true_iff. apply Z.eqb_neq.
    rewrite Hx. now apply Hlinks.
Qed.

Lemma delete_platform_sound : forall s code,
  integrity s = true ->
  (forall p, In p (publications s) -> pub_platform_code p <> code) ->
  integrity (set_platforms s
               (filter (fun p => negb (String.eqb (pf_code p) code)) (platforms s))) = true.
Proof.
  intros s code H Hpubs.
  apply integrity_spec in H as (Hp & Hg & Hl). apply integrity_spec.
  cbn. repeat split; auto.
  intros p Hin. specialize (Hp p Hin). unfold publication_sound in *. cbn.
  apply andb_true_iff in Hp as [Hv Hq]. rewrite Hv. cbn [andb].
  apply existsb_filter_keeps; [exact Hq|].
  intros x _ Hx. apply String.eqb_eq in Hx. apply negb_true_iff. apply String.eqb_neq.
  rewrite Hx. now apply Hpubs.
Qed.

Lemma delete_user_sound : forall s id,
  integrity s = true ->
  (forall g, In g (games s) -> game_user_id g <> id) ->
  integrity (set_users s (filter (fun u => negb (Z.eqb (user_id u) id)) (users s))) = true.
Proof.
  intros s id H Hfree. apply integrity_spec in H as (Hp & Hg & Hl). apply integrity_spec.
  cbn. repeat split; auto.
  intros g Hin. specialize (Hg g Hin). unfold game_sound in *. cbn.
  apply andb_true_iff in Hg as [Hpub Huser]. rewrite Hpub. cbn [andb].
  apply existsb_filter_keeps; [exact Huser|].
  intros x _ Hx. apply Z.eqb_eq in Hx. apply negb_true_iff. apply Z.eqb_neq.
  rewrite Hx. now apply Hfree.
Qed.

(** ** One statement on the store the connection works on *)

(** A data statement that succeeds replaces the store the connection
    works on by its result, and the committed rows are then either those
    of before or that result; one that fails changes neither. *)
Lemma run_working : forall st w r w',
  is_control st = false -> run st w = (r, w') ->
  match r with
  | inl a =>
      fst (apply st (working w)) = inl a
      /\ working w' = snd (apply st (working w))
      /\ (committed w' = committed w \/ committed w' = working w')
  | inr _ => working w' = working w /\ committed w' = committed w
  end.
Proof.
  intros st w r w' Hst Hrun. unfold working. destruct (tx w) as [t|] eqn:Htx.
  - destruct (run_in_transaction st w t r w' Hst Htx Hrun) as (Hc & _ & _ & Hres).
    destruct r as [a|e].
    + destruct Hres as [Ha Htx']. rewrite Htx'. auto.
    + rewrite Hres. auto.
  - destruct (run_autocommit st w r w' Hst Htx Hrun) as (Htx' & _ & _ & Hres).
    rewrite Htx'. destruct r as [a|e].
    + destruct Hres as [Ha Hc]. auto.
    + auto.
Qed.

(** [BEGIN] keeps the store the connection works on and the committed
    rows; after [COMMIT] and [ROLLBACK] both are among those of before. *)
Lemma run_control_working : forall st w r w',
  is_control st = true -> run st w = (r, w') ->
  (committed w' = committed w \/ committed w' = working w)
  /\ (working w' = working w \/ working w' = committed w)
  /\ (st = BEGIN -> working w' = working w /\ committed w' = committed w).
Proof.
  intros st w r w' Hst Hrun.
  destruct (run_control st w r w' Hst Hrun) as (_ & _ & Hres).
  unfold working in *. destruct r as [a|e].
  - destruct st; try discriminate; destruct Hres as [Hc Htx]; rewrite Hc, Htx;
      destruct (tx w); repeat split; auto; try discriminate.
  - destruct Hres as [Hc Htx]. rewrite Hc, Htx. repeat split; auto.
Qed.

(** ** The invariant of a cascade *)

(** The committed rows and the rows the connection works on both keep
    their foreign keys. *)
Definition sound (w : World) : Prop :=
  integrity (committed w) = true /\ integrity (working w) = true.

Lemma sound_initial : forall s f dbf ff,
  integrity s = true -> sound (initial_world s f dbf ff).
Proof. intros s f dbf ff H. split; exact H. Qed.

Lemma control_sound : forall text st,
  decode text [] = Some st -> is_control st = true ->
  triple sound (client_query pg text []) (fun _ w => sound w) (fun _ w => sound w).
Proof.
  intros text st Hd Hst. eapply triple_query; [exact Hd|]. intros w a w' [Hc Hw] Hrun.
  destruct (run_control_working st w a w' Hst Hrun) as ([Hc'|Hc'] & [Hw'|Hw'] & _);
    assert (Hs : sound w') by (split; congruence); destruct a; exact Hs.
Qed.

Lemma send_sound : forall (P : World -> Prop) x,
  (forall w y, P w ->
     P (mkWorld (committed w) (tx w) (db_faults w) (files w) (file_faults w)
          (push (trace w) (Responded x)) y)) ->
  triple P (send x) (fun _ w => P w) (fun _ w => P w).
Proof.
  intros P x HP c H. unfold send. destruct (response (db c)); cbn; [exact H|].
  now apply HP.
Qed.

Lemma send_keeps_sound : forall x,
  triple sound (send x) (fun _ w => sound w) (fun _ w => sound w).
Proof. intros x. apply send_sound. intros w y H. exact H. Qed.

Lemma triple_exists : forall (A X : Type) (P : X -> World -> Prop) (m : M (Client World) A) Q E,
  (forall x, triple (P x) m Q E) -> triple (fun w => exists x, P x w) m Q E.
Proof. intros A X P m Q E H c [x Hx]. exact (H x c Hx). Qed.

Lemma triple_pure : forall (A : Type) (fact : Prop) (P : World -> Prop)
    (m : M (Client World) A) Q E,
  (fact -> triple P m Q E) -> triple (fun w => fact /\ P w) m Q E.
Proof. intros A fact P m Q E H c [Hf HP]. exact (H Hf c HP). Qed.

Section Steps.
Variables (P : Store -> Prop) (Q : PgResult -> Store -> Prop) (st : Stmt).
Hypothesis data : is_control st = false.
Hypothesis step : forall s a,
  integrity s = true -> P s -> fst (apply st s) = inl a ->
  integrity (snd (apply st s)) = true /\ Q a (snd (apply st s)).

Lemma run_sound : forall w r w',
  sound w -> P (working w) -> run st w = (r, w') ->
  match r with
  | inl a => sound w' /\ Q a (working w')
  | inr _ => sound w'
  end.
Proof.
  intros w r w' [Hc Hw] HP Hrun.
  pose proof (run_working st w r w' data Hrun) as H. destruct r as [a|e].
  - destruct H as (Ha & Hw' & Hc'). destruct (step _ a Hw HP Ha) as [Hi HQ].
    rewrite <- Hw' in Hi, HQ. split; [|exact HQ].
    split; [|exact Hi]. destruct Hc' as [Hc'|Hc']; congruence.
  - destruct H as [Hw' Hc']. split; congruence.
Qed.

Lemma statement_sound :
  triple (fun w => sound w /\ P (working w)) (statement st)
    (fun a w => sound w /\ Q a (working w)) (fun _ w => sound w).
Proof.
  apply triple_statement. intros w r w' [Hs HP] Hrun.
  exact (run_sound w r w' Hs HP Hrun).
Qed.

Lemma query_sound : forall text params,
  decode text params = Some st ->
  triple (fun w => sound w /\ P (working w)) (client_query pg text params)
    (fun a w => sound w /\ Q a (working w)) (fun _ w => sound w).
Proof.
  intros text params Hd. eapply triple_query; [exact Hd|]. intros w r w' [Hs HP] Hrun.
  exact (run_sound w r w' Hs HP Hrun).
Qed.
End Steps.

(** [BEGIN], awaited or not, keeps what is known of the store the
    connection works on. *)
Lemma begin_keeps : forall (P : Store -> Prop),
  triple (fun w => sound w /\ P (working w)) (client_query pg "BEGIN" [])
    (fun _ w => sound w /\ P (working w)) (fun _ w => sound w /\ P (working w)).
Proof.
  intros P. eapply triple_query; [reflexivity|]. intros w a w' [[Hc Hw] HP] Hrun.
  destruct (run_control_working BEGIN w a w' eq_refl Hrun) as (_ & _ & Hb).
  destruct (Hb eq_refl) as [Hw' Hc'].
  assert (H : sound w' /\ P (working w')).
  { split; [split|]; congruence. }
  destruct a; exact H.
Qed.

(** ** The publication loop *)

(** Every publication of the store that [chosen] selects has its id in
    [ids]. *)
Definition covered (chosen : Publication -> bool) (ids : list Z) (s : Store) : Prop :=
  forall p, In p (publications s) -> chosen p = true -> In (pub_id p) ids.

Definition none_chosen (chosen : Publication -> bool) (s : Store) : Prop :=
  forall p, In p (publications s) -> chosen p = false.

Lemma delete_games_step : forall chosen id ids s a,
  integrity s = true -> covered chosen (id :: ids) s ->
  fst (apply (DeleteGamesFromPublication id) s) = inl a ->
  integrity (snd (apply (DeleteGamesFromPublication id) s)) = true
  /\ (covered chosen (id :: ids) (snd (apply (DeleteGamesFromPublication id) s))
      /\ forall g, In g (games (snd (apply (DeleteGamesFromPublication id) s))) ->
                   game_publication_id g <> id).
Proof.
  intros chosen id ids s a Hi Hc _. cbn [apply snd]. split; [now apply delete_games_sound|].
  split; [exact Hc|].
  intros g Hin. cbn in Hin. apply filter_In in Hin as [_ Hg].
  apply negb_true_iff in Hg. now apply Z.eqb_neq.
Qed.

Lemma delete_publication_step : forall chosen id ids s a,
  integrity s = true ->
  (covered chosen (id :: ids) s /\ forall g, In g (games s) -> game_publication_id g <> id) ->
  fst (apply (DeletePublication id) s) = inl a ->
  integrity (snd (apply (DeletePublication id) s)) = true
  /\ covered chosen ids (snd (apply (DeletePublication id) s)).
Proof.
  intros chosen id ids s a Hi [Hc Hfree] _. cbn [apply snd].
  split; [now apply delete_publication_sound|].
  intros p Hin Hp. cbn in Hin. apply filter_In in Hin as [Hin Hne].
  apply negb_true_iff in Hne. apply Z.eqb_neq in Hne.
  destruct (Hc p Hin Hp) as [Heq|Hrest]; [congruence|exact Hrest].
Qed.

Lemma delete_publications_sound : forall chosen pubs,
  triple (fun w => sound w /\ covered chosen (map pub_id pubs) (working w))
    (for_of (map publication_row pubs) delete_publication)
    (fun _ w => sound w /\ none_chosen chosen (working w))
    (fun _ w => sound w).
Proof.
  intros chosen pubs. induction pubs as [|p pubs IH].
  - intros c [Hs Hc]. cbn. split; [exact Hs|].
    intros q Hin. destruct (chosen q) eqn:Hq; [|reflexivity].
    destruct (Hc q Hin Hq).
  - cbn [map for_of].
    eapply triple_bind; [|intros u; exact IH].
    unfold delete_publication. cbn [get field publication_row String.eqb Ascii.eqb Bool.eqb].
    unfold GameModel.deleteGamesFromPublication, PublicationModel.deletePublication.
    eapply triple_bind.
    { apply (statement_sound
               (covered chosen (pub_id p :: map pub_id pubs))
               (fun _ s => covered chosen (pub_id p :: map pub_id pubs) s
                           /\ forall g, In g (games s) -> game_publication_id g <> pub_id p)
               (DeleteGamesFromPublication (pub_id p)) eq_refl).
      intros s a. apply delete_games_step. }
    intros a.
    eapply triple_bind.
    { apply (statement_sound
               (fun s => covered chosen (pub_id p :: map pub_id pubs) s
                         /\ forall g, In g (games s) -> game_publication_id g <> pub_id p)
               (fun _ s => covered chosen (map pub_id pubs) s)
               (DeletePublication (pub_id p)) eq_refl).
      intros s b. apply delete_publication_step. }
    intros b c H. exact H.
Qed.

Lemma lookup_covered : forall (chosen : Publication -> bool) (rs : list Row) (s : Store),
  rs = map publication_row (filter chosen (publications s)) ->
  exists pubs, rs = map publication_row pubs /\ covered chosen (map pub_id pubs) s.
Proof.
  intros chosen rs s H. exists (filter chosen (publications s)). split; [exact H|].
  intros p Hin Hp. apply in_map. apply filter_In. now split.
Qed.

(** The loop over the rows of a lookup that selected the publications
    [chosen] picks. *)
Lemma delete_looked_up_sound : forall chosen (rs : list Row),
  triple (fun w => sound w
                   /\ rs = map publication_row (filter chosen (publications (working w))))
    (for_of rs delete_publication)
    (fun _ w => sound w /\ none_chosen chosen (working w))
    (fun _ w => sound w).
Proof.
  intros chosen rs.
  apply triple_pre with
    (P' := fun w => exists pubs,
             rs = map publication_row pubs
             /\ (sound w /\ covered chosen (map pub_id pubs) (working w))).
  - apply triple_exists. intros pubs. apply triple_pure. intros ->.
    apply delete_publications_sound.
  - intros w [Hs Hrs]. destruct (lookup_covered chosen rs _ Hrs) as (pubs & H1 & H2).
    exists pubs. auto.
Qed.

(** ** The three delete cascades *)

Lemma not_awaited_sound : forall text st E,
  decode text [] = Some st -> is_control st = true ->
  triple sound (not_awaited (client_query pg text [])) (fun _ w => sound w) E.
Proof.
  intros text st E Hd Hst.
  eapply triple_not_awaited; [exact (control_sound text st Hd Hst)| |]; auto.
Qed.

Lemma deleteVideoGame_sound : forall id,
  triple (fun w => sound w /\ tx w = None) (VideoGameCascade.deleteVideoGame id)
    (fun _ w => sound w) (fun _ w => sound w).
Proof.
  intros [id|]; unfold VideoGameCascade.deleteVideoGame.
  - eapply triple_try_catch with (R := fun _ w => sound w).
    + eapply triple_bind.
      { unfold PublicationModel.getPublication_ofVideoGame.
        eapply triple_pre.
        - apply (statement_sound (fun _ => True)
                   (fun a s => rows a = map publication_row
                                          (filter (of_video_game id) (publications s)))
                   (GetPublicationsOfVideoGame id) eq_refl).
          intros s a Hi _ Ha. cbn in Ha. inversion Ha; subst a. cbn. auto.
        - intros w [Hs _]. auto. }
      intros a. cbv beta.
      destruct (Nat.eqb (List.length (rows a)) 0).
      * eapply triple_pre; [apply send_keeps_sound|]. now intros w [Hs _].
      * eapply triple_bind with
          (R := fun _ w =>
                  sound w
                  /\ rows a = map publication_row
                                (filter (of_video_game id) (publications (working w)))).
        { eapply triple_not_awaited.
          - apply (begin_keeps
                     (fun s => rows a = map publication_row
                                          (filter (of_video_game id) (publications s)))).
          - intros u w H. exact H.
          - intros e w H. exact H. }
        intros ?.
        eapply triple_bind.
        { change (for_of ?l _) with (for_of l delete_publication).
          apply (delete_looked_up_sound (of_video_game id)). }
        intros ?.
        eapply triple_bind.
        { unfold CategoryModel.deleteCategoriesFromVideoGame.
          apply (statement_sound (none_chosen (of_video_game id))
                   (fun _ s => none_chosen (of_video_game id) s
                               /\ forall l, In l (category_links s) -> cl_video_game_id l <> id)
                   (DeleteCategoriesFromVideoGame id) eq_refl).
          intros s b Hi Hnone _. cbn [apply snd].
          split; [now apply delete_links_sound|]. split; [exact Hnone|].
          intros l Hin. cbn in Hin. apply filter_In in Hin as [_ Hl].
          apply negb_true_iff in Hl. now apply Z.eqb_neq. }
        intros ?.
        eapply triple_bind.
        { unfold VideoGameModel.deleteVideoGame.
          apply (query_sound
                   (fun s => none_chosen (of_video_game id) s
                             /\ forall l, In l (category_links s) -> cl_video_game_id l <> id)
                   (fun _ _ => True) (DeleteVideoGame id) eq_refl);
            [|reflexivity].
          intros s b Hi [Hnone Hlinks] _. cbn [apply snd]. split; [|exact I].
          apply delete_video_game_sound; auto.
          intros p Hin. specialize (Hnone p Hin). unfold of_video_game in Hnone.
          now apply Z.eqb_neq. }
        intros ?.
        eapply triple_bind.
        { eapply triple_pre; [eapply not_awaited_sound; reflexivity|]. now intros w [Hs _]. }
        intros ?. apply send_keeps_sound.
    + intros e.
      eapply triple_bind; [eapply not_awaited_sound; reflexivity|]. intros ?.
      apply send_keeps_sound.
  - eapply triple_pre; [apply send_keeps_sound|]. now intros w [Hs _].
Qed.

(** X24.  [deleteVideoGame] keeps the foreign keys whatever fails, with
    or without its transaction: it deletes the games of a publication
    before the publication, and the publications and category links of
    the video game before the video game, and stops at the first
    statement that fails; so from rows in which every publication, game
    and category link refers to existing rows, the committed rows it
    leaves are such rows again. *)
Theorem deleteVideoGame_keeps_integrity :
  forall (s : Store) (f : list (ArtifactKey * Image))
         (db_faults file_faults : list (option JsError)) (id : option Z),
    integrity s = true ->
    integrity
      (committed (after (VideoGameCascade.deleteVideoGame id)
                    (initial_world s f db_faults file_faults))) = true.
Proof.
  intros s f dbf ff id Hi. unfold after.
  pose proof (deleteVideoGame_sound id (mkClient (initial_world s f dbf ff) [])
                (conj (sound_initial s f dbf ff Hi) eq_refl)) as H.
  destruct (VideoGameCascade.deleteVideoGame id (mkClient (initial_world s f dbf ff) []))
    as [[[]|e] c']; exact (proj1 H).
Qed.

Lemma deleteVideoGame_keeps_integrity_witness :
  integrity example_store = true
  /\ integrity
       (committed
          (after (VideoGameCascade.deleteVideoGame (Some 1%Z))
             (initial_world example_store example_files
                [None; Some (Error "rejected"); None; None; Some (Error "rejected")] [])))
     = true.
Proof.
  assert (H : integrity example_store = true) by reflexivity.
  split; [exact H|].
  exact (deleteVideoGame_keeps_integrity example_store example_files
           [None; Some (Error "rejected"); None; None; Some (Error "rejected")] []
           (Some 1%Z) H).
Defined.

Lemma deleteImage_sound : forall name dest,
  triple sound (ImageManager.deleteImage name dest) (fun _ w => sound w) (fun _ w => sound w).
Proof.
  intros name dest c H. unfold ImageManager.deleteImage.
  destruct (next_fault (file_faults (db c))) as [[e|] rest]; exact H.
Qed.

Lemma deletePlatform_sound : forall params_code,
  triple sound (deletePlatform params_code) (fun _ w => sound w) (fun _ w => sound w).
Proof.
  intros params_code. unfold deletePlatform.
  set (code := toUpperCase params_code).
  eapply triple_try_catch with (R := fun _ w => sound w).
  - eapply triple_bind; [eapply control_sound; reflexivity|]. intros ?.
    eapply triple_bind.
    { unfold PublicationModel.getPublication_ofPlatform.
      eapply triple_pre.
      - apply (statement_sound (fun _ => True)
                 (fun a s => rows a = map publication_row
                                        (filter (of_platform code) (publications s)))
                 (GetPublicationsOfPlatform code) eq_refl).
        intros s res Hi _ Ha. cbn in Ha. inversion Ha; subst res.
        split; [exact Hi | reflexivity].
      - intros w Hs. split; [exact Hs | exact I]. }
    intros found. cbv beta.
    eapply triple_bind.
    { change (for_of ?l _) with (for_of l delete_publication).
      apply (delete_looked_up_sound (of_platform code)). }
    intros ?.
    eapply triple_bind.
    { unfold PlatformModel.deletePlatform.
      apply (statement_sound (none_chosen (of_platform code)) (fun _ _ => True)
               (DeletePlatform code) eq_refl).
      intros s b Hi Hnone _. cbn [apply snd]. split; [|exact I].
      apply delete_platform_sound; auto.
      intros p Hin. specialize (Hnone p Hin). unfold of_platform in Hnone.
      now apply String.eqb_neq. }
    intros b. cbv beta.
    apply triple_pre with (P' := sound); [|now intros w [Hs _]].
    destruct (Nat.eqb (rowCount b) 0).
    + eapply triple_bind; [apply send_keeps_sound|]. intros ?.
      eapply triple_bind; [eapply control_sound; reflexivity|]. intros ?.
      intros c H. exact H.
    + eapply triple_bind; [eapply control_sound; reflexivity|]. intros ?.
      eapply triple_bind; [apply deleteImage_sound|]. intros ?.
      apply send_keeps_sound.
  - intros e.
    eapply triple_bind; [eapply control_sound; reflexivity|]. intros ?.
    apply send_keeps_sound.
Qed.

Lemma deleteUser_sound : forall id,
  triple sound (UserCascade.deleteUser id) (fun _ w => sound w) (fun _ w => sound w).
Proof.
  intros [userId|]; unfold UserCascade.deleteUser; [|apply send_keeps_sound].
  eapply triple_try_catch with (R := fun _ w => sound w).
  - eapply triple_bind with (R := fun _ w => sound w).
    { unfold UserModel.isAdmin.
      eapply triple_bind with (R := fun _ w => sound w).
      - eapply triple_consequence.
        + apply (query_sound (fun _ => True) (fun _ _ => True) (IsAdmin userId) eq_refl);
            [|reflexivity].
          intros s res Hi _ _. cbn [apply snd]. auto.
        + intros w Hs. split; [exact Hs | exact I].
        + now intros res w [Hs _].
        + auto.
      - intros a. unfold UserModel.first_row_no. destruct (rows a); intros c H; exact H. }
    intros [|]; cbv beta; [apply send_keeps_sound|].
    eapply triple_bind; [eapply control_sound; reflexivity|]. intros ?.
    eapply triple_bind.
    { unfold GameModel.deleteGamesFromUser.
      eapply triple_pre.
      - apply (statement_sound (fun _ => True)
                 (fun _ s => forall g, In g (games s) -> game_user_id g <> userId)
                 (DeleteGamesFromUser userId) eq_refl).
        intros s res Hi _ _. cbn [apply snd]. split; [now apply delete_games_sound|].
        intros g Hin. cbn in Hin. apply filter_In in Hin as [_ Hg].
        apply negb_true_iff in Hg. now apply Z.eqb_neq.
      - intros w Hs. split; [exact Hs | exact I]. }
    intros ?.
    eapply triple_bind.
    { unfold UserModel.deleteUser.
      apply (query_sound
               (fun s => forall g, In g (games s) -> game_user_id g <> userId)
               (fun _ _ => True) (DeleteUser userId) eq_refl); [|reflexivity].
      intros s b Hi Hfree _. cbn [apply snd]. split; [|exact I].
      now apply delete_user_sound. }
    intros b. cbv beta.
    apply triple_pre with (P' := sound); [|now intros w [Hs _]].
    destruct (Nat.eqb (rowCount b) 0).
    + eapply triple_bind; [eapply control_sound; reflexivity|]. intros ?.
      apply send_keeps_sound.
    + eapply triple_bind; [eapply control_sound; reflexivity|]. intros ?.
      apply send_keeps_sound.
  - intros e.
    eapply triple_bind; [eapply control_sound; reflexivity|]. intros ?.
    apply send_keeps_sound.
Qed.

(** X25.  [deletePlatform] and [deleteUser] keep the foreign keys
    whatever fails: from rows in which every publication, game and
    category link refers to existing rows, the committed rows they leave
    are such rows again. *)
Theorem deletePlatform_and_deleteUser_keep_integrity :
  forall (s : Store) (f : list (ArtifactKey * Image))
         (db_faults file_faults : list (option JsError)) (code : string) (id : option Z),
    integrity s = true ->
    integrity
      (committed (after (deletePlatform code) (initial_world s f db_faults file_faults)))
    = true
    /\ integrity
         (committed (after (UserCascade.deleteUser id)
                       (initial_world s f db_faults file_faults)))
       = true.
Proof.
  intros s f dbf ff code id Hi. unfold after. split.
  - pose proof (deletePlatform_sound code (mkClient (initial_world s f dbf ff) [])
                  (sound_initial s f dbf ff Hi)) as H.
    destruct (deletePlatform code (mkClient (initial_world s f dbf ff) [])) as [[[]|e] c'];
      exact (proj1 H).
  - pose proof (deleteUser_sound id (mkClient (initial_world s f dbf ff) [])
                  (sound_initial s f dbf ff Hi)) as H.
    destruct (UserCascade.deleteUser id (mkClient (initial_world s f dbf ff) []))
      as [[[]|e] c']; exact (proj1 H).
Qed.

Lemma deletePlatform_and_deleteUser_keep_integrity_witness :
  integrity example_store = true
  /\ integrity
       (committed (after (deletePlatform "pc")
                     (initial_world example_store example_files [] [])))
     = true
  /\ integrity
       (committed (after (UserCascade.deleteUser (Some 101%Z))
                     (initial_world example_store example_files [] [])))
     = true.
Proof.
  assert (H : integrity example_store = true) by reflexivity.
  split; [exact H|].
  exact (deletePlatform_and_deleteUser_keep_integrity example_store example_files [] []
           "pc" (Some 101%Z) H).
Defined.

(* ================================================================= *)
(** * Part VII.  Deleting what is not there *)

Lemma existsb_false_filter : forall (A : Type) (p : A -> bool) l,
  existsb p l = false -> filter p l = [].
Proof.
  intros A p l H. apply filter_none. intros x Hin. exact (existsb_false_in _ _ _ x H Hin).
Qed.

Lemma deleteVideoGame_unpublished : forall s f ff id,
  existsb (of_video_game id) (publications s) = false ->
  after (VideoGameCascade.deleteVideoGame (Some id)) (initial_world s f [] ff)
  = mkWorld s None [] f ff
      [Sql (GetPublicationsOfVideoGame id) true; Responded (Send 404 "No video game found")]
      (Some (Send 404 "No video game found")).
Proof.
  intros s f ff id H. pose proof (existsb_false_filter _ _ _ H) as Hnone.
  unfold of_video_game in Hnone.
  unfold after, VideoGameCascade.deleteVideoGame, try_catch, bind,
    PublicationModel.getPublication_ofVideoGame, statement, initial_world.
  cbn. rewrite Hnone. reflexivity.
Qed.

Lemma deletePlatform_absent : forall s f ff code,
  existsb (of_platform (toUpperCase code)) (publications s) = false ->
  existsb (has_code (toUpperCase code)) (platforms s) = false ->
  after (deletePlatform code) (initial_world s f [] ff)
  = mkWorld s None [] f ff
      [Sql BEGIN true; Sql (GetPublicationsOfPlatform (toUpperCase code)) true;
       Sql (DeletePlatform (toUpperCase code)) true;
       Responded (Json 404 "RESOURCE_NOT_FOUND" "No platform found");
       Sql ROLLBACK true]
      (Some (Json 404 "RESOURCE_NOT_FOUND" "No platform found")).
Proof.
  intros s f ff code Hpubs Hno.
  pose proof (existsb_false_filter _ _ _ Hpubs) as Hnone. unfold of_platform in Hnone.
  pose proof (deleted_none _ _ _ Hno) as Hcount. unfold has_code in Hcount.
  unfold after, deletePlatform, try_catch, bind,
    PublicationModel.getPublication_ofPlatform, PlatformModel.deletePlatform, statement,
    initial_world, client_query, pg.
  cbn. rewrite Hnone. cbn. rewrite Hcount. cbn. reflexivity.
Qed.

(** X26.  A video game without publication cannot be deleted:
    [deleteVideoGame] learns whether the video game exists from the
    lookup of its publications, so when there is none it answers 404 "No
    video game found" and deletes nothing, also when the row of the
    video game and category links of it exist. *)
Theorem deleteVideoGame_without_publication :
  forall (s : Store) (f : list (ArtifactKey * Image)) (file_faults : list (option JsError))
         (id : Z),
    existsb (of_video_game id) (publications s) = false ->
    after (VideoGameCascade.deleteVideoGame (Some id)) (initial_world s f [] file_faults)
    = mkWorld s None [] f file_faults
        [Sql (GetPublicationsOfVideoGame id) true;
         Responded (Send 404 "No video game found")]
        (Some (Send 404 "No video game found")).
Proof. intros s f ff id H. now apply deleteVideoGame_unpublished. Qed.

Lemma deleteVideoGame_without_publication_witness :
  existsb (of_video_game 3) (publications example_store) = false
  /\ existsb (fun v => Z.eqb (vg_id v) 3) (video_games example_store) = true
  /\ committed (after (VideoGameCascade.deleteVideoGame (Some 3%Z))
                  (initial_world example_store example_files [] []))
     = example_store.
Proof.
  assert (H : existsb (of_video_game 3) (publications example_store) = false) by reflexivity.
  split; [exact H|]. split; [reflexivity|].
  rewrite (deleteVideoGame_without_publication example_store example_files [] 3 H).
  reflexivity.
Defined.

(** X27.  Deleting twice: once a delete cascade has answered 204, the
    same request on the rows it left answers 404 and changes nothing, for
    a video game, for a platform and for a user. *)
Theorem delete_twice :
  forall (s : Store) (f : list (ArtifactKey * Image)) (id : Z) (code : string) (userId : Z),
    existsb (of_video_game id) (publications s) = true ->
    existsb (has_code (toUpperCase code)) (platforms s) = true ->
    existsb (is_admin_user userId) (users s) = false ->
    existsb (has_user_id userId) (users s) = true ->
    (response (after (VideoGameCascade.deleteVideoGame (Some id)) (initial_world s f [] []))
     = Some (SendStatus 204)
     /\ response
          (after (VideoGameCascade.deleteVideoGame (Some id))
             (initial_world
                (committed (after (VideoGameCascade.deleteVideoGame (Some id))
                              (initial_world s f [] [])))
                f [] []))
        = Some (Send 404 "No video game found")
     /\ committed
          (after (VideoGameCascade.deleteVideoGame (Some id))
             (initial_world
                (committed (after (VideoGameCascade.deleteVideoGame (Some id))
                              (initial_world s f [] [])))
                f [] []))
        = committed (after (VideoGameCascade.deleteVideoGame (Some id))
                       (initial_world s f [] [])))
    /\ (response (after (deletePlatform code) (initial_world s f [] []))
        = Some (SendStatus 204)
        /\ response
             (after (deletePlatform code)
                (initial_world
                   (committed (after (deletePlatform code) (initial_world s f [] [])))
                   (files (after (deletePlatform code) (initial_world s f [] [])))
                   [] []))
           = Some (Json 404 "RESOURCE_NOT_FOUND" "No platform found")
        /\ committed
             (after (deletePlatform code)
                (initial_world
                   (committed (after (deletePlatform code) (initial_world s f [] [])))
                   (files (after (deletePlatform code) (initial_world s f [] [])))
                   [] []))
           = committed (after (deletePlatform code) (initial_world s f [] [])))
    /\ (response (after (UserCascade.deleteUser (Some userId)) (initial_world s f [] []))
        = Some (SendStatus 204)
        /\ response
             (after (UserCascade.deleteUser (Some userId))
                (initial_world
                   (committed (after (UserCascade.deleteUser (Some userId))
                                 (initial_world s f [] [])))
                   f [] []))
           = Some (Json 404 "RESOURCE_NOT_FOUND" "No user found")
        /\ committed
             (after (UserCascade.deleteUser (Some userId))
                (initial_world
                   (committed (after (UserCascade.deleteUser (Some userId))
                                 (initial_world s f [] [])))
                   f [] []))
           = committed (after (UserCascade.deleteUser (Some userId))
                          (initial_world s f [] []))).
Proof.
  intros s f id code userId Hvg Hpf Hnotadmin Huser.
  split; [|split].
  - rewrite (deleteVideoGame_run s f [] id Hvg). cbn [response committed].
    destruct (without_video_game_clean id s) as (_ & Hpubs & _).
    rewrite (deleteVideoGame_unpublished _ f [] id Hpubs). repeat split; reflexivity.
  - rewrite (deletePlatform_run s f [] code Hpf I). cbn [response committed files tl].
    destruct (without_platform_clean (toUpperCase code) s) as (Hgone & Hpubs & _).
    rewrite (deletePlatform_absent _ _ [] code Hpubs Hgone). repeat split; reflexivity.
  - rewrite (deleteUser_member s f [] userId Hnotadmin Huser). cbn [response committed].
    assert (Hgone : existsb (has_user_id userId) (users (without_user userId s)) = false).
    { unfold without_user. cbn. apply existsb_filter_false.
      intros x _ H. now apply negb_true_iff in H. }
    rewrite (deleteUser_missing_run _ f [] userId Hgone). repeat split; reflexivity.
Qed.

Lemma delete_twice_witness :
  existsb (of_video_game 1) (publications example_store) = true
  /\ existsb (has_code (toUpperCase "ps5")) (platforms example_store) = true
  /\ existsb (is_admin_user 101) (users example_store) = false
  /\ existsb (has_user_id 101) (users example_store) = true
  /\ response
       (after (deletePlatform "ps5")
          (initial_world
             (committed (after (deletePlatform "ps5")
                           (initial_world example_store example_files [] [])))
             (files (after (deletePlatform "ps5")
                       (initial_world example_store example_files [] [])))
             [] []))
     = Some (Json 404 "RESOURCE_NOT_FOUND" "No platform found").
Proof.
  assert (H1 : existsb (of_video_game 1) (publications example_store) = true) by reflexivity.
  assert (H2 : existsb (has_code (toUpperCase "ps5")) (platforms example_store) = true)
    by reflexivity.
  assert (H3 : existsb (is_admin_user 101) (users example_store) = false) by reflexivity.
  assert (H4 : existsb (has_user_id 101) (users example_store) = true) by reflexivity.
  repeat (split; [assumption|]).
  exact (proj1 (proj2 (proj1 (proj2
    (delete_twice example_store example_files 1 "ps5" 101 H1 H2 H3 H4))))).
Defined.
